(** * pyspur: the LLM adapter helpers of backend/app/nodes/llm/_utils.py

    A shallow embedding of the request-shaping helpers of the module and
    the properties the specification states about them.  Python values
    are modelled as the code has them: [str] as [string] (the bytes of
    its UTF-8 encoding), [int] as [Z], [float] as binary64 floats, dicts
    as finite maps (or as association lists where the insertion order is
    observable), exceptions as an explicit error type.  The waits of the
    retry decorators, in seconds, are rationals: the values that occur
    (30, 120 and powers of two) are exact in either representation.

    The libraries the module calls are modelled as far as the module
    uses them: [json.loads] (a scanner after [json.decoder]), tenacity's
    retry loop and strategies, pydantic's field validation, and the part
    of docx2python's result that is read.  What comes from other modules
    of the repository ([setup_azure_configuration]) and the answers of
    litellm are parameters. *)

From Stdlib Require Import ZArith QArith Qminmax Lqa Floats Ascii String List Lia Bool.
From stdpp Require Import gmap strings list option pretty.

Set Warnings "-inexact-float,-register-all".
Local Open Scope string_scope.
Local Open Scope list_scope.

(** ** Python string primitives used by the module *)

Module Py.

(** [s.startswith(p)] *)
Definition startswith (s p : string) : bool := String.prefix p s.

(** truth value of a [str]: the empty string is false *)
Definition truthy (s : string) : bool :=
  match s with EmptyString => false | String _ _ => true end.

(** truth value of an [Optional[str]], as in [if os.getenv(..)] or
    [if value] *)
Definition opt_truthy (o : option string) : bool :=
  match o with Some s => truthy s | None => false end.

(** [s.replace(c, r)] for a pattern [c] of length one *)
Fixpoint replace1 (c : ascii) (r : string) (s : string) : string :=
  match s with
  | EmptyString => EmptyString
  | String a s' =>
      if Ascii.eqb a c then r +:+ replace1 c r s'
      else String a (replace1 c r s')
  end.

(** [s.split(c)[0]]: the part of [s] before the first [c] *)
Fixpoint before (c : ascii) (s : string) : string :=
  match s with
  | EmptyString => EmptyString
  | String a s' => if Ascii.eqb a c then EmptyString else String a (before c s')
  end.

(** iterating over a [str] yields its characters, each a [str] of
    length one; read here from the bytes of the text, which are its
    characters for a text in ASCII (see [is_ascii]) *)
Fixpoint iter_str (s : string) : list string :=
  match s with
  | EmptyString => []
  | String a s' => String a EmptyString :: iter_str s'
  end.

(** every character of [s] is in ASCII, so that the bytes of [s] are
    its characters *)
Fixpoint is_ascii (s : string) : bool :=
  match s with
  | EmptyString => true
  | String a s' => (N_of_ascii a <? 128)%N && is_ascii s'
  end.

(** [sep.join(l)] *)
Fixpoint join (sep : string) (l : list string) : string :=
  match l with
  | [] => ""
  | [x] => x
  | x :: l' => x +:+ sep +:+ join sep l'
  end.

(** a dict literal [{k1: v1, ..., kn: vn}]: the pairs are inserted from
    left to right *)
Definition dict_literal {V} (l : list (string * V)) : gmap string V :=
  foldl (fun m kv => <[kv.1 := kv.2]> m) ∅ l.

Definition nl : string := String (ascii_of_nat 10) EmptyString.
Definition dquote : ascii := ascii_of_nat 34.
Definition backslash : ascii := ascii_of_nat 92.

(** An exception object, by the names of the classes of its type from
    the most derived one up to [BaseException] (its method resolution
    order), and its message. *)
Record exn := { exn_mro : list string; exn_msg : string }.

Definition exception (cls : string) (msg : string) : exn :=
  {| exn_mro := [cls; "Exception"; "BaseException"]; exn_msg := msg |}.

Definition KeyError (key : string) : exn :=
  {| exn_mro := ["KeyError"; "LookupError"; "Exception"; "BaseException"];
     exn_msg := key |}.
Definition TypeError (msg : string) : exn := exception "TypeError" msg.
Definition AttributeError (msg : string) : exn := exception "AttributeError" msg.
Definition ValueError (msg : string) : exn := exception "ValueError" msg.
Definition JSONDecodeError (msg : string) : exn :=
  {| exn_mro := ["JSONDecodeError"; "ValueError"; "Exception"; "BaseException"];
     exn_msg := msg |}.

(** a call either returns a value or raises *)
Inductive result (A : Type) :=
| Ok (a : A)
| Raise (e : exn).
Arguments Ok {A} a.
Arguments Raise {A} e.

Definition bind {A B} (r : result A) (k : A -> result B) : result B :=
  match r with Ok a => k a | Raise e => Raise e end.

(** [d[k]] on a dict with string keys *)
Definition getitem {V} (d : gmap string V) (k : string) : result V :=
  match d !! k with Some v => Ok v | None => Raise (KeyError k) end.

End Py.

#[global] Instance result_bind : MBind Py.result := fun _ _ k r => Py.bind r k.

(** ** The model registry (lines 47-342) *)

Module Registry.

Inductive LLMProvider :=
| OPENAI | ANTHROPIC | GEMINI | OLLAMA | AZURE_OPENAI | DEEPSEEK.

Definition provider_value (p : LLMProvider) : string :=
  match p with
  | OPENAI => "openai"
  | ANTHROPIC => "anthropic"
  | GEMINI => "gemini"
  | OLLAMA => "ollama"
  | AZURE_OPENAI => "azure"
  | DEEPSEEK => "deepseek"
  end.

Record ModelConstraints := {
  mc_max_tokens : Z;
  min_temperature : float;
  max_temperature : float;
  supports_JSON_output : bool
}.

(** [ModelConstraints(max_tokens=.., max_temperature=..)]: the fields
    left out take their defaults, [min_temperature = 0.0] and
    [supports_JSON_output = True]. *)
Definition constraints (max_tokens : Z) (max_temp : float) : ModelConstraints :=
  {| mc_max_tokens := max_tokens; min_temperature := 0.0%float;
     max_temperature := max_temp; supports_JSON_output := true |}.

Definition constraints_no_json (max_tokens : Z) (max_temp : float) : ModelConstraints :=
  {| mc_max_tokens := max_tokens; min_temperature := 0.0%float;
     max_temperature := max_temp; supports_JSON_output := false |}.

Record LLMModel := {
  id : string;
  provider : LLMProvider;
  name : string;
  model_constraints : ModelConstraints
}.

Inductive LLMModels :=
| GPT_4O_MINI | GPT_4O | O1_PREVIEW | O1_MINI | O1 | O1_2024_12_17
| O1_MINI_2024_09_12 | O1_PREVIEW_2024_09_12 | GPT_4_TURBO | CHATGPT_4O_LATEST
| AZURE_GPT_4 | AZURE_GPT_4_TURBO | AZURE_GPT_35_TURBO
| CLAUDE_3_5_SONNET_LATEST | CLAUDE_3_5_HAIKU_LATEST | CLAUDE_3_OPUS_LATEST
| GEMINI_2_0_FLASH_EXP | GEMINI_1_5_PRO | GEMINI_1_5_FLASH
| GEMINI_1_5_PRO_LATEST | GEMINI_1_5_FLASH_LATEST
| DEEPSEEK_CHAT | DEEPSEEK_REASONER
| OLLAMA_PHI4 | OLLAMA_LLAMA3_3_70B | OLLAMA_LLAMA3_3_8B | OLLAMA_LLAMA3_2_8B
| OLLAMA_LLAMA3_2_1B | OLLAMA_LLAMA3_8B | OLLAMA_GEMMA_2 | OLLAMA_GEMMA_2_2B
| OLLAMA_MISTRAL | OLLAMA_CODELLAMA | OLLAMA_MIXTRAL | OLLAMA_DEEPSEEK_R1.

Definition value (m : LLMModels) : string :=
  match m with
  | GPT_4O_MINI => "openai/gpt-4o-mini"
  | GPT_4O => "openai/gpt-4o"
  | O1_PREVIEW => "openai/o1-preview"
  | O1_MINI => "openai/o1-mini"
  | O1 => "openai/o1"
  | O1_2024_12_17 => "openai/o1-2024-12-17"
  | O1_MINI_2024_09_12 => "openai/o1-mini-2024-09-12"
  | O1_PREVIEW_2024_09_12 => "openai/o1-preview-2024-09-12"
  | GPT_4_TURBO => "openai/gpt-4-turbo"
  | CHATGPT_4O_LATEST => "openai/chatgpt-4o-latest"
  | AZURE_GPT_4 => "azure/gpt-4"
  | AZURE_GPT_4_TURBO => "azure/gpt-4-turbo"
  | AZURE_GPT_35_TURBO => "azure/gpt-35-turbo"
  | CLAUDE_3_5_SONNET_LATEST => "anthropic/claude-3-5-sonnet-latest"
  | CLAUDE_3_5_HAIKU_LATEST => "anthropic/claude-3-5-haiku-latest"
  | CLAUDE_3_OPUS_LATEST => "anthropic/claude-3-opus-latest"
  | GEMINI_2_0_FLASH_EXP => "gemini/gemini-2.0-flash-exp"
  | GEMINI_1_5_PRO => "gemini/gemini-1.5-pro"
  | GEMINI_1_5_FLASH => "gemini/gemini-1.5-flash"
  | GEMINI_1_5_PRO_LATEST => "gemini/gemini-1.5-pro-latest"
  | GEMINI_1_5_FLASH_LATEST => "gemini/gemini-1.5-flash-latest"
  | DEEPSEEK_CHAT => "deepseek/deepseek-chat"
  | DEEPSEEK_REASONER => "deepseek/deepseek-reasoner"
  | OLLAMA_PHI4 => "ollama/phi4"
  | OLLAMA_LLAMA3_3_70B => "ollama/llama3.3:70b"
  | OLLAMA_LLAMA3_3_8B => "ollama/llama3.3:8b"
  | OLLAMA_LLAMA3_2_8B => "ollama/llama3.2:8b"
  | OLLAMA_LLAMA3_2_1B => "ollama/llama3.2:1b"
  | OLLAMA_LLAMA3_8B => "ollama/llama3"
  | OLLAMA_GEMMA_2 => "ollama/gemma2"
  | OLLAMA_GEMMA_2_2B => "ollama/gemma2:2b"
  | OLLAMA_MISTRAL => "ollama/mistral"
  | OLLAMA_CODELLAMA => "ollama/codellama"
  | OLLAMA_MIXTRAL => "ollama/mixtral-8x7b-instruct-v0.1"
  | OLLAMA_DEEPSEEK_R1 => "ollama/deepseek-r1"
  end.

(** every member of the enum, in declaration order *)
Definition members : list LLMModels :=
  [ GPT_4O_MINI; GPT_4O; O1_PREVIEW; O1_MINI; O1; O1_2024_12_17;
    O1_MINI_2024_09_12; O1_PREVIEW_2024_09_12; GPT_4_TURBO; CHATGPT_4O_LATEST;
    AZURE_GPT_4; AZURE_GPT_4_TURBO; AZURE_GPT_35_TURBO;
    CLAUDE_3_5_SONNET_LATEST; CLAUDE_3_5_HAIKU_LATEST; CLAUDE_3_OPUS_LATEST;
    GEMINI_2_0_FLASH_EXP; GEMINI_1_5_PRO; GEMINI_1_5_FLASH;
    GEMINI_1_5_PRO_LATEST; GEMINI_1_5_FLASH_LATEST;
    DEEPSEEK_CHAT; DEEPSEEK_REASONER;
    OLLAMA_PHI4; OLLAMA_LLAMA3_3_70B; OLLAMA_LLAMA3_3_8B; OLLAMA_LLAMA3_2_8B;
    OLLAMA_LLAMA3_2_1B; OLLAMA_LLAMA3_8B; OLLAMA_GEMMA_2; OLLAMA_GEMMA_2_2B;
    OLLAMA_MISTRAL; OLLAMA_CODELLAMA; OLLAMA_MIXTRAL; OLLAMA_DEEPSEEK_R1 ].

(** one entry of the registry literal: [cls.M.value: LLMModel(id=cls.M.value, ..)] *)
Definition entry (m : LLMModels) (p : LLMProvider) (n : string)
    (c : ModelConstraints) : string * LLMModel :=
  (value m, {| id := value m; provider := p; name := n; model_constraints := c |}).

(** the pairs of the [model_registry] dict literal, in source order *)
Definition registry_entries : list (string * LLMModel) :=
  [ entry GPT_4O_MINI OPENAI "GPT-4O Mini" (constraints 16384 2.0);
    entry GPT_4O OPENAI "GPT-4O" (constraints 16384 2.0);
    entry O1_PREVIEW OPENAI "O1 Preview" (constraints 32768 2.0);
    entry O1_MINI OPENAI "O1 Mini" (constraints 65536 2.0);
    entry O1 OPENAI "O1" (constraints 100000 2.0);
    entry O1_2024_12_17 OPENAI "O1 (2024-12-17)" (constraints 100000 2.0);
    entry O1_MINI_2024_09_12 OPENAI "O1 Mini (2024-09-12)" (constraints 65536 2.0);
    entry O1_PREVIEW_2024_09_12 OPENAI "O1 Preview (2024-09-12)" (constraints 32768 2.0);
    entry GPT_4_TURBO OPENAI "GPT-4 Turbo" (constraints 4096 2.0);
    entry CHATGPT_4O_LATEST OPENAI "ChatGPT-4 Optimized Latest" (constraints 4096 2.0);
    entry AZURE_GPT_4 AZURE_OPENAI "Azure GPT-4" (constraints 4096 2.0);
    entry AZURE_GPT_4_TURBO AZURE_OPENAI "Azure GPT-4 Turbo" (constraints 4096 2.0);
    entry AZURE_GPT_35_TURBO AZURE_OPENAI "Azure GPT-3.5 Turbo" (constraints 4096 2.0);
    entry CLAUDE_3_5_SONNET_LATEST ANTHROPIC "Claude 3.5 Sonnet Latest"
      (constraints_no_json 8192 1.0);
    entry CLAUDE_3_5_HAIKU_LATEST ANTHROPIC "Claude 3.5 Haiku Latest"
      (constraints_no_json 8192 1.0);
    entry CLAUDE_3_OPUS_LATEST ANTHROPIC "Claude 3 Opus Latest"
      (constraints_no_json 4096 1.0);
    entry GEMINI_1_5_PRO GEMINI "Gemini 1.5 Pro" (constraints 8192 1.0);
    entry GEMINI_1_5_FLASH GEMINI "Gemini 1.5 Flash" (constraints 8192 1.0);
    entry GEMINI_1_5_PRO_LATEST GEMINI "Gemini 1.5 Pro Latest" (constraints 8192 1.0);
    entry GEMINI_1_5_FLASH_LATEST GEMINI "Gemini 1.5 Flash Latest" (constraints 8192 1.0);
    entry DEEPSEEK_CHAT DEEPSEEK "Deepseek Chat" (constraints_no_json 8192 2.0);
    entry DEEPSEEK_REASONER DEEPSEEK "Deepseek Reasoner" (constraints_no_json 8192 2.0);
    entry OLLAMA_PHI4 OLLAMA "Phi 4" (constraints 4096 2.0);
    entry OLLAMA_LLAMA3_3_70B OLLAMA "Llama 3.3 (70B)" (constraints 4096 2.0);
    entry OLLAMA_LLAMA3_3_8B OLLAMA "Llama 3.3 (8B)" (constraints 4096 2.0);
    entry OLLAMA_LLAMA3_2_8B OLLAMA "Llama 3.2 (8B)" (constraints 4096 2.0);
    entry OLLAMA_LLAMA3_2_1B OLLAMA "Llama 3.2 (1B)" (constraints 4096 2.0);
    entry OLLAMA_LLAMA3_8B OLLAMA "Llama 3 (8B)" (constraints 4096 2.0);
    entry OLLAMA_GEMMA_2 OLLAMA "Gemma 2" (constraints 4096 2.0);
    entry OLLAMA_GEMMA_2_2B OLLAMA "Gemma 2 (2B)" (constraints 4096 2.0);
    entry OLLAMA_MISTRAL OLLAMA "Mistral" (constraints 4096 2.0);
    entry OLLAMA_CODELLAMA OLLAMA "CodeLlama" (constraints 4096 2.0);
    entry OLLAMA_MIXTRAL OLLAMA "Mixtral 8x7B Instruct" (constraints 4096 2.0);
    entry OLLAMA_DEEPSEEK_R1 OLLAMA "Deepseek R1" (constraints 4096 2.0) ].

Definition model_registry : gmap string LLMModel :=
  Py.dict_literal registry_entries.

(** [LLMModels.get_model_info]: [return model_registry.get(model_id)];
    [None] when the key is absent. *)
Definition get_model_info (model_id : string) : option LLMModel :=
  model_registry !! model_id.

(** the part of a model id before the slash *)
Definition provider_prefix (model_id : string) : string :=
  Py.before "/" model_id.

(** what the specification asks of a lookup *)
Definition well_registered (m : LLMModels) : Prop :=
  exists info, get_model_info (value m) = Some info
               /\ id info = value m
               /\ provider_value (provider info) = provider_prefix (value m).

End Registry.

(** ** Chat messages (lines 369-383) *)

Module Messages.
Import Py.

(** a message or a few-shot example: a [Dict[str, str]] *)
Abbreviation message := (gmap string string).

(** [{"role": role, "content": content}] *)
Definition mk_message (role content : string) : message :=
  dict_literal [("role", role); ("content", content)].

(** the loop over [few_shot_examples]: two appends per example; the
    subscripts [example["input"]] and [example["output"]] raise
    [KeyError] when the key is missing. *)
Fixpoint append_examples (messages : list message) (examples : list message)
    : result (list message) :=
  match examples with
  | [] => Ok messages
  | example :: rest =>
      input ← getitem example "input";
      let messages := messages ++ [mk_message "user" input] in
      output ← getitem example "output";
      let messages := messages ++ [mk_message "assistant" output] in
      append_examples messages rest
  end.

(** [if xs:] on an [Optional[List]]: [None] and the empty list are
    both false, so either way nothing is appended. *)
Definition or_empty {A} (xs : option (list A)) : list A :=
  match xs with Some l => l | None => [] end.

Definition create_messages (system_message user_message : string)
    (few_shot_examples history : option (list message)) : result (list message) :=
  let messages := [mk_message "system" system_message] in
  messages ← append_examples messages (or_empty few_shot_examples);
  let messages := messages ++ or_empty history in
  Ok (messages ++ [mk_message "user" user_message]).

(** the pair of messages a few-shot example with the given input and
    output stands for *)
Definition example_pair (io : string * string) : list message :=
  [mk_message "user" io.1; mk_message "assistant" io.2].

Definition has_io (example : message) (io : string * string) : Prop :=
  example !! "input" = Some io.1 /\ example !! "output" = Some io.2.

End Messages.

(** ** JSON values and [json.loads] *)

Module Json.
Import Py.

(** The Python values that [json.loads] produces and [json.dumps]
    accepts.  A dict is the list of its items in insertion order, with
    distinct keys.  An [int] is a [Z]; a [float] is kept as the decimal
    literal it was read from. *)
Inductive json :=
| JNull
| JBool (b : bool)
| JInt (z : Z)
| JFloat (literal : string)
| JStr (s : string)
| JArr (items : list json)
| JObj (members : list (string * json)).

(** [type(v).__name__] *)
Definition type_name (v : json) : string :=
  match v with
  | JNull => "NoneType"
  | JBool _ => "bool"
  | JInt _ => "int"
  | JFloat _ => "float"
  | JStr _ => "str"
  | JArr _ => "list"
  | JObj _ => "dict"
  end.

(** [d.get(k)] *)
Fixpoint dict_get {V} (k : string) (d : list (string * V)) : option V :=
  match d with
  | [] => None
  | (k', v) :: d' => if String.eqb k k' then Some v else dict_get k d'
  end.

(** [k in d] *)
Definition dict_mem {V} (k : string) (d : list (string * V)) : bool :=
  match dict_get k d with Some _ => true | None => false end.

(** [d[k] = v]: an existing key keeps its place, a new key goes last *)
Fixpoint dict_set {V} (k : string) (v : V) (d : list (string * V)) : list (string * V) :=
  match d with
  | [] => [(k, v)]
  | (k', v') :: d' =>
      if String.eqb k k' then (k, v) :: d' else (k', v') :: dict_set k v d'
  end.

(** [dict(pairs)] *)
Definition dict_of_pairs {V} (pairs : list (string * V)) : list (string * V) :=
  foldl (fun d kv => dict_set kv.1 kv.2 d) [] pairs.

(** the outcome of scanning a prefix of the text *)
Inductive scan (A : Type) :=
| Scanned (a : A) (rest : string)
| Invalid (msg : string)
| NoFuel.
Arguments Scanned {A} a rest.
Arguments Invalid {A} msg.
Arguments NoFuel {A}.

Definition code (c : ascii) : N := N_of_ascii c.

(** the whitespace of [json.decoder]: space, tab, line feed, carriage return *)
Definition is_ws (c : ascii) : bool :=
  let n := code c in
  (n =? 32)%N || (n =? 9)%N || (n =? 10)%N || (n =? 13)%N.

Fixpoint skip_ws (s : string) : string :=
  match s with
  | String c r => if is_ws c then skip_ws r else s
  | EmptyString => EmptyString
  end.

Definition is_digit (c : ascii) : bool :=
  let n := code c in (48 <=? n)%N && (n <=? 57)%N.

Definition hex_value (c : ascii) : option N :=
  let n := code c in
  if (48 <=? n)%N && (n <=? 57)%N then Some (n - 48)%N
  else if (97 <=? n)%N && (n <=? 102)%N then Some (n - 87)%N
  else if (65 <=? n)%N && (n <=? 70)%N then Some (n - 55)%N
  else None.

(** [_decode_uXXXX]: the four hexadecimal digits after [\u] *)
Definition decode_uXXXX (s : string) : option (N * string) :=
  match s with
  | String a (String b (String c (String d r))) =>
      match hex_value a, hex_value b, hex_value c, hex_value d with
      | Some x, Some y, Some z, Some w =>
          Some (((x * 16 + y) * 16 + z) * 16 + w, r)%N
      | _, _, _, _ => None
      end
  | _ => None
  end.

Definition byte (n : N) : ascii := ascii_of_N n.

(** [chr(cp)], as the bytes of its UTF-8 encoding *)
Definition chr_utf8 (cp : N) : string :=
  if (cp <? 128)%N then String (byte cp) ""
  else if (cp <? 2048)%N then
    String (byte (192 + cp / 64)) (String (byte (128 + cp mod 64)) "")
  else if (cp <? 65536)%N then
    String (byte (224 + cp / 4096))
      (String (byte (128 + (cp / 64) mod 64)) (String (byte (128 + cp mod 64)) ""))
  else
    String (byte (240 + cp / 262144))
      (String (byte (128 + (cp / 4096) mod 64))
         (String (byte (128 + (cp / 64) mod 64)) (String (byte (128 + cp mod 64)) ""))).

(** the [BACKSLASH] table of [json.decoder] *)
Definition unescape (c : ascii) : option ascii :=
  let n := code c in
  if (n =? 34)%N then Some c
  else if (n =? 92)%N then Some c
  else if (n =? 47)%N then Some c
  else if (n =? 98)%N then Some (byte 8)
  else if (n =? 102)%N then Some (byte 12)
  else if (n =? 110)%N then Some (byte 10)
  else if (n =? 114)%N then Some (byte 13)
  else if (n =? 116)%N then Some (byte 9)
  else None.

Definition cons_str (c : string) (r : scan string) : scan string :=
  match r with
  | Scanned s rest => Scanned (c +:+ s) rest
  | Invalid m => Invalid m
  | NoFuel => NoFuel
  end.

(** [py_scanstring] in strict mode, from just after the opening quote:
    the decoded content and the text after the closing quote. *)
Fixpoint scanstring (fuel : nat) (s : string) : scan string :=
  match fuel with
  | O => NoFuel
  | S fuel =>
      match s with
      | EmptyString => Invalid "Unterminated string starting at"
      | String c r =>
          if (code c =? 34)%N then Scanned "" r
          else if (code c =? 92)%N then
            match r with
            | EmptyString => Invalid "Unterminated string starting at"
            | String e r' =>
                if (code e =? 117)%N then
                  match decode_uXXXX r' with
                  | None => Invalid "Invalid \uXXXX escape"
                  | Some (uni, r2) =>
                      if (55296 <=? uni)%N && (uni <=? 56319)%N
                         && String.prefix "\u" r2 then
                        match decode_uXXXX (String.substring 2 (String.length r2 - 2) r2) with
                        | None => Invalid "Invalid \uXXXX escape"
                        | Some (uni2, r3) =>
                            if (56320 <=? uni2)%N && (uni2 <=? 57343)%N then
                              cons_str
                                (chr_utf8 (65536 + ((uni - 55296) * 1024 + (uni2 - 56320))))
                                (scanstring fuel r3)
                            else cons_str (chr_utf8 uni) (scanstring fuel r2)
                        end
                      else cons_str (chr_utf8 uni) (scanstring fuel r2)
                  end
                else
                  match unescape e with
                  | Some ch => cons_str (String ch "") (scanstring fuel r')
                  | None => Invalid "Invalid \escape"
                  end
            end
          else if (code c <? 32)%N then Invalid "Invalid control character at"
          else cons_str (String c "") (scanstring fuel r)
      end
  end.

Fixpoint span_digits (s : string) : string * string :=
  match s with
  | String c r =>
      if is_digit c then let '(ds, rest) := span_digits r in (String c ds, rest)
      else ("", s)
  | EmptyString => ("", "")
  end.

Fixpoint digits_value (acc : Z) (ds : string) : Z :=
  match ds with
  | EmptyString => acc
  | String c r => digits_value (acc * 10 + Z.of_N (code c - 48)) r
  end.

(** [NUMBER_RE]: an optional minus sign, then a zero or a digit string
    that does not start with zero, then optionally a point with digits,
    then optionally an exponent with digits; an integer literal becomes
    an [int], one with a fraction or an exponent a [float]. *)
Definition match_number (s : string) : option (json * string) :=
  let '(sign, s1) :=
    match s with
    | String c r => if (code c =? 45)%N then ("-", r) else ("", s)
    | EmptyString => ("", s)
    end in
  let int_part :=
    match s1 with
    | String c r =>
        if (code c =? 48)%N then Some ("0", r)
        else if is_digit c then
          let '(ds, rest) := span_digits r in Some (String c ds, rest)
        else None
    | EmptyString => None
    end in
  match int_part with
  | None => None
  | Some (ip, s2) =>
      let '(frac, s3) :=
        match s2 with
        | String c r =>
            if (code c =? 46)%N then
              match span_digits r with
              | (EmptyString, _) => ("", s2)
              | (ds, rest) => ("." +:+ ds, rest)
              end
            else ("", s2)
        | EmptyString => ("", s2)
        end in
      let '(exp, s4) :=
        match s3 with
        | String c r =>
            if (code c =? 101)%N || (code c =? 69)%N then
              let '(sg, r1) :=
                match r with
                | String d r' =>
                    if (code d =? 43)%N || (code d =? 45)%N
                    then (String d "", r') else ("", r)
                | EmptyString => ("", r)
                end in
              match span_digits r1 with
              | (EmptyString, _) => ("", s3)
              | (ds, rest) => (String c sg +:+ ds, rest)
              end
            else ("", s3)
        | EmptyString => ("", s3)
        end in
      match frac, exp with
      | EmptyString, EmptyString =>
          let v := digits_value 0 ip in
          Some (JInt (if String.eqb sign "-" then - v else v), s4)
      | _, _ => Some (JFloat (sign +:+ ip +:+ frac +:+ exp), s4)
      end
  end.

Definition drop (n : nat) (s : string) : string :=
  String.substring n (String.length s - n) s.

(** the literals [scan_once] tries when no string, object, array or
    number starts here *)
Definition match_literal (s : string) : option (json * string) :=
  if String.prefix "null" s then Some (JNull, drop 4 s)
  else if String.prefix "true" s then Some (JBool true, drop 4 s)
  else if String.prefix "false" s then Some (JBool false, drop 5 s)
  else
    match match_number s with
    | Some r => Some r
    | None =>
        if String.prefix "NaN" s then Some (JFloat "NaN", drop 3 s)
        else if String.prefix "Infinity" s then Some (JFloat "Infinity", drop 8 s)
        else if String.prefix "-Infinity" s then Some (JFloat "-Infinity", drop 9 s)
        else None
    end.

(** [scan_once], [JSONObject] and [JSONArray] of [json.decoder].
    [object_members] starts just after the opening quote of a key,
    [array_items] at the first character of an item. *)
Fixpoint scan_once (fuel : nat) (s : string) : scan json :=
  match fuel with
  | O => NoFuel
  | S fuel =>
      match s with
      | EmptyString => Invalid "Expecting value"
      | String c r =>
          if (code c =? 34)%N then
            match scanstring (S (String.length r)) r with
            | Scanned str rest => Scanned (JStr str) rest
            | Invalid m => Invalid m
            | NoFuel => NoFuel
            end
          else if (code c =? 123)%N then
            match skip_ws r with
            | String c1 r1 =>
                if (code c1 =? 125)%N then Scanned (JObj []) r1
                else if (code c1 =? 34)%N then object_members fuel [] r1
                else Invalid "Expecting property name enclosed in double quotes"
            | EmptyString => Invalid "Expecting property name enclosed in double quotes"
            end
          else if (code c =? 91)%N then
            match skip_ws r with
            | String c1 r1 =>
                if (code c1 =? 93)%N then Scanned (JArr []) r1
                else array_items fuel [] (String c1 r1)
            | EmptyString => Invalid "Expecting value"
            end
          else
            match match_literal s with
            | Some (v, rest) => Scanned v rest
            | None => Invalid "Expecting value"
            end
      end
  end
with object_members (fuel : nat) (pairs : list (string * json)) (s : string) : scan json :=
  match fuel with
  | O => NoFuel
  | S fuel =>
      match scanstring (S (String.length s)) s with
      | Invalid m => Invalid m
      | NoFuel => NoFuel
      | Scanned key s1 =>
          match skip_ws s1 with
          | String c s2 =>
              if (code c =? 58)%N then
                match scan_once fuel (skip_ws s2) with
                | Invalid m => Invalid m
                | NoFuel => NoFuel
                | Scanned value s3 =>
                    let pairs := pairs ++ [(key, value)] in
                    match skip_ws s3 with
                    | String c4 s4 =>
                        if (code c4 =? 125)%N then Scanned (JObj (dict_of_pairs pairs)) s4
                        else if (code c4 =? 44)%N then
                          match skip_ws s4 with
                          | String c5 s5 =>
                              if (code c5 =? 34)%N then object_members fuel pairs s5
                              else Invalid "Expecting property name enclosed in double quotes"
                          | EmptyString =>
                              Invalid "Expecting property name enclosed in double quotes"
                          end
                        else Invalid "Expecting ',' delimiter"
                    | EmptyString => Invalid "Expecting ',' delimiter"
                    end
                end
              else Invalid "Expecting ':' delimiter"
          | EmptyString => Invalid "Expecting ':' delimiter"
          end
      end
  end
with array_items (fuel : nat) (items : list json) (s : string) : scan json :=
  match fuel with
  | O => NoFuel
  | S fuel =>
      match scan_once fuel s with
      | Invalid m => Invalid m
      | NoFuel => NoFuel
      | Scanned value s1 =>
          let items := items ++ [value] in
          match skip_ws s1 with
          | String c s2 =>
              if (code c =? 93)%N then Scanned (JArr items) s2
              else if (code c =? 44)%N then array_items fuel items (skip_ws s2)
              else Invalid "Expecting ',' delimiter"
          | EmptyString => Invalid "Expecting ',' delimiter"
          end
      end
  end.

(** [json.loads(s)] run with the given fuel: leading whitespace, one
    value, trailing whitespace, and nothing else. *)
Definition loads_fuel (fuel : nat) (s : string) : scan json :=
  match scan_once fuel (skip_ws s) with
  | Scanned v rest =>
      match skip_ws rest with
      | EmptyString => Scanned v ""
      | String _ _ => Invalid "Extra data"
      end
  | Invalid m => Invalid m
  | NoFuel => NoFuel
  end.

(** [json.loads(s)]: every step of the scanner consumes a character, so
    the length of the text bounds the recursion.  The interpreter's
    own limits (see [within_limits] below) are not part of it. *)
Definition loads (s : string) : result json :=
  match loads_fuel (2 * String.length s + 2) s with
  | Scanned v _ => Ok v
  | Invalid m => Raise (JSONDecodeError m)
  | NoFuel => Raise (exception "RecursionError" "")
  end.

(** The interpreter has limits that [json.loads] can run into and that
    the scanner above does not have: nesting beyond the recursion
    limit ends in a [RecursionError], an integer of more than 4300
    digits in a [ValueError].  A text with at most 100 opening
    brackets and braces and without a run of more than 4300 digits
    stays within them. *)
Fixpoint openings (s : string) : nat :=
  match s with
  | EmptyString => 0
  | String c r => (if (code c =? 91)%N || (code c =? 123)%N then 1 else 0) + openings r
  end.

Fixpoint longest_digits (current longest : nat) (s : string) : nat :=
  match s with
  | EmptyString => Nat.max current longest
  | String c r =>
      if is_digit c then longest_digits (S current) longest r
      else longest_digits 0 (Nat.max current longest) r
  end.

Definition within_limits (s : string) : bool :=
  (openings s <=? 100)%nat && (longest_digits 0 0 s <=? 4300)%nat.

(** What [json.dumps] writes for one character of a string, within
    ASCII: a quote and a backslash are escaped, a control character is
    written with its short escape or as [\u00XX], and a printable
    character stands for itself.  (A byte of a character outside ASCII
    is left as it is; [json.dumps] would write a [\uXXXX] escape.) *)
Definition hex_digit (n : N) : ascii :=
  if (n <? 10)%N then byte (48 + n) else byte (87 + n).

Definition print_char (c : ascii) : string :=
  let n := code c in
  if (n =? 34)%N then String backslash (String dquote "")
  else if (n =? 92)%N then String backslash (String backslash "")
  else if (n =? 10)%N then String backslash "n"
  else if (n =? 13)%N then String backslash "r"
  else if (n =? 9)%N then String backslash "t"
  else if (n =? 8)%N then String backslash "b"
  else if (n =? 12)%N then String backslash "f"
  else if (n <? 32)%N || (n =? 127)%N then
    String backslash ("u00" +:+ String (hex_digit (n / 16)) (String (hex_digit (n mod 16)) ""))
  else String c "".

Fixpoint print_string (s : string) : string :=
  match s with
  | EmptyString => EmptyString
  | String c r => print_char c +:+ print_string r
  end.

(** [json.dumps(v)] with its default separators; a float is written
    as the literal it was read from *)
Fixpoint print_json (v : json) : string :=
  match v with
  | JNull => "null"
  | JBool true => "true"
  | JBool false => "false"
  | JInt z => pretty z
  | JFloat literal => literal
  | JStr s => String dquote (print_string s) +:+ String dquote ""
  | JArr items =>
      "[" +:+ (fix print_items (l : list json) : string :=
                 match l with
                 | [] => ""
                 | x :: l' =>
                     match l' with
                     | [] => print_json x
                     | _ :: _ => print_json x +:+ ", " +:+ print_items l'
                     end
                 end) items +:+ "]"
  | JObj members =>
      "{" +:+ (fix print_members (l : list (string * json)) : string :=
                 match l with
                 | [] => ""
                 | (k, x) :: l' =>
                     let member :=
                       String dquote (print_string k) +:+ String dquote ": " +:+ print_json x in
                     match l' with
                     | [] => member
                     | _ :: _ => member +:+ ", " +:+ print_members l'
                     end
                 end) members +:+ "}"
  end.

End Json.

(** ** Output schemas (lines 697-721) *)

Module Schema.
Import Py Json.

(** the JSON type a field type stands for: the chain of comparisons
    [field_type == "str" or field_type == "string"], ...; a value that
    is not one of the eight names matches no branch. *)
Definition json_type_name (field_type : json) : option string :=
  match field_type with
  | JStr t =>
      if String.eqb t "str" || String.eqb t "string" then Some "string"
      else if String.eqb t "int" || String.eqb t "integer" then Some "integer"
      else if String.eqb t "float" || String.eqb t "number" then Some "number"
      else if String.eqb t "bool" || String.eqb t "boolean" then Some "boolean"
      else None
  | _ => None
  end.

(** [{"type": t}] *)
Definition type_object (t : string) : json := JObj [("type", JStr t)].

(** the loop over [output_schema.items()], on the two containers it
    updates: [json_schema["properties"]] and [json_schema["required"]] *)
Fixpoint schema_loop (items : list (string * json))
    (properties : list (string * json)) (required : list json)
    : list (string * json) * list json :=
  match items with
  | [] => (properties, required)
  | (field, field_type) :: rest =>
      let properties :=
        match json_type_name field_type with
        | Some t => dict_set field (type_object t) properties
        | None => properties
        end in
      schema_loop rest properties (required ++ [JStr field])
  end.

Definition convert_output_schema_to_json_schema
    (output_schema : list (string * json)) : list (string * json) :=
  let '(properties, required) := schema_loop output_schema [] [] in
  [ ("type", JStr "object");
    ("properties", JObj properties);
    ("required", JArr required);
    ("additionalProperties", JBool false) ].

(** the entry of [properties] an item of the input gives rise to, if any *)
Definition property_of (item : string * json) : option (string * json) :=
  match json_type_name item.2 with
  | Some t => Some (item.1, type_object t)
  | None => None
  end.

End Schema.

(** ** Shaping the request and the response in [generate_text]
    (lines 516-578 and 650-694) *)

Module Generate.
Import Py Json Schema Messages.

(** What [generate_text] asks of the libraries it calls: the two
    capability look-ups of litellm and [json.dumps]. *)
Record library := {
  get_supported_openai_params : string -> option (list string);
  supports_response_schema : string -> bool;
  dumps : json -> string
}.

(** [model_info and model_info.constraints.supports_JSON_output] *)
Definition supports_json (model_name : string) : bool :=
  match Registry.get_model_info model_name with
  | Some info => Registry.supports_JSON_output (Registry.model_constraints info)
  | None => false
  end.

(** the keyword arguments handed to the completion call;
    [kw_messages] is the very list object [messages] *)
Record request := {
  kw_model : string;
  kw_max_tokens : Z;
  kw_messages : list message;
  kw_temperature : option float;
  kw_response_format : option json
}.

(** the whitespace [str.strip()] removes, within ASCII *)
Definition is_space (c : ascii) : bool :=
  let n := code c in
  ((9 <=? n)%N && (n <=? 13)%N) || ((28 <=? n)%N && (n <=? 32)%N).

(** whether [s] is made of white space only.  The white space that
    [str.strip()] removes is that of Unicode, read here from the UTF-8
    encoding of the text: besides the ASCII characters, U+0085 and
    U+00A0 (C2 85, C2 A0), U+1680 (E1 9A 80), U+2000 to U+200A, U+2028,
    U+2029 and U+202F (E2 80 80 to 8A, A8, A9, AF), U+205F (E2 81 9F)
    and U+3000 (E3 80 80). *)
Definition is_space2 (c d : ascii) : bool :=
  (code c =? 194)%N && ((code d =? 133)%N || (code d =? 160)%N).

Definition is_space3 (c d e : ascii) : bool :=
  ((code c =? 225)%N && (code d =? 154)%N && (code e =? 128)%N)
  || ((code c =? 226)%N && (code d =? 128)%N
      && (((128 <=? code e)%N && (code e <=? 138)%N)
          || (code e =? 168)%N || (code e =? 169)%N || (code e =? 175)%N))
  || ((code c =? 226)%N && (code d =? 129)%N && (code e =? 159)%N)
  || ((code c =? 227)%N && (code d =? 128)%N && (code e =? 128)%N).

Fixpoint blank (s : string) : bool :=
  match s with
  | EmptyString => true
  | String c r =>
      if is_space c then blank r
      else
        match r with
        | EmptyString => false
        | String d r' =>
            if is_space2 c d then blank r'
            else
              match r' with
              | EmptyString => false
              | String e r'' => if is_space3 c d e then blank r'' else false
              end
        end
  end.

(** [s.strip() != ""] *)
Definition has_non_space (s : string) : bool := negb (blank s).

(** [output_json_schema["additionalProperties"] = False]: only a dict
    supports the assignment. *)
Definition set_additional_properties (schema : json) : result (list (string * json)) :=
  match schema with
  | JObj d => Ok (dict_set "additionalProperties" (JBool false) d)
  | JArr _ => Raise (TypeError "list indices must be integers or slices, not str")
  | _ =>
      Raise (TypeError ("'" +:+ type_name schema
                        +:+ "' object does not support item assignment"))
  end.

(** lines 533-544: the schema the request is built from, and the value
    of [output_schema] afterwards.  A schema text that is blank falls
    through every branch and is then subscripted as it is, a [str]. *)
Definition resolve_schema (output_json_schema : option string)
    (output_schema : option (list (string * json)))
    : result (list (string * json) * option (list (string * json))) :=
  match output_json_schema, output_schema with
  | None, None =>
      d ← set_additional_properties
            (JObj [ ("type", JStr "object");
                    ("properties", JObj [("output", type_object "string")]);
                    ("required", JArr [JStr "output"]) ]);
      Ok (d, Some [("output", JStr "string")])
  | None, Some fields =>
      d ← set_additional_properties (JObj (convert_output_schema_to_json_schema fields));
      Ok (d, output_schema)
  | Some text, _ =>
      if has_non_space text then
        v ← loads text;
        d ← set_additional_properties v;
        Ok (d, output_schema)
      else Raise (TypeError "'str' object does not support item assignment")
  end.

(** lines 551-559: the schema is wrapped unless it already has a
    ["name"] or a ["schema"] key *)
Definition wrap_schema (schema : list (string * json)) : list (string * json) :=
  if negb (dict_mem "name" schema) && negb (dict_mem "schema" schema) then
    [ ("schema", JObj schema); ("strict", JBool true); ("name", JStr "output") ]
  else schema.

Definition instruction : string :=
  nl +:+ "You must respond with valid JSON only. No other text before or after the JSON Object. The JSON Object must adhere to this schema: ".

(** lines 566-571: what is printed into the prompt; an empty dict is
    false *)
Definition schema_for_prompt (lib : library) (schema : list (string * json))
    (output_schema : option (list (string * json))) : string :=
  match output_schema with
  | Some (item :: fields) => dumps lib (JObj (item :: fields))
  | _ =>
      match schema with
      | _ :: _ => dumps lib (JObj schema)
      | [] => dumps lib (JObj [("output", JStr "string")])
      end
  end.

(** lines 572-578: [next(m for m in messages if m["role"] == "system")]
    and the [+=] on its content.  The dict is updated in place, so the
    list holds the updated message.  A [StopIteration] that leaves a
    coroutine surfaces as a [RuntimeError]. *)
Fixpoint extend_system_message (text : string) (messages : list message)
    : result (list message) :=
  match messages with
  | [] => Raise (exception "RuntimeError" "coroutine raised StopIteration")
  | m :: rest =>
      role ← getitem m "role";
      if String.eqb role "system" then
        content ← getitem m "content";
        Ok (<["content" := content +:+ text]> m :: rest)
      else
        rest' ← extend_system_message text rest;
        Ok (m :: rest')
  end.

(** [x in l] for an optional list of strings; [in None] is a [TypeError] *)
Definition contains (x : string) (l : option (list string)) : result bool :=
  match l with
  | Some l => Ok (existsb (String.eqb x) l)
  | None => Raise (TypeError "argument of type 'NoneType' is not iterable")
  end.

(** lines 516-578 of [generate_text]: the keyword arguments of the
    completion call, with the response format and the messages as the
    JSON-schema handling leaves them. *)
Definition prepare_request (lib : library) (messages : list message)
    (model_name : string) (temperature : float) (max_tokens : Z)
    (output_json_schema : option string)
    (output_schema : option (list (string * json))) : result request :=
  let kwargs :=
    {| kw_model := model_name; kw_max_tokens := max_tokens;
       kw_messages := messages;
       kw_temperature :=
         if String.eqb model_name "deepseek/deepseek-reasoner" then None
         else Some temperature;
       kw_response_format := None |} in
  if supports_json model_name then
    '(schema, output_schema) ← resolve_schema output_json_schema output_schema;
    has_format ← contains "response_format" (get_supported_openai_params lib model_name);
    if has_format : bool then
      if supports_response_schema lib model_name then
        Ok {| kw_model := kw_model kwargs; kw_max_tokens := kw_max_tokens kwargs;
              kw_messages := messages; kw_temperature := kw_temperature kwargs;
              kw_response_format :=
                Some (JObj [ ("type", JStr "json_schema");
                             ("json_schema", JObj (wrap_schema schema)) ]) |}
      else
        let text := instruction +:+ schema_for_prompt lib schema output_schema in
        messages' ← extend_system_message text messages;
        Ok {| kw_model := kw_model kwargs; kw_max_tokens := kw_max_tokens kwargs;
              kw_messages := messages'; kw_temperature := kw_temperature kwargs;
              kw_response_format := Some (JObj [("type", JStr "json_object")]) |}
    else Ok kwargs
  else Ok kwargs.

(** [response.replace('"', '\\"').replace("\n", "\\n")] *)
Definition sanitize (response : string) : string :=
  replace1 (ascii_of_nat 10) (String backslash "n")
    (replace1 dquote (String backslash (String dquote "")) response).

(** the f-string of lines 661 and 692: the sanitized text between
    [{"output": "] and ["}] *)
Definition wrap_output (response : string) : string :=
  "{" +:+ String dquote "output" +:+ String dquote ": " +:+ String dquote ""
  +:+ sanitize response +:+ String dquote "}".

Fixpoint from_first (c : ascii) (s : string) : option string :=
  match s with
  | EmptyString => None
  | String a r => if Ascii.eqb a c then Some s else from_first c r
  end.

Fixpoint upto_last (c : ascii) (s : string) : option string :=
  match s with
  | EmptyString => None
  | String a r =>
      match upto_last c r with
      | Some p => Some (String a p)
      | None => if Ascii.eqb a c then Some (String a "") else None
      end
  end.

(** [re.search(r"\{.*\}", response, re.DOTALL)]: from the first opening
    brace to the last closing brace after it *)
Definition search_braces (response : string) : option string :=
  match from_first "{" response with
  | Some (String b r) =>
      match upto_last "}" r with
      | Some p => Some (String b p)
      | None => None
      end
  | _ => None
  end.

Definition is_ok {A} (r : result A) : bool :=
  match r with Ok _ => true | Raise _ => false end.

(** lines 650-694, for the [str] that [completion_with_backoff]
    returns: a [str] has no [choices] attribute, so the branch on the
    provider-specific fields is not taken.  The handlers catch
    [JSONDecodeError], the one error [loads] has for a text that is
    not JSON. *)
Definition finish_response (supports_json : bool) (response : string) : string :=
  if negb supports_json then wrap_output response
  else if is_ok (loads response) then response
  else
    let extracted :=
      if negb (startswith response "{") then search_braces response else None in
    match extracted with
    | Some found => if is_ok (loads found) then found else wrap_output found
    | None => wrap_output response
    end.

(** the text the sanitization puts for one character *)
Definition escaped (c : ascii) : string :=
  if Ascii.eqb c dquote then String backslash (String dquote "")
  else if Ascii.eqb c (ascii_of_nat 10) then String backslash "n"
  else String c "".

(** the characters the wrapping copes with: a newline, and any
    character from the space on other than the backslash *)
Definition safe (c : ascii) : bool :=
  ((32 <=? code c)%N && negb (code c =? 92)%N) || (code c =? 10)%N.

Fixpoint all_safe (s : string) : bool :=
  match s with
  | EmptyString => true
  | String c r => safe c && all_safe r
  end.

(** [s] between double quotes *)
Definition quoted (s : string) : string := String dquote s +:+ String dquote "".

(** A provider as litellm reports the OpenAI chat models: the
    response format is among the supported parameters; [schema_support]
    is the answer of [supports_response_schema].  The printer stands in
    for [json.dumps]. *)
Definition sample_library (schema_support : bool) : library :=
  {| get_supported_openai_params := fun _ => Some ["temperature"; "response_format"];
     supports_response_schema := fun _ => schema_support;
     dumps := fun _ => "{}" |}.

(** A provider as [sample_library], with the printer of [Json] for
    [json.dumps]. *)
Definition printing_library (schema_support : bool) : library :=
  {| get_supported_openai_params := fun _ => Some ["temperature"; "response_format"];
     supports_response_schema := fun _ => schema_support;
     dumps := print_json |}.

(** what the specification asks of the returned text: it parses as a
    JSON object whose ["output"] is the raw response *)
Definition round_trips (response : string) : Prop :=
  exists members, loads (finish_response false response) = Ok (JObj members)
                  /\ dict_get "output" members = Some (JStr response).

End Generate.

(** ** Retrying (lines 431-456 and 729) and the body of
    [completion_with_backoff] (lines 457-502) *)

Module Retry.
Import Py Json.

Definition AuthenticationError (msg : string) : exn :=
  {| exn_mro := [ "litellm.exceptions.AuthenticationError"; "openai.AuthenticationError";
                  "openai.APIStatusError"; "openai.APIError"; "openai.OpenAIError";
                  "Exception"; "BaseException" ];
     exn_msg := msg |}.

Definition RateLimitError (msg : string) : exn :=
  {| exn_mro := [ "litellm.exceptions.RateLimitError"; "openai.RateLimitError";
                  "openai.APIStatusError"; "openai.APIError"; "openai.OpenAIError";
                  "Exception"; "BaseException" ];
     exn_msg := msg |}.

Definition Timeout (msg : string) : exn :=
  {| exn_mro := [ "litellm.exceptions.Timeout"; "openai.APITimeoutError";
                  "openai.APIConnectionError"; "openai.APIError"; "openai.OpenAIError";
                  "Exception"; "BaseException" ];
     exn_msg := msg |}.

(** tenacity's [RetryCallState], as far as the strategies read it: the
    number of the attempt just made and its outcome *)
Record RetryCallState := {
  attempt_number : nat;
  outcome : result string
}.

(** the objects a [retry] callable can be handed *)
Inductive pyobject :=
| ExceptionObject (e : exn)
| StateObject (s : RetryCallState).

Definition mro (o : pyobject) : list string :=
  match o with
  | ExceptionObject e => exn_mro e
  | StateObject _ => ["tenacity.RetryCallState"; "object"]
  end.

(** [isinstance(o, (C1, .., Cn))] *)
Definition isinstance (o : pyobject) (classes : list string) : bool :=
  existsb (fun c => bool_decide (c ∈ mro o)) classes.

(** the three strategies an [AsyncRetrying] object is built from; the
    wait strategy also takes the sample that [random.random()] yields *)
Record retrying := {
  wait : RetryCallState -> Q -> Q;
  stop : RetryCallState -> bool;
  retry : pyobject -> bool
}.

(** [stop_after_attempt(n)] *)
Definition stop_after_attempt (max_attempt_number : nat) (s : RetryCallState) : bool :=
  (max_attempt_number <=? attempt_number s)%nat.

(** [wait_exponential(multiplier, max, exp_base, min)]:
    [max(max(0, min), min(multiplier * exp_base ** (attempt_number - 1), max))] *)
Definition wait_exponential (multiplier max exp_base min : Q) (s : RetryCallState) : Q :=
  let exp := (exp_base ^ Z.of_nat (attempt_number s - 1))%Q in
  let result := (multiplier * exp)%Q in
  Qmax (Qmax 0 min) (Qmin result max).

(** [random.uniform(a, b)]: [a + (b - a) * random()] *)
Definition uniform (a b sample : Q) : Q := (a + (b - a) * sample)%Q.

(** [wait_random_exponential(min, max)]: a uniform draw between [min]
    and the exponential bound, [random.uniform(self.min, high)] *)
Definition wait_random_exponential (min max : Q) (s : RetryCallState) (sample : Q) : Q :=
  let high := wait_exponential 1 max 2 min s in
  uniform min high sample.

(** [retry_if_exception_type()], the default [retry]: the outcome failed
    with an [Exception] *)
Definition retry_if_exception_type (o : pyobject) : bool :=
  match o with
  | StateObject {| outcome := Raise e |} => isinstance (ExceptionObject e) ["Exception"]
  | _ => false
  end.

(** how a call through the decorator ends: with the value of the
    wrapped function, with the exception of the last attempt re-raised,
    or with a [RetryError] around it once [stop] says so *)
Inductive ending :=
| Returns (v : string)
| Reraises (e : exn)
| RetryError (last : exn).

Record run := {
  ending_of : ending;
  attempts : nat;
  sleeps : list Q
}.

(** [wrapped_f] of [async_retry], that is [async for attempt in r: with
    attempt: return await f(..)] over tenacity's [iter]: a value leaves
    the loop; an exception is recorded as the outcome, then [retry] is
    called on the state (a [TryAgain] retries whatever it says): when it
    is false the exception is raised again, otherwise [stop] decides
    between a [RetryError] and a sleep before the next attempt.  [f n]
    is what the wrapped function does at attempt [n].  This is the
    course of a call that has the retrying object to itself; calls
    that overlap share its state, see [Shared]. *)
Fixpoint retry_loop (r : retrying) (f : nat -> result string) (random : nat -> Q)
    (fuel : nat) (attempt : nat) (slept : list Q) : option run :=
  match fuel with
  | O => None
  | S fuel =>
      match f attempt with
      | Ok v => Some {| ending_of := Returns v; attempts := attempt; sleeps := slept |}
      | Raise e =>
          let state := {| attempt_number := attempt; outcome := Raise e |} in
          if negb (isinstance (ExceptionObject e) ["tenacity.TryAgain"]
                   || retry r (StateObject state))
          then Some {| ending_of := Reraises e; attempts := attempt; sleeps := slept |}
          else if stop r state
          then Some {| ending_of := RetryError e; attempts := attempt; sleeps := slept |}
          else retry_loop r f random fuel (S attempt)
                 (slept ++ [wait r state (random attempt)])
      end
  end.

Definition call_with_retry (r : retrying) (f : nat -> result string)
    (random : nat -> Q) (fuel : nat) : option run :=
  retry_loop r f random fuel 1 [].

(** the [retry] argument of the decorator of [completion_with_backoff]:
    [lambda e: not isinstance(e, (AuthenticationError, ValueError, RateLimitError))] *)
Definition completion_retry (e : pyobject) : bool :=
  negb (isinstance e [ "litellm.exceptions.AuthenticationError"; "ValueError";
                       "litellm.exceptions.RateLimitError" ]).

(** the decorator of [completion_with_backoff] (lines 445-456) *)
Definition completion_retrying : retrying :=
  {| wait := wait_random_exponential 30 120;
     stop := stop_after_attempt 3;
     retry := completion_retry |}.

(** the decorator of [ollama_with_backoff] (line 729) *)
Definition ollama_retrying : retrying :=
  {| wait := wait_random_exponential 30 120;
     stop := stop_after_attempt 3;
     retry := retry_if_exception_type |}.

(** a wait of between 30 and 120 seconds *)
Definition within_bounds (w : Q) : Prop := (30 <= w <= 120)%Q.

(** which branch of [completion_with_backoff] makes the call *)
Inductive route := AzureConfiguration | OllamaConfiguration | StandardConfiguration.

Record call := {
  call_route : route;
  call_kwargs : gmap string json
}.

(** [os.getenv(name)] *)
Definition getenv (environ : gmap string string) (name : string) : option string :=
  environ !! name.

(** [kwargs.get("model", "")], and what [model.startswith] needs: a
    [str]; [None], a number, a list and a dict have no such attribute *)
Definition model_of (kwargs : gmap string json) : result string :=
  match kwargs !! "model" with
  | None => Ok ""
  | Some (JStr model) => Ok model
  | Some v =>
      Raise (AttributeError ("'" +:+ type_name v
                             +:+ "' object has no attribute 'startswith'"))
  end.

(** the condition of line 468 *)
Definition uses_azure (environ : gmap string string) (model : string) : bool :=
  startswith model "azure/"
  || (opt_truthy (getenv environ "AZURE_OPENAI_API_KEY")
      && negb (startswith model "ollama/")).

(** lines 462-487: the call to [acompletion] that is made.
    [setup_azure_configuration] lives in [_providers]. *)
Definition completion_call (setup_azure_configuration : gmap string json -> gmap string json)
    (environ : gmap string string) (kwargs : gmap string json) : result call :=
  model ← model_of kwargs;
  if uses_azure environ model then
    Ok {| call_route := AzureConfiguration;
          call_kwargs := setup_azure_configuration kwargs |}
  else if startswith model "ollama/" then
    Ok {| call_route := OllamaConfiguration; call_kwargs := kwargs |}
  else
    Ok {| call_route := StandardConfiguration; call_kwargs := kwargs |}.

(** one attempt of [completion_with_backoff]; the handler of lines
    489-502 logs and raises the same exception again.  [acompletion]
    stands for the call and the read of [choices[0].message.content]. *)
Definition completion_body (setup_azure_configuration : gmap string json -> gmap string json)
    (acompletion : gmap string json -> result string)
    (environ : gmap string string) (kwargs : gmap string json) : result string :=
  c ← completion_call setup_azure_configuration environ kwargs;
  acompletion (call_kwargs c).

End Retry.

(** ** The retrying object that the calls of a decorated function share

    [async_retry] builds one [AsyncRetrying] object [r] per decorated
    function (line 433), and every call runs [async for attempt in r].
    [r.__aiter__] puts a new [RetryCallState] into [r._retry_state];
    [r.__anext__] reads [r._retry_state] each time it is entered, and
    the attempt manager it hands out keeps the state it was made for.
    So calls that overlap read and write one another's state.  The
    calls run on one event loop: a call runs from one [await] to the
    next without interruption. *)

Module Shared.
Import Py Json Retry.

(** the [outcome] of a [RetryCallState]: none while the attempt runs,
    then an exception or a result (for which the attempt manager
    records [None]) *)
Inductive future :=
| Pending
| Failed (e : exn)
| Done.

(** a [RetryCallState] object: [attempt_number] and [outcome] *)
Record retry_state := {
  number : nat;
  fut : future
}.

(** what the strategies read of a state that has an outcome; those of
    the two decorators read the attempt number and the exception, and
    of a result only that it is one *)
Definition seen (s : retry_state) : RetryCallState :=
  {| attempt_number := number s;
     outcome := match fut s with Failed e => Raise e | _ => Ok "" end |}.

(** how a call ends: as a call that runs alone does, or, after reading
    the result of another call, with [None] for value (the loop ends
    and [wrapped_f] returns nothing) or with a [RetryError] around
    that result *)
Inductive finish :=
| Finished (e : ending)
| ReturnedNone
| RetryErrorOfResult.

(** where a call stands: not begun, awaiting the wrapped function
    inside [with attempt] (the attempt manager holds the state at the
    given address), awaiting [self.sleep] inside [__anext__], or
    ended *)
Inductive position :=
| Unstarted
| Attempting (manager : nat)
| Sleeping
| Ended (e : finish).

(** a call: its position, the attempts it has begun and the sleeps it
    has made *)
Record task := {
  position_of : position;
  begun : nat;
  slept : list Q
}.

Definition unstarted : task :=
  {| position_of := Unstarted; begun := 0; slept := [] |}.

(** the retrying object with the states made so far, [_retry_state]
    (the address of the state it refers to), and the calls *)
Record object := {
  heap : list retry_state;
  current : option nat;
  tasks : list task
}.

(** [n] calls on an object that has not been used *)
Definition fresh (n : nat) : object :=
  {| heap := []; current := None; tasks := replicate n unstarted |}.

(** [__anext__], up to the point where it hands out an attempt
    manager, sleeps, or leaves the loop: tenacity's [iter] on
    [self._retry_state].  [sample] is what [random.random()] yields if
    a wait is drawn. *)
Definition anext (r : retrying) (sample : Q) (o : object) (t : task) : object * task :=
  match current o with
  | None =>
      (o, {| position_of := Ended (Finished (Reraises (AttributeError "_retry_state")));
             begun := begun t; slept := slept t |})
  | Some address =>
      match heap o !! address with
      | None =>
          (o, {| position_of := Ended (Finished (Reraises (AttributeError "_retry_state")));
                 begun := begun t; slept := slept t |})
      | Some s =>
          match fut s with
          | Pending =>
              (o, {| position_of := Attempting address; begun := S (begun t);
                     slept := slept t |})
          | outcome =>
              let is_explicit_retry :=
                match outcome with
                | Failed e => isinstance (ExceptionObject e) ["tenacity.TryAgain"]
                | _ => false
                end in
              if negb (is_explicit_retry || retry r (StateObject (seen s))) then
                (o, {| position_of :=
                         Ended match outcome with
                               | Failed e => Finished (Reraises e)
                               | _ => ReturnedNone
                               end;
                       begun := begun t; slept := slept t |})
              else if stop r (seen s) then
                (o, {| position_of :=
                         Ended match outcome with
                               | Failed e => Finished (RetryError e)
                               | _ => RetryErrorOfResult
                               end;
                       begun := begun t; slept := slept t |})
              else
                ({| heap := <[address := {| number := S (number s); fut := Pending |}]> (heap o);
                    current := current o; tasks := tasks o |},
                 {| position_of := Sleeping; begun := begun t;
                    slept := slept t ++ [wait r (seen s) sample] |})
          end
      end
  end.

(** the outcome that the attempt manager records in the state it
    holds *)
Definition record (address : nat) (outcome : future) (o : object) : object :=
  {| heap := alter (fun s => {| number := number s; fut := outcome |}) address (heap o);
     current := current o; tasks := tasks o |}.

(** Call [i] runs on to its next [await] or to its end.  [f i k] is
    what the wrapped function does at the [k]-th attempt of call [i],
    [random i k] the sample for the wait after it. *)
Definition step (r : retrying) (f : nat -> nat -> result string) (random : nat -> nat -> Q)
    (i : nat) (o : object) : object :=
  match tasks o !! i with
  | None => o
  | Some t =>
      let '(o', t') :=
        match position_of t with
        | Unstarted =>
            anext r (random i (begun t))
              {| heap := heap o ++ [{| number := 1; fut := Pending |}];
                 current := Some (length (heap o)); tasks := tasks o |} t
        | Attempting manager =>
            match f i (begun t) with
            | Ok v =>
                (record manager Done o,
                 {| position_of := Ended (Finished (Returns v)); begun := begun t;
                    slept := slept t |})
            | Raise e => anext r (random i (begun t)) (record manager (Failed e) o) t
            end
        | Sleeping => anext r (random i (begun t)) o t
        | Ended _ => (o, t)
        end in
      {| heap := heap o'; current := current o'; tasks := <[i := t']> (tasks o') |}
  end.

(** the calls run in the order of the schedule, one stretch each time *)
Fixpoint run (r : retrying) (f : nat -> nat -> result string) (random : nat -> nat -> Q)
    (schedule : list nat) (o : object) : object :=
  match schedule with
  | [] => o
  | i :: rest => run r f random rest (step r f random i o)
  end.

(** call [i] runs for [steps] stretches while no other call begins,
    ends an attempt or wakes *)
Definition alone (r : retrying) (f : nat -> nat -> result string) (random : nat -> nat -> Q)
    (i steps : nat) (o : object) : object :=
  run r f random (replicate steps i) o.

(** what a call that has ended leaves, as the run of a call alone *)
Definition outcome_of (t : task) : option Retry.run :=
  match position_of t with
  | Ended (Finished e) => Some {| ending_of := e; attempts := begun t; sleeps := slept t |}
  | _ => None
  end.

End Shared.

(** ** [ModelInfo] (lines 345-366) *)

Module Validation.
Import Py Registry.

(** a keyword argument of the constructor: left out, or passed, as
    [None] or as a value *)
Inductive argument (A : Type) :=
| Omitted
| Passed (v : option A).
Arguments Omitted {A}.
Arguments Passed {A} v.

(** the first argument of [Field]: [...] for a required field, or the
    default *)
Inductive default (A : Type) :=
| Required
| Default (v : option A).
Arguments Required {A}.
Arguments Default {A} v.

(** an [Optional[A]] field with its default and its [ge]/[le] test *)
Record field (A : Type) := {
  field_name : string;
  field_default : default A;
  accepts : A -> bool
}.
Arguments field_name {A} f.
Arguments field_default {A} f.
Arguments accepts {A} f v.

(** [ge=lo, le=hi] on an [int] *)
Definition int_between (lo hi : Z) (n : Z) : bool := (lo <=? n)%Z && (n <=? hi)%Z.

(** [ge=lo, le=hi] on a [float]: the value passes when [x >= lo] and
    [x <= hi] both hold; a comparison with NaN is false, so NaN is
    rejected *)
Definition float_between (lo hi : float) (x : float) : bool :=
  PrimFloat.leb lo x && PrimFloat.leb x hi.

(** validation of one field: a missing required field is an error, a
    default is taken as it is, [None] is accepted by an [Optional]
    field, a value must pass the bounds.  [None] stands for an error. *)
Definition validate {A} (f : field A) (a : argument A) : option (option A) :=
  match a with
  | Omitted =>
      match field_default f with
      | Required => None
      | Default v => Some v
      end
  | Passed None => Some None
  | Passed (Some v) => if accepts f v then Some (Some v) else None
  end.

Definition max_tokens_field : field Z :=
  {| field_name := "max_tokens"; field_default := Required;
     accepts := int_between 1 65536 |}.

Definition temperature_field : field float :=
  {| field_name := "temperature"; field_default := Default (Some 0.7%float);
     accepts := float_between 0.0 1.0 |}.

Definition top_p_field : field float :=
  {| field_name := "top_p"; field_default := Default (Some 1.0%float);
     accepts := float_between 0.0 1.0 |}.

Record ModelInfo := {
  model : LLMModels;
  max_tokens : option Z;
  temperature : option float;
  top_p : option float
}.

(** the error raised for the fields that failed *)
Definition ValidationError (fields : list string) : exn :=
  {| exn_mro := ["pydantic_core.ValidationError"; "ValueError"; "Exception"; "BaseException"];
     exn_msg := join ", " fields |}.

Definition failed {A} (f : field A) (v : option (option A)) : list string :=
  match v with Some _ => [] | None => [field_name f] end.

(** [ModelInfo(model=.., max_tokens=.., temperature=.., top_p=..)];
    [model] defaults to [LLMModels.GPT_4O] *)
Definition new (model : option LLMModels) (max_tokens : argument Z)
    (temperature top_p : argument float) : result ModelInfo :=
  let m := validate max_tokens_field max_tokens in
  let t := validate temperature_field temperature in
  let p := validate top_p_field top_p in
  match m, t, p with
  | Some m, Some t, Some p =>
      Ok {| model := match model with Some x => x | None => GPT_4O end;
            max_tokens := m; temperature := t; top_p := p |}
  | _, _, _ =>
      Raise (ValidationError
               (failed max_tokens_field m ++ failed temperature_field t
                ++ failed top_p_field p))
  end.

(** a value was passed and lies outside the interval *)
Definition int_outside (lo hi : Z) (a : argument Z) : Prop :=
  exists n, a = Passed (Some n) /\ (n < lo \/ hi < n)%Z.

(** a value was passed that is below [lo], above [hi], or not a number *)
Definition float_outside (lo hi : float) (a : argument float) : Prop :=
  exists x, a = Passed (Some x)
            /\ (PrimFloat.ltb x lo = true \/ PrimFloat.ltb hi x = true
                \/ PrimFloat.is_nan x = true).

(** the value of an [Optional] field after a successful construction *)
Definition value_or {A} (d : option A) (a : argument A) : option A :=
  match a with Omitted => d | Passed v => v end.

Definition raises {A} (r : result A) : Prop := exists e, r = Raise e.

End Validation.

(** ** DOCX to XML (lines 761-792) *)

Module Docx.
Import Py.

(** what the code reads of docx2python's [DocxContent]: [properties], a
    dict from property names to their values, and [text], a [str], all
    the text of the document with its paragraphs separated by two
    newlines *)
Record DocxContent := {
  properties : list (string * option string);
  text : string
}.

(** the text of a document with the given paragraphs *)
Definition text_of_paragraphs (paragraphs : list string) : string :=
  join (nl +:+ nl) paragraphs.

(** [f"<{tag}>{body}</{tag}>\n"] *)
Definition element (tag body : string) : string :=
  "<" +:+ tag +:+ ">" +:+ body +:+ "</" +:+ tag +:+ ">" +:+ nl.

(** the loop over [docx_content.properties.items()] *)
Fixpoint add_properties (xml_content : string) (items : list (string * option string))
    : string :=
  match items with
  | [] => xml_content
  | (key, value) :: rest =>
      if opt_truthy value then
        add_properties
          (xml_content +:+ element key (match value with Some v => v | None => "" end)) rest
      else add_properties xml_content rest
  end.

(** the loop [for paragraph in ..: if paragraph: ..] over the values
    the iteration yields *)
Fixpoint add_paragraphs (xml_content : string) (yielded : list string) : string :=
  match yielded with
  | [] => xml_content
  | paragraph :: rest =>
      if truthy paragraph then
        add_paragraphs (xml_content +:+ element "paragraph" paragraph) rest
      else add_paragraphs xml_content rest
  end.

(** the body of the [with] block; [docx_content.text] is a [str], so
    the loop runs over its characters *)
Definition render (docx_content : DocxContent) : string :=
  let xml_content := "<?xml version='1.0' encoding='UTF-8'?>" +:+ nl +:+ "<document>" +:+ nl in
  let xml_content := xml_content +:+ "<metadata>" +:+ nl in
  let xml_content := add_properties xml_content (properties docx_content) in
  let xml_content := xml_content +:+ "</metadata>" +:+ nl in
  let xml_content := xml_content +:+ "<content>" +:+ nl in
  let xml_content := add_paragraphs xml_content (iter_str (text docx_content)) in
  let xml_content := xml_content +:+ "</content>" +:+ nl in
  xml_content +:+ "</document>".

(** [convert_docx_to_xml], given what opening the file with
    docx2python gives: the lines logged at error level and the result *)
Definition convert_docx_to_xml (opened : result DocxContent) : list string * result string :=
  match opened with
  | Ok docx_content => ([], Ok (render docx_content))
  | Raise e => (["Error converting DOCX to XML: " +:+ exn_msg e], Raise e)
  end.

(** the content section the specification describes: one element per
    non-empty paragraph *)
Definition content_per_paragraph (paragraphs : list string) : string :=
  add_paragraphs "" paragraphs.

Fixpoint concat_all (l : list string) : string :=
  match l with
  | [] => ""
  | x :: l' => x +:+ concat_all l'
  end.

(** the metadata section the specification describes: one element per
    property with a non-empty value *)
Definition property_element (item : string * option string) : option string :=
  match item.2 with
  | Some (String c v) => Some (element item.1 (String c v))
  | _ => None
  end.

End Docx.

(** ** Cleaning the Azure base URL at import (lines 31-35) *)

Module Startup.
Import Py.

(** [c in chars] *)
Fixpoint in_chars (c : ascii) (chars : string) : bool :=
  match chars with
  | EmptyString => false
  | String a chars' => Ascii.eqb c a || in_chars c chars'
  end.

(** [s.rstrip(chars)]: trailing characters that are in [chars] are
    removed, as long as there are any *)
Fixpoint rstrip (chars : string) (s : string) : string :=
  match s with
  | EmptyString => EmptyString
  | String c r =>
      match rstrip chars r with
      | EmptyString => if in_chars c chars then EmptyString else String c EmptyString
      | String c' r' => String c (String c' r')
      end
  end.

(** [s.endswith(suffix)] *)
Fixpoint endswith (s suffix : string) : bool :=
  String.eqb s suffix
  || match s with
     | EmptyString => false
     | String _ r => endswith r suffix
     end.

(** lines 32-34: the value written back to [AZURE_OPENAI_API_BASE],
    from what [os.getenv("AZURE_OPENAI_API_BASE", "")] finds *)
Definition clean_azure_api_base (configured : option string) : string :=
  let azure_api_base :=
    rstrip "/" (match configured with Some v => v | None => "" end) in
  if endswith azure_api_base "/openai" then rstrip "/openai" azure_api_base
  else azure_api_base.

(** every character of [t] is in [chars] *)
Fixpoint all_in (chars t : string) : bool :=
  match t with
  | EmptyString => true
  | String c r => in_chars c chars && all_in chars r
  end.

(** the last character of a string, if it has one *)
Fixpoint last_char (s : string) : option ascii :=
  match s with
  | EmptyString => None
  | String c EmptyString => Some c
  | String _ r => last_char r
  end.

End Startup.

(** ** Messages with images (lines 386-428) *)

Module Images.
Import Py Json.

(** [d[k]] on a dict given by its items *)
Definition item {V} (d : list (string * V)) (k : string) : result V :=
  match dict_get k d with
  | Some v => Ok v
  | None => Raise (KeyError k)
  end.

(** [{"type": "text", "text": t}] *)
Definition text_part (t : json) : json :=
  JObj [("type", JStr "text"); ("text", t)].

(** [{"type": "image_url", "image_url": {"url": url}}] *)
Definition image_part (url : json) : json :=
  JObj [("type", JStr "image_url"); ("image_url", JObj [("url", url)])].

(** [{"role": role, "content": content}] with a list for content *)
Definition message_of (role : string) (content : list json) : json :=
  JObj [("role", JStr role); ("content", JArr content)].

(** the loop over [few_shot_examples]: three appends per example *)
Fixpoint append_image_examples (messages : list json)
    (examples : list (list (string * json))) : result (list json) :=
  match examples with
  | [] => Ok messages
  | example :: rest =>
      input ← item example "input";
      let messages := messages ++ [message_of "user" [text_part input]] in
      img ← item example "img";
      let messages := messages ++ [message_of "user" [image_part img]] in
      output ← item example "output";
      let messages := messages ++ [message_of "assistant" [text_part output]] in
      append_image_examples messages rest
  end.

Definition or_nil {A} (xs : option (list A)) : list A :=
  match xs with Some l => l | None => [] end.

(** the last message: the image, and the text when [user_message] is
    not empty ([messages[-1]] is the message just appended) *)
Definition image_message (base64_image user_message : string) : json :=
  message_of "user"
    (image_part (JStr base64_image)
     :: if truthy user_message then [text_part (JStr user_message)] else []).

Definition create_messages_with_images (system_message base64_image user_message : string)
    (few_shot_examples : option (list (list (string * json))))
    (history : option (list json)) : result (list json) :=
  let messages := [message_of "system" [text_part (JStr system_message)]] in
  messages ← append_image_examples messages (or_nil few_shot_examples);
  let messages := messages ++ or_nil history in
  Ok (messages ++ [image_message base64_image user_message]).

(** the three messages an example with these entries stands for *)
Definition example_triple (e : json * json * json) : list json :=
  [ message_of "user" [text_part e.1.1];
    message_of "user" [image_part e.1.2];
    message_of "assistant" [text_part e.2] ].

Definition has_entries (example : list (string * json)) (e : json * json * json) : Prop :=
  dict_get "input" example = Some e.1.1
  /\ dict_get "img" example = Some e.1.2
  /\ dict_get "output" example = Some e.2.

(** an example the loop can read to the end *)
Definition complete (example : list (string * json)) : bool :=
  dict_mem "input" example && dict_mem "img" example && dict_mem "output" example.

End Images.

(** ** The Ollama call (lines 729-758) *)

Module Ollama.
Import Py Messages.

(** [s.replace(old, new)] for a non-empty [old]: occurrences are
    replaced from left to right, without overlap.  [skip] counts the
    characters of a matched occurrence still to pass over. *)
Fixpoint replace_from (old new : string) (skip : nat) (s : string) : string :=
  match s with
  | EmptyString => EmptyString
  | String c r =>
      match skip with
      | S k => replace_from old new k r
      | O =>
          if String.prefix old s
          then new +:+ replace_from old new (String.length old - 1) r
          else String c (replace_from old new 0 r)
      end
  end.

Definition replace (old new s : string) : string := replace_from old new 0 s.

(** the keyword arguments of [client.chat], and the host of the client.
    [OllamaOptions] comes from [_providers]: [options] is of any type
    [O], with its default instance and its [to_dict]. *)
Record chat (D : Type) := {
  chat_host : option string;
  chat_model : string;
  chat_messages : list message;
  chat_format : option string;
  chat_options : D
}.
Arguments chat_host {D} c.
Arguments chat_model {D} c.
Arguments chat_messages {D} c.
Arguments chat_format {D} c.
Arguments chat_options {D} c.

(** the body of [ollama_with_backoff] up to the call; an options
    object is true, so [options or OllamaOptions()] is the default only
    for [None] *)
Definition ollama_chat {O D} (default_options : O) (to_dict : O -> D)
    (model : string) (messages : list message) (format : option string)
    (options : option O) (api_base : option string) : chat D :=
  {| chat_host := api_base;
     chat_model := replace "ollama/" "" model;
     chat_messages := messages;
     chat_format := format;
     chat_options := to_dict (match options with Some o => o | None => default_options end) |}.

(** [old] occurs in [s] *)
Fixpoint occurs (old s : string) : bool :=
  String.prefix old s
  || match s with
     | EmptyString => false
     | String _ r => occurs old r
     end.

End Ollama.

(** ** The calls [generate_text] makes (lines 580-648) and its result *)

Module Dispatch.
Import Py Json Messages Generate Docx Images.

(** what the branch for Gemini models with URL variables asks of the
    other modules and of the libraries: [is_external_url] and
    [resolve_file_path] of [utils.path_utils] (the path as [str] gives
    it), [encode_file_to_base64_data_url] of [utils.file_utils],
    opening a file with docx2python, and [base64.b64encode] *)
Record files := {
  is_external_url : string -> bool;
  resolve_file_path : string -> result string;
  encode_file_to_base64_data_url : string -> result string;
  open_docx : string -> result DocxContent;
  b64encode : string -> string
}.

(** [s.lower()], within ASCII *)
Definition lower_char (c : ascii) : ascii :=
  if (65 <=? code c)%N && (code c <=? 90)%N then byte (code c + 32) else c.

Fixpoint lower (s : string) : string :=
  match s with
  | EmptyString => EmptyString
  | String c r => String (lower_char c) (lower r)
  end.

(** lines 600-630, for one URL: nothing for an empty one; the URL
    itself when it is external or a data URL; otherwise the file it
    names, as a data URL, a DOCX file through [convert_docx_to_xml] *)
Definition url_part (fs : files) (url : string) : result (option json) :=
  if truthy url then
    if is_external_url fs url || startswith url "data:" then
      Ok (Some (image_part (JStr url)))
    else
      file_path ← resolve_file_path fs url;
      data_url ←
        (if Startup.endswith (lower file_path) ".docx" then
           xml_content ← (convert_docx_to_xml (open_docx fs file_path)).2;
           Ok ("data:text/xml;base64," +:+ b64encode fs xml_content)
         else encode_file_to_base64_data_url fs file_path);
      Ok (Some (image_part (JStr data_url)))
  else Ok None.

(** the loop over [url_variables.items()] *)
Fixpoint add_url_parts (fs : files) (content : list json)
    (url_variables : list (string * string)) : result (list json) :=
  match url_variables with
  | [] => Ok content
  | (_, url) :: rest =>
      part ← url_part fs url;
      add_url_parts fs (content ++ match part with Some p => [p] | None => [] end) rest
  end.

(** a message whose values are all strings, as a dict of any values *)
Definition plain (m : message) : gmap string json := JStr <$> m.

(** lines 595-632: the loop over [messages]; a user message gets a
    list for content, its text and then the parts for the URLs *)
Fixpoint transform_messages (fs : files) (url_variables : list (string * string))
    (messages : list message) : result (list (gmap string json)) :=
  match messages with
  | [] => Ok []
  | msg :: rest =>
      role ← getitem msg "role";
      msg' ←
        (if String.eqb role "user" then
           text ← getitem msg "content";
           content ← add_url_parts fs [text_part (JStr text)] url_variables;
           Ok (<["content" := JArr content]> (plain msg))
         else Ok (plain msg));
      rest' ← transform_messages fs url_variables rest;
      Ok (msg' :: rest')
  end.

(** the message put first in JSON mode (lines 637-643) *)
Definition json_only_message : message :=
  mk_message "system"
    "You must respond with valid JSON only. No other text before or after the JSON Object.".

(** the call that produces the response *)
Inductive backend_call :=
| OllamaChat (model : string) (temperature : float) (max_tokens : Z)
    (messages : list message) (api_base : option string)
| Completion (kwargs : request)
| CompletionWithFiles (kwargs : request) (messages : list (gmap string json)).

(** a dict is true when it is not empty *)
Definition has_urls (url_variables : option (list (string * string))) : bool :=
  match url_variables with
  | Some (_ :: _) => true
  | _ => false
  end.

(** lines 516-648: the call [generate_text] makes.  [messages] and
    [kwargs["messages"]] are one list, so what the schema handling and
    [messages.insert] do to it reaches the call. *)
Definition dispatch (lib : library) (fs : files) (messages : list message)
    (model_name : string) (temperature : float) (json_mode : bool) (max_tokens : Z)
    (api_base : option string) (url_variables : option (list (string * string)))
    (output_json_schema : option string)
    (output_schema : option (list (string * json))) : result backend_call :=
  kwargs ← prepare_request lib messages model_name temperature max_tokens
              output_json_schema output_schema;
  let messages := kw_messages kwargs in
  if json_mode && supports_json model_name then
    if startswith model_name "ollama" then
      Ok (OllamaChat model_name temperature max_tokens messages api_base)
    else if startswith model_name "gemini" && has_urls url_variables then
      transformed ← transform_messages fs (or_nil url_variables) messages;
      Ok (CompletionWithFiles kwargs transformed)
    else
      Ok (Completion
            {| kw_model := kw_model kwargs; kw_max_tokens := kw_max_tokens kwargs;
               kw_messages := json_only_message :: messages;
               kw_temperature := kw_temperature kwargs;
               kw_response_format := kw_response_format kwargs |})
  else Ok (Completion kwargs).

(** [generate_text]: the call, the response that [respond] gives for
    it, and the shaping of lines 650-694 *)
Definition generate_text (lib : library) (fs : files)
    (respond : backend_call -> result string) (messages : list message)
    (model_name : string) (temperature : float) (json_mode : bool) (max_tokens : Z)
    (api_base : option string) (url_variables : option (list (string * string)))
    (output_json_schema : option string)
    (output_schema : option (list (string * json))) : result string :=
  call ← dispatch lib fs messages model_name temperature json_mode max_tokens
            api_base url_variables output_json_schema output_schema;
  response ← respond call;
  Ok (finish_response (supports_json model_name) response).

(** the image parts for a list of URLs that need no file: one for each
    URL that is not empty *)
Definition direct_parts (urls : list string) : list json :=
  map (fun url => image_part (JStr url)) (filter (fun url => truthy url = true) urls).

End Dispatch.

(* ================================================================== *)
(** * Properties *)
(* ================================================================== *)

Section PyFacts.
Import Py.

Lemma str_app_cons (c : ascii) (a b : string) : String c a +:+ b = String c (a +:+ b).
Proof. reflexivity. Qed.

Lemma str_app_assoc (a b c : string) : (a +:+ b) +:+ c = a +:+ (b +:+ c).
Proof.
  induction a as [|x a IH]; [reflexivity|].
  rewrite !str_app_cons. by rewrite IH.
Qed.

Lemma str_app_nil_r (a : string) : a +:+ "" = a.
Proof.
  induction a as [|x a IH]; [reflexivity|].
  rewrite str_app_cons. by rewrite IH.
Qed.

Lemma str_length_app (a b : string) :
  String.length (a +:+ b) = (String.length a + String.length b)%nat.
Proof.
  induction a as [|x a IH]; [reflexivity|].
  rewrite str_app_cons. simpl. by rewrite IH.
Qed.

Lemma replace1_app (c : ascii) (r a b : string) :
  replace1 c r (a +:+ b) = replace1 c r a +:+ replace1 c r b.
Proof.
  induction a as [|x a IH]; [reflexivity|].
  rewrite str_app_cons. cbn [replace1]. rewrite IH.
  destruct (Ascii.eqb x c); [by rewrite str_app_assoc | reflexivity].
Qed.

End PyFacts.

Section RegistryFacts.
Import Registry.

Lemma get_model_info_registered (m : LLMModels) :
  m <> GEMINI_2_0_FLASH_EXP -> well_registered m.
Proof.
  intros Hm. unfold well_registered.
  destruct m; try congruence;
    (eexists; split; [vm_compute; reflexivity | split; reflexivity]).
Qed.

Lemma get_model_info_unregistered :
  get_model_info (value GEMINI_2_0_FLASH_EXP) = None.
Proof. vm_compute. reflexivity. Qed.

(** C1 (fails on the code): the enum member GEMINI_2_0_FLASH_EXP has no
    entry in the registry literal, so [get_model_info] returns [None]
    for its value "gemini/gemini-2.0-flash-exp"; not every member of the
    enum is looked up successfully. *)
Theorem C1_get_model_info_misses_gemini_2_0_flash_exp :
  In GEMINI_2_0_FLASH_EXP members
  /\ get_model_info "gemini/gemini-2.0-flash-exp" = None
  /\ ~ (forall m : LLMModels, well_registered m).
Proof.
  split; [vm_compute; tauto |].
  split; [exact get_model_info_unregistered |].
  intros H. destruct (H GEMINI_2_0_FLASH_EXP) as (info & Hget & _).
  rewrite get_model_info_unregistered in Hget. discriminate.
Qed.

End RegistryFacts.

Section MessagesFacts.
Import Py Messages.

Lemma append_examples_spec (examples : list message) :
  forall (messages : list message) (ios : list (string * string)),
    Forall2 has_io examples ios ->
    append_examples messages examples
    = Ok (messages ++ concat (map example_pair ios)).
Proof.
  induction examples as [|ex rest IH]; intros messages ios Hio.
  - inversion Hio; subst. simpl. by rewrite app_nil_r.
  - inversion Hio as [|? io ? ios' [Hin Hout] Hrest]; subst.
    simpl. unfold getitem. rewrite Hin, Hout. simpl.
    rewrite (IH _ ios' Hrest). f_equal.
    rewrite <- !app_assoc. reflexivity.
Qed.

Lemma length_concat_pairs (ios : list (string * string)) :
  length (concat (map example_pair ios)) = 2 * length ios.
Proof. induction ios as [|io ios IH]; simpl; [reflexivity | rewrite IH; lia]. Qed.

Lemma mk_message_entries (role content key : string) :
  mk_message role content !! key
  = if String.eqb key "content" then Some content
    else if String.eqb key "role" then Some role
    else None.
Proof.
  unfold mk_message, dict_literal. cbn [foldl fst snd].
  destruct (String.eqb_spec key "content") as [->|Hcontent].
  - by rewrite lookup_insert_eq.
  - rewrite lookup_insert_ne by congruence.
    destruct (String.eqb_spec key "role") as [->|Hrole].
    + by rewrite lookup_insert_eq.
    + rewrite lookup_insert_ne by congruence. apply lookup_empty.
Qed.

(** C8 (as amended): for a system message, a user message, optional
    few-shot examples that each have an "input" and an "output" entry,
    and an optional history, [create_messages] returns the system
    message, then a user/assistant pair per example in order, then the
    history in order, then the user message; its length is
    1 + 2 * len(few_shot_examples) + len(history) + 1.  The first
    message has the role system and the system message for content,
    the last the role user and the user message for content, and the
    pair of an example has the roles user and assistant with the
    example's input and output for content; none of these messages has
    another entry. *)
Theorem C8_create_messages_shape
    (system_message user_message : string)
    (few_shot_examples history : option (list message))
    (ios : list (string * string)) :
  Forall2 has_io (or_empty few_shot_examples) ios ->
  exists (messages : list message) (first last : message) (pairs : list message),
    create_messages system_message user_message few_shot_examples history
    = Ok messages
    /\ messages = [first] ++ pairs ++ or_empty history ++ [last]
    /\ length messages
       = 1 + 2 * length (or_empty few_shot_examples)
         + length (or_empty history) + 1
    /\ list.head messages = Some first
    /\ list.last messages = Some last
    /\ first !! "role" = Some "system" /\ first !! "content" = Some system_message
    /\ last !! "role" = Some "user" /\ last !! "content" = Some user_message
    /\ (forall key, key <> "role" -> key <> "content" ->
        first !! key = None /\ last !! key = None)
    /\ length pairs = 2 * length ios
    /\ (forall (i : nat) (io : string * string),
          ios !! i = Some io ->
          exists question answer : message,
            pairs !! (2 * i) = Some question
            /\ pairs !! (2 * i + 1) = Some answer
            /\ question !! "role" = Some "user" /\ question !! "content" = Some io.1
            /\ answer !! "role" = Some "assistant" /\ answer !! "content" = Some io.2
            /\ (forall key, key <> "role" -> key <> "content" ->
                question !! key = None /\ answer !! key = None)).
Proof.
  intros Hio.
  exists ([mk_message "system" system_message]
          ++ concat (map example_pair ios)
          ++ or_empty history
          ++ [mk_message "user" user_message]),
    (mk_message "system" system_message), (mk_message "user" user_message),
    (concat (map example_pair ios)).
  assert (Hother : forall role content key,
            key <> "role" -> key <> "content" -> mk_message role content !! key = None).
  { intros role content key Hrole Hcontent. rewrite mk_message_entries.
    destruct (String.eqb_spec key "content"); [contradiction|].
    destruct (String.eqb_spec key "role"); [contradiction|]. reflexivity. }
  split.
  { unfold create_messages.
    rewrite (append_examples_spec _ _ _ Hio). simpl.
    rewrite <- !app_assoc. reflexivity. }
  split; [reflexivity|]. split.
  { rewrite !length_app, length_concat_pairs.
    pose proof Hio as Hlen. apply Forall2_length in Hlen. simpl in *. lia. }
  split; [reflexivity|]. split; [rewrite !app_assoc; apply last_snoc|].
  split; [reflexivity|]. split; [reflexivity|].
  split; [reflexivity|]. split; [reflexivity|].
  split; [intros key Hrole Hcontent; split; by apply Hother|].
  split; [apply length_concat_pairs|].
  clear Hio. induction ios as [|io0 ios IH]; intros i io Hi; [discriminate|].
  destruct i as [|i].
  - injection Hi as <-.
    exists (mk_message "user" io0.1), (mk_message "assistant" io0.2).
    repeat (split; [reflexivity|]).
    intros key Hrole Hcontent; split; by apply Hother.
  - destruct (IH i io Hi) as (question & answer & Hq & Ha & Hrest).
    exists question, answer.
    replace (2 * S i) with (S (S (2 * i))) by lia.
    replace (S (S (2 * i)) + 1) with (S (S (2 * i + 1))) by lia.
    split; [exact Hq|]. split; [exact Ha | exact Hrest].
Qed.

Lemma C8_create_messages_shape_witness :
  exists messages,
    create_messages "be brief" "hi"
      (Some [dict_literal [("input", "2+2"); ("output", "4")]])
      (Some [mk_message "user" "earlier"])
    = Ok messages /\ length messages = 5.
Proof.
  destruct (C8_create_messages_shape "be brief" "hi"
              (Some [dict_literal [("input", "2+2"); ("output", "4")]])
              (Some [mk_message "user" "earlier"])
              [("2+2", "4")]) as (messages & _ & _ & _ & Hrun & _ & Hlen & _).
  - repeat constructor; vm_compute; reflexivity.
  - exists messages. split; [exact Hrun | exact Hlen].
Defined.

(** C8 (as stated, refuted): for a list with an example that has no
    "output" entry nothing is returned; the subscript raises
    [KeyError]. *)
Lemma C8_counterexample_example_without_output :
  create_messages "be brief" "hi" (Some [dict_literal [("input", "2+2")]]) None
  = Raise (KeyError "output")
  /\ ~ exists messages,
        create_messages "be brief" "hi" (Some [dict_literal [("input", "2+2")]]) None
        = Ok messages.
Proof.
  assert (H : create_messages "be brief" "hi" (Some [dict_literal [("input", "2+2")]]) None
              = Raise (KeyError "output")) by (vm_compute; reflexivity).
  split; [exact H|]. intros [messages Hok]. rewrite H in Hok. discriminate.
Qed.

End MessagesFacts.

Section SchemaFacts.
Import Py Json Schema.

Lemma dict_get_snoc {V} (k k' : string) (v : V) (d : list (string * V)) :
  dict_get k (d ++ [(k', v)])
  = match dict_get k d with
    | Some x => Some x
    | None => if String.eqb k k' then Some v else None
    end.
Proof.
  induction d as [|[k0 v0] d IH]; simpl; [reflexivity|].
  destruct (String.eqb k k0); [reflexivity | exact IH].
Qed.

Lemma dict_set_fresh {V} (k : string) (v : V) (d : list (string * V)) :
  dict_get k d = None -> dict_set k v d = d ++ [(k, v)].
Proof.
  induction d as [|[k0 v0] d IH]; simpl; [reflexivity|].
  destruct (String.eqb k k0); [discriminate|].
  intros H. by rewrite IH.
Qed.

Lemma schema_loop_spec (items : list (string * json)) :
  forall (properties : list (string * json)) (required : list json),
    NoDup items.*1 ->
    (forall k, k ∈ items.*1 -> dict_get k properties = None) ->
    schema_loop items properties required
    = (properties ++ omap property_of items,
       required ++ map (fun item => JStr item.1) items).
Proof.
  induction items as [|[field field_type] rest IH]; intros properties required Hnd Hfresh.
  - simpl. by rewrite !app_nil_r.
  - apply list.NoDup_cons in Hnd as [Hnotin Hnd]. simpl in *.
    assert (Hf : dict_get field properties = None)
      by (apply Hfresh, elem_of_cons; by left).
    unfold property_of at 1. simpl.
    destruct (json_type_name field_type) as [t|] eqn:Ht.
    + rewrite (dict_set_fresh _ _ _ Hf). rewrite IH; [|done|].
      * by rewrite <- !app_assoc.
      * intros k Hk. rewrite dict_get_snoc, Hfresh by (apply elem_of_cons; by right).
        destruct (String.eqb_spec k field) as [->|]; [contradiction | reflexivity].
    + rewrite IH; [|done|].
      * by rewrite <- !app_assoc.
      * intros k Hk. apply Hfresh, elem_of_cons. by right.
Qed.

Lemma dict_get_properties_absent (items : list (string * json)) (field : string) :
  field ∉ items.*1 -> dict_get field (omap property_of items) = None.
Proof.
  induction items as [|[k ft] rest IH]; intros Hnotin; [reflexivity|].
  simpl in *. apply not_elem_of_cons in Hnotin as [Hne Hrest].
  unfold property_of at 1. simpl.
  destruct (json_type_name ft); simpl; [|by apply IH].
  destruct (String.eqb_spec field k); [contradiction | by apply IH].
Qed.

Lemma dict_get_properties (items : list (string * json)) (field : string) (field_type : json) :
  NoDup items.*1 -> (field, field_type) ∈ items ->
  dict_get field (omap property_of items) = type_object <$> json_type_name field_type.
Proof.
  induction items as [|[k ft] rest IH]; intros Hnd Hin; [by apply elem_of_nil in Hin|].
  simpl in Hnd. apply list.NoDup_cons in Hnd as [Hnotin Hnd].
  apply elem_of_cons in Hin as [Heq|Hin].
  - injection Heq as <- <-. simpl. unfold property_of at 1. simpl.
    destruct (json_type_name field_type); simpl.
    + by rewrite String.eqb_refl.
    + by apply dict_get_properties_absent.
  - assert (Hne : field <> k).
    { intros ->. apply Hnotin. apply list_elem_of_fmap. by exists (k, field_type). }
    simpl. unfold property_of at 1. simpl.
    destruct (json_type_name ft); simpl; [|by apply IH].
    destruct (String.eqb_spec field k); [contradiction | by apply IH].
Qed.

Lemma json_type_name_table (t : string) :
  json_type_name (JStr t)
  = dict_get t [ ("str", "string"); ("string", "string");
                 ("int", "integer"); ("integer", "integer");
                 ("float", "number"); ("number", "number");
                 ("bool", "boolean"); ("boolean", "boolean") ].
Proof.
  unfold json_type_name. cbn [dict_get].
  destruct (String.eqb t "str"); [reflexivity|].
  destruct (String.eqb t "string"); [reflexivity|].
  destruct (String.eqb t "int"); [reflexivity|].
  destruct (String.eqb t "integer"); [reflexivity|].
  destruct (String.eqb t "float"); [reflexivity|].
  destruct (String.eqb t "number"); [reflexivity|].
  destruct (String.eqb t "bool"); [reflexivity|].
  destruct (String.eqb t "boolean"); reflexivity.
Qed.

(** C10: for an input dict (its items in order, with distinct keys),
    [convert_output_schema_to_json_schema] returns a schema of type
    object whose [required] lists every key of the input in order, whose
    [additionalProperties] is false, and whose [properties] holds, in
    order, exactly the keys whose value is one of the eight recognised
    type names, each mapped to the object with the JSON type for its
    "type": str and string to string, int and integer to integer, float
    and number to number, bool and boolean to boolean.  A key with any
    other value (another string, or a value that is no string) is in
    [required] and not in [properties]. *)
Theorem C10_convert_output_schema (output_schema : list (string * json)) :
  NoDup output_schema.*1 ->
  let names :=
    [ ("str", "string"); ("string", "string");
      ("int", "integer"); ("integer", "integer");
      ("float", "number"); ("number", "number");
      ("bool", "boolean"); ("boolean", "boolean") ] in
  let recognised (field_type : json) : option string :=
    match field_type with
    | JStr t => dict_get t names
    | _ => None
    end in
  let property (item : string * json) : option (string * json) :=
    match recognised item.2 with
    | Some t => Some (item.1, JObj [("type", JStr t)])
    | None => None
    end in
  let properties := omap property output_schema in
  let required := map (fun item : string * json => JStr item.1) output_schema in
  convert_output_schema_to_json_schema output_schema
  = [ ("type", JStr "object");
      ("properties", JObj properties);
      ("required", JArr required);
      ("additionalProperties", JBool false) ]
  /\ (forall field field_type t,
        (field, field_type) ∈ output_schema -> recognised field_type = Some t ->
        dict_get field properties = Some (JObj [("type", JStr t)])
        /\ JStr field ∈ required)
  /\ (forall field field_type,
        (field, field_type) ∈ output_schema -> recognised field_type = None ->
        dict_get field properties = None /\ JStr field ∈ required)
  /\ (forall field, field ∉ output_schema.*1 ->
        dict_get field properties = None /\ JStr field ∉ required).
Proof.
  intros Hnd names recognised property properties required.
  assert (Hrecognised : forall field_type, json_type_name field_type = recognised field_type).
  { intros [| | | |t| |]; try reflexivity. apply json_type_name_table. }
  assert (Hproperty : forall item, property_of item = property item).
  { intros [field field_type]. unfold property_of, property. cbn [fst snd].
    rewrite Hrecognised. destruct (recognised field_type); reflexivity. }
  assert (Hproperties : omap property_of output_schema = properties).
  { unfold properties. clear Hnd. induction output_schema as [|item rest IH]; [reflexivity|].
    cbn [omap list_omap]. fold (omap property_of rest) (omap property rest).
    rewrite Hproperty, IH. reflexivity. }
  assert (Hrequired : forall field field_type,
            (field, field_type) ∈ output_schema -> JStr field ∈ required).
  { intros field field_type Hin. unfold required.
    apply list_elem_of_fmap. by exists (field, field_type). }
  split; [|split; [|split]].
  - unfold convert_output_schema_to_json_schema.
    rewrite schema_loop_spec; [|exact Hnd|reflexivity].
    cbn [app]. by rewrite Hproperties.
  - intros field field_type t Hin Ht. split; [|by apply (Hrequired field field_type)].
    rewrite <- Hproperties, (dict_get_properties _ _ _ Hnd Hin), Hrecognised, Ht.
    reflexivity.
  - intros field field_type Hin Ht. split; [|by apply (Hrequired field field_type)].
    rewrite <- Hproperties, (dict_get_properties _ _ _ Hnd Hin), Hrecognised, Ht.
    reflexivity.
  - intros field Hnotin. split.
    + rewrite <- Hproperties. by apply dict_get_properties_absent.
    + unfold required. intros Hin. apply list_elem_of_fmap in Hin as ([k v] & [= ->] & Hin).
      apply Hnotin. apply list_elem_of_fmap. by exists (k, v).
Qed.

Lemma C10_convert_output_schema_witness :
  convert_output_schema_to_json_schema
    [("title", JStr "str"); ("tags", JStr "list"); ("count", JInt 3); ("score", JStr "float")]
  = [ ("type", JStr "object");
      ("properties",
       JObj [ ("title", JObj [("type", JStr "string")]);
              ("score", JObj [("type", JStr "number")]) ]);
      ("required", JArr [JStr "title"; JStr "tags"; JStr "count"; JStr "score"]);
      ("additionalProperties", JBool false) ].
Proof.
  refine (proj1 (C10_convert_output_schema
                   [ ("title", JStr "str"); ("tags", JStr "list"); ("count", JInt 3);
                     ("score", JStr "float") ] _)).
  apply (bool_decide_unpack _). vm_compute. reflexivity.
Defined.

End SchemaFacts.

Section GenerateFacts.
Import Py Json Schema Messages Generate.

Lemma dict_get_set {V} (k : string) (v : V) (d : list (string * V)) :
  dict_get k (dict_set k v d) = Some v.
Proof.
  induction d as [|[k0 v0] d IH]; simpl.
  - by rewrite String.eqb_refl.
  - destruct (String.eqb k k0) eqn:E; simpl.
    + by rewrite String.eqb_refl.
    + rewrite E. exact IH.
Qed.

Lemma set_additional_properties_ok (v : json) (d : list (string * json)) :
  set_additional_properties v = Ok d ->
  dict_get "additionalProperties" d = Some (JBool false).
Proof.
  destruct v; simpl; try discriminate.
  intros [= <-]. apply dict_get_set.
Qed.

Lemma resolve_schema_additional_properties
    (output_json_schema : option string)
    (output_schema fields : option (list (string * json)))
    (schema : list (string * json)) :
  resolve_schema output_json_schema output_schema = Ok (schema, fields) ->
  dict_get "additionalProperties" schema = Some (JBool false).
Proof.
  unfold resolve_schema.
  destruct output_json_schema as [text|].
  - destruct (has_non_space text); [|discriminate].
    destruct (loads text) as [v|]; simpl; [|discriminate].
    destruct (set_additional_properties v) as [d|] eqn:E; simpl; [|discriminate].
    intros [= <- _]. by apply set_additional_properties_ok in E.
  - destruct output_schema; simpl; intros [= <- _];
      [apply dict_get_set | reflexivity].
Qed.

Lemma extend_system_message_spec (text content : string)
    (before after : list message) (system : message) :
  Forall (fun m : message => exists role, m !! "role" = Some role /\ role <> "system") before ->
  system !! "role" = Some "system" ->
  system !! "content" = Some content ->
  extend_system_message text (before ++ system :: after)
  = Ok (before ++ <["content" := content +:+ text]> system :: after).
Proof.
  intros Hbefore Hrole Hcontent.
  induction Hbefore as [|m before (role & Hm & Hne) _ IH]; simpl.
  - unfold getitem. rewrite Hrole. simpl. rewrite Hcontent. reflexivity.
  - unfold getitem. rewrite Hm. simpl.
    destruct (String.eqb_spec role "system") as [->|_]; [contradiction|].
    rewrite IH. reflexivity.
Qed.

(** C5 (as amended): for a model that supports JSON output, a schema
    that resolves and a provider that lists [response_format] among its
    parameters: when the provider supports a response schema, the
    response format is of type json_schema and carries the resolved
    schema (additionalProperties forced to false), wrapped with strict
    true and the name output unless the schema already has a name or a
    schema key, in which case it is passed as it is; when the provider
    does not, the response format is of type json_object and the content
    of the first system message is extended by the instruction followed
    by the JSON text of [output_schema] when one is given and not empty,
    of the default [{"output": "string"}] when neither [output_schema]
    nor a schema text is given, and of the resolved schema otherwise. *)
Theorem C5_schema_fallback (lib : library) (messages : list message)
    (model_name : string) (temperature : float) (max_tokens : Z)
    (output_json_schema : option string)
    (output_schema fields : option (list (string * json)))
    (schema : list (string * json)) :
  supports_json model_name = true ->
  resolve_schema output_json_schema output_schema = Ok (schema, fields) ->
  contains "response_format" (get_supported_openai_params lib model_name) = Ok true ->
  (supports_response_schema lib model_name = true ->
   exists req,
     prepare_request lib messages model_name temperature max_tokens
       output_json_schema output_schema = Ok req
     /\ kw_response_format req
        = Some (JObj [ ("type", JStr "json_schema");
                       ("json_schema", JObj (wrap_schema schema)) ])
     /\ kw_messages req = messages
     /\ dict_get "additionalProperties" schema = Some (JBool false)
     /\ (dict_mem "name" schema = false -> dict_mem "schema" schema = false ->
         wrap_schema schema
         = [ ("schema", JObj schema); ("strict", JBool true); ("name", JStr "output") ])
     /\ (dict_mem "name" schema = true \/ dict_mem "schema" schema = true ->
         wrap_schema schema = schema))
  /\ (supports_response_schema lib model_name = false ->
      forall (before after : list message) (system : message) (content : string),
        messages = before ++ system :: after ->
        Forall (fun m : message =>
                  exists role, m !! "role" = Some role /\ role <> "system") before ->
        system !! "role" = Some "system" ->
        system !! "content" = Some content ->
        exists req printed,
          prepare_request lib messages model_name temperature max_tokens
            output_json_schema output_schema = Ok req
          /\ kw_response_format req = Some (JObj [("type", JStr "json_object")])
          /\ kw_messages req
             = before ++ <["content" := content +:+ instruction +:+ printed]> system :: after
          /\ printed
             = dumps lib (JObj match output_schema, output_json_schema with
                               | Some (item :: rest), _ => item :: rest
                               | None, None => [("output", JStr "string")]
                               | _, _ => schema
                               end)).
Proof.
  intros Hjson Hschema Hformat. split.
  - intros Hrs. eexists. split; [|split; [|split; [|split; [|split]]]].
    + unfold prepare_request. rewrite Hjson, Hschema. simpl.
      rewrite Hformat. simpl. rewrite Hrs. reflexivity.
    + reflexivity.
    + reflexivity.
    + by apply resolve_schema_additional_properties in Hschema.
    + intros Hn Hs. unfold wrap_schema. by rewrite Hn, Hs.
    + intros [Hn|Hs]; unfold wrap_schema.
      * by rewrite Hn.
      * rewrite Hs. by rewrite andb_false_r.
  - intros Hrs before after system content -> Hbefore Hrole Hcontent.
    eexists. exists (schema_for_prompt lib schema fields).
    split; [|split; [|split]].
    + unfold prepare_request. rewrite Hjson, Hschema. simpl.
      rewrite Hformat. simpl. rewrite Hrs.
      rewrite (extend_system_message_spec _ content _ _ _ Hbefore Hrole Hcontent).
      reflexivity.
    + reflexivity.
    + reflexivity.
    + pose proof (resolve_schema_additional_properties _ _ _ _ Hschema) as Hfalse.
      assert (Hfields : fields = match output_schema, output_json_schema with
                                 | None, None => Some [("output", JStr "string")]
                                 | _, _ => output_schema
                                 end).
      { unfold resolve_schema in Hschema.
        destruct output_json_schema as [text|].
        - destruct (has_non_space text); [|discriminate].
          destruct (loads text) as [v|]; cbn in Hschema; [|discriminate].
          destruct (set_additional_properties v); cbn in Hschema; [|discriminate].
          injection Hschema as _ <-. by destruct output_schema.
        - destruct output_schema; cbn in Hschema; injection Hschema as _ <-; reflexivity. }
      rewrite Hfields. unfold schema_for_prompt.
      destruct output_schema as [[|item rest]|], output_json_schema as [text|];
        try reflexivity; destruct schema; try reflexivity; discriminate.
Qed.

Lemma C5_schema_fallback_witness :
  exists req,
    prepare_request (printing_library false)
      [mk_message "system" "Be brief."; mk_message "user" "hi"]
      "openai/gpt-4o" 0.5 100000 None None = Ok req
    /\ kw_response_format req = Some (JObj [("type", JStr "json_object")])
    /\ kw_messages req
       = [ <["content" := "Be brief." +:+ instruction
                          +:+ "{" +:+ quoted "output" +:+ ": " +:+ quoted "string" +:+ "}"]>
             (mk_message "system" "Be brief.");
           mk_message "user" "hi" ].
Proof.
  destruct (C5_schema_fallback (printing_library false)
              [mk_message "system" "Be brief."; mk_message "user" "hi"]
              "openai/gpt-4o" 0.5 100000 None None
              (Some [("output", JStr "string")])
              [ ("type", JStr "object");
                ("properties", JObj [("output", type_object "string")]);
                ("required", JArr [JStr "output"]);
                ("additionalProperties", JBool false) ])
    as [_ Hobject].
  - vm_compute. reflexivity.
  - reflexivity.
  - reflexivity.
  - destruct (Hobject eq_refl [] [mk_message "user" "hi"]
                (mk_message "system" "Be brief.") "Be brief.")
      as (req & printed & Hrun & Hformat & Hmessages & Hprinted).
    + reflexivity.
    + constructor.
    + vm_compute. reflexivity.
    + vm_compute. reflexivity.
    + exists req. split; [exact Hrun|]. split; [exact Hformat|].
      rewrite Hmessages, Hprinted. reflexivity.
Defined.

(** C5 (as stated, refuted): a schema text that already has a schema
    key is passed to the provider as it is, with neither strict nor a
    name. *)
Lemma C5_counterexample_schema_passed_unwrapped :
  supports_json "openai/gpt-4o" = true
  /\ exists req members,
      prepare_request (sample_library true) [mk_message "system" "Be brief."]
        "openai/gpt-4o" 0.5 100000
        (Some ("{" +:+ quoted "schema" +:+ ": {" +:+ quoted "type" +:+ ": "
               +:+ quoted "object" +:+ "}}"))
        None = Ok req
      /\ kw_response_format req
         = Some (JObj [("type", JStr "json_schema"); ("json_schema", JObj members)])
      /\ members = [ ("schema", JObj [("type", JStr "object")]);
                     ("additionalProperties", JBool false) ]
      /\ dict_get "strict" members = None
      /\ dict_get "name" members = None.
Proof.
  split; [vm_compute; reflexivity|].
  eexists. eexists. split; [vm_compute; reflexivity|].
  split; [reflexivity|]. split; [reflexivity|]. split; reflexivity.
Qed.

Lemma sanitize_cons (c : ascii) (r : string) :
  sanitize (String c r) = escaped c +:+ sanitize r.
Proof.
  unfold sanitize, escaped. cbn [replace1].
  destruct (Ascii.eqb c dquote) eqn:Hq.
  - rewrite replace1_app. reflexivity.
  - cbn [replace1]. destruct (Ascii.eqb c (ascii_of_nat 10)); reflexivity.
Qed.

Lemma scanstring_escaped (c : ascii) (fuel : nat) (rest : string) :
  safe c = true ->
  scanstring (S fuel) (escaped c +:+ rest)
  = cons_str (String c "") (scanstring fuel rest).
Proof.
  destruct c as [[] [] [] [] [] [] [] []]; try discriminate; intros _; reflexivity.
Qed.

Lemma scanstring_sanitized (r : string) :
  forall fuel rest,
    all_safe r = true -> (String.length r < fuel)%nat ->
    scanstring fuel (sanitize r +:+ String dquote rest) = Scanned r rest.
Proof.
  induction r as [|c r IH]; intros fuel rest Hsafe Hfuel.
  - destruct fuel; [simpl in Hfuel; lia | reflexivity].
  - destruct fuel; [simpl in Hfuel; lia|].
    cbn [all_safe] in Hsafe. apply andb_true_iff in Hsafe as [Hc Hr].
    rewrite sanitize_cons, str_app_assoc, scanstring_escaped by exact Hc.
    rewrite IH by (try exact Hr; simpl in Hfuel; lia). reflexivity.
Qed.

Lemma length_escaped (c : ascii) : (1 <= String.length (escaped c))%nat.
Proof. unfold escaped. repeat destruct (Ascii.eqb _ _); simpl; lia. Qed.

Lemma length_sanitize (r : string) : (String.length r <= String.length (sanitize r))%nat.
Proof.
  induction r as [|c r IH]; [simpl; lia|].
  rewrite sanitize_cons, str_length_app. pose proof (length_escaped c). simpl. lia.
Qed.

Lemma wrap_output_unfold (r : string) :
  wrap_output r
  = String "{" (String dquote (String "o" (String "u" (String "t" (String "p"
      (String "u" (String "t" (String dquote (String ":" (String " " (String dquote
        (sanitize r +:+ String dquote "}")))))))))))).
Proof. reflexivity. Qed.

Lemma scanstring_key (fuel : nat) (rest : string) :
  (6 < fuel)%nat ->
  scanstring fuel
    (String "o" (String "u" (String "t" (String "p" (String "u" (String "t"
       (String dquote rest)))))))
  = Scanned "output" rest.
Proof. intros H. exact (scanstring_sanitized "output" fuel rest eq_refl H). Qed.

Lemma scan_once_string (fuel : nat) (tail : string) :
  scan_once (S fuel) (String dquote tail)
  = match scanstring (S (String.length tail)) tail with
    | Scanned str rest => Scanned (JStr str) rest
    | Invalid m => Invalid m
    | NoFuel => NoFuel
    end.
Proof. reflexivity. Qed.

Lemma skip_ws_brace (s : string) : skip_ws (String "{" s) = String "{" s.
Proof. reflexivity. Qed.

Lemma scan_once_object (fuel : nat) (s : string) :
  scan_once (S fuel) (String "{" (String dquote s)) = object_members fuel [] s.
Proof. reflexivity. Qed.

Lemma object_members_output (fuel : nat) (tail : string) (value : string) :
  scanstring (S (String.length tail)) tail = Scanned value "}" ->
  object_members (S (S fuel)) []
    (String "o" (String "u" (String "t" (String "p" (String "u" (String "t"
       (String dquote (String ":" (String " " (String dquote tail))))))))))
  = Scanned (JObj [("output", JStr value)]) "".
Proof.
  intros H.
  with_strategy opaque [scanstring scan_once] (cbn [object_members]).
  rewrite scanstring_key by (simpl String.length; lia).
  replace (skip_ws (String ":" (String " " (String dquote tail))))
    with (String ":" (String " " (String dquote tail))) by reflexivity.
  change ((code ":" =? 58)%N) with true.
  replace (skip_ws (String " " (String dquote tail)))
    with (String dquote tail) by reflexivity.
  lazy beta iota.
  rewrite scan_once_string, H.
  reflexivity.
Qed.

(** where the wrapping does work: a response made of newlines and of
    characters from the space on, without a backslash, comes back as
    the ["output"] of the JSON object that is returned *)
Lemma wrap_output_round_trips (r : string) :
  all_safe r = true -> round_trips r.
Proof.
  intros Hsafe. exists [("output", JStr r)]. split; [|reflexivity].
  unfold finish_response. cbn [negb]. unfold loads.
  remember (2 * String.length (wrap_output r) + 2)%nat as fuel eqn:Hfuel.
  assert (Hge : (3 <= fuel)%nat).
  { rewrite Hfuel, wrap_output_unfold. simpl String.length. lia. }
  destruct fuel as [|[|[|fuel]]]; try lia. clear Hfuel Hge.
  rewrite wrap_output_unfold. unfold loads_fuel.
  rewrite skip_ws_brace, scan_once_object, (object_members_output _ _ r); [reflexivity|].
  apply scanstring_sanitized; [exact Hsafe|].
  rewrite str_length_app. pose proof (length_sanitize r). lia.
Qed.

(** C9 (fails on the code): the wrapping escapes double quotes and
    newlines only.  A response with a backslash that starts no JSON
    escape, or with a control character, yields text that
    [json.loads] rejects; a response with a backslash followed by [n]
    yields text that parses, to a different string. *)
Theorem C9_wrapped_response_not_round_tripped :
  supports_json "anthropic/claude-3-5-sonnet-latest" = false
  /\ finish_response false "C:\dir"
     = "{" +:+ quoted "output" +:+ ": " +:+ quoted "C:\dir" +:+ "}"
  /\ loads (finish_response false "C:\dir") = Raise (JSONDecodeError "Invalid \escape")
  /\ loads (finish_response false (String (ascii_of_nat 9) "x"))
     = Raise (JSONDecodeError "Invalid control character at")
  /\ loads (finish_response false "a\nb")
     = Ok (JObj [("output", JStr ("a" +:+ nl +:+ "b"))])
  /\ ~ round_trips "C:\dir"
  /\ ~ round_trips "a\nb".
Proof.
  split; [vm_compute; reflexivity|].
  split; [vm_compute; reflexivity|].
  split; [vm_compute; reflexivity|].
  split; [vm_compute; reflexivity|].
  split; [vm_compute; reflexivity|].
  split.
  - intros (members & Hloads & _).
    assert (H : loads (finish_response false "C:\dir")
                = Raise (JSONDecodeError "Invalid \escape")) by (vm_compute; reflexivity).
    rewrite H in Hloads. discriminate.
  - intros (members & Hloads & Hget).
    assert (H : loads (finish_response false "a\nb")
                = Ok (JObj [("output", JStr ("a" +:+ nl +:+ "b"))])) by (vm_compute; reflexivity).
    rewrite H in Hloads. injection Hloads as <-.
    vm_compute in Hget. discriminate.
Qed.

End GenerateFacts.

Section RetryFacts.
Import Py Json Retry.

Lemma completion_retry_on_state (s : RetryCallState) :
  completion_retry (StateObject s) = true.
Proof. reflexivity. Qed.

Lemma wait_exponential_bounds (x : Q) :
  (30 <= Qmax (Qmax 0 30) (Qmin x 120) <= 120)%Q.
Proof.
  split.
  - apply Q.max_le_iff. left. apply Q.le_max_r.
  - apply Q.max_lub.
    + apply Q.max_lub; discriminate.
    + apply Q.le_min_r.
Qed.

Lemma uniform_bounds (a b sample : Q) :
  (a <= b -> 0 <= sample <= 1 -> a <= uniform a b sample <= b)%Q.
Proof. unfold uniform. intros Hab [H0 H1]. nra. Qed.

(** the wait before any attempt lies between 30 and 120 seconds, for a
    sample of [random.random()] between 0 and 1 *)
Lemma wait_random_exponential_bounds (s : RetryCallState) (sample : Q) :
  (0 <= sample <= 1)%Q ->
  (30 <= wait_random_exponential 30 120 s sample <= 120)%Q.
Proof.
  intros Hsample. unfold wait_random_exponential, wait_exponential.
  pose proof (wait_exponential_bounds (1 * 2 ^ Z.of_nat (attempt_number s - 1))%Q)
    as [Hlo Hhi].
  pose proof (uniform_bounds 30 _ sample Hlo Hsample) as [H1 H2].
  split; [exact H1 | lra].
Qed.

(** before the third attempt the exponential bound is still the
    minimum, so the draw is 30 seconds whatever the sample *)
Lemma wait_random_exponential_early (e : result string) (sample : Q) (n : nat) :
  (n <= 2)%nat ->
  (30 <= wait_random_exponential 30 120 {| attempt_number := n; outcome := e |} sample
   <= 120)%Q.
Proof.
  intros Hn. unfold wait_random_exponential, wait_exponential, uniform.
  destruct n as [|[|[|n]]]; [| | |lia]; simpl attempt_number; simpl Nat.sub;
    (replace (Qmax (Qmax 0 30) (Qmin _ 120)) with (30 : Q)
       by (vm_compute; reflexivity));
    split; lra.
Qed.

Lemma bounded_retrying (p : pyobject -> bool) (f : nat -> result string)
    (random : nat -> Q) (k : nat) :
  exists run,
    call_with_retry {| wait := wait_random_exponential 30 120;
                       stop := stop_after_attempt 3;
                       retry := p |} f random (3 + k) = Some run
    /\ (1 <= attempts run <= 3)%nat
    /\ length (sleeps run) = (attempts run - 1)%nat
    /\ Forall within_bounds (sleeps run).
Proof.
  unfold call_with_retry. simpl.
  destruct (f 1%nat) as [v1|e1].
  { eexists. split; [reflexivity|]. simpl. repeat split; try lia. constructor. }
  destruct (negb _).
  { eexists. split; [reflexivity|]. simpl. repeat split; try lia. constructor. }
  destruct (f 2%nat) as [v2|e2].
  { eexists. split; [reflexivity|]. simpl. repeat split; try lia.
    repeat constructor; apply wait_random_exponential_early; lia. }
  destruct (negb _).
  { eexists. split; [reflexivity|]. simpl. repeat split; try lia.
    repeat constructor; apply wait_random_exponential_early; lia. }
  destruct (f 3%nat) as [v3|e3].
  { eexists. split; [reflexivity|]. simpl. repeat split; try lia.
    repeat constructor; apply wait_random_exponential_early; lia. }
  destruct (negb _).
  { eexists. split; [reflexivity|]. simpl. repeat split; try lia.
    repeat constructor; apply wait_random_exponential_early; lia. }
  eexists. split; [reflexivity|]. simpl. repeat split; try lia.
  repeat constructor; apply wait_random_exponential_early; lia.
Qed.

Lemma always_failing_is_retried (e : exn) (random : nat -> Q) (k : nat) :
  exists run,
    call_with_retry completion_retrying (fun _ => Raise e) random (3 + k) = Some run
    /\ ending_of run = RetryError e
    /\ attempts run = 3%nat
    /\ length (sleeps run) = 2%nat.
Proof.
  unfold call_with_retry. simpl. rewrite !orb_true_r. simpl.
  eexists. split; [reflexivity|]. repeat split.
Qed.

(** what does hold of the decorator: a failure of any other kind is
    retried, and the value of the next attempt is returned *)
Lemma transient_failure_is_retried (msg v : string) (random : nat -> Q) (k : nat) :
  exists run,
    call_with_retry completion_retrying
      (fun n => if (n <? 2)%nat then Raise (Timeout msg) else Ok v) random (2 + k)
    = Some run
    /\ ending_of run = Returns v
    /\ attempts run = 2%nat.
Proof. eexists. split; [reflexivity|]. split; reflexivity. Qed.

(** C2 (fails on the code): tenacity calls the [retry] argument on the
    retry state, not on the exception, so the [isinstance] test of the
    lambda never matches and every failure is retried.  A call whose
    attempts all raise an authentication error, a [ValueError] or a
    rate-limit error makes three attempts with two waits and ends in a
    [RetryError]; the error is not raised again after the first
    attempt. *)
Theorem C2_surfaced_errors_are_retried (msg : string) (random : nat -> Q) (k : nat) :
  (forall s, completion_retry (StateObject s) = true)
  /\ completion_retry (ExceptionObject (AuthenticationError msg)) = false
  /\ (forall e, e = AuthenticationError msg \/ e = ValueError msg \/ e = RateLimitError msg ->
      exists run,
        call_with_retry completion_retrying (fun _ => Raise e) random (3 + k) = Some run
        /\ ending_of run = RetryError e
        /\ ending_of run <> Reraises e
        /\ attempts run = 3%nat
        /\ length (sleeps run) = 2%nat).
Proof.
  split; [exact completion_retry_on_state|]. split; [reflexivity|].
  intros e _. destruct (always_failing_is_retried e random k)
    as (run & Hrun & Hend & Hn & Hs).
  exists run. repeat split; try assumption. rewrite Hend. discriminate.
Qed.

Lemma C2_surfaced_errors_are_retried_witness :
  exists run,
    call_with_retry completion_retrying
      (fun _ => Raise (AuthenticationError "invalid api key")) (fun _ => 1 # 2) 3
    = Some run
    /\ attempts run = 3%nat.
Proof.
  destruct (C2_surfaced_errors_are_retried "invalid api key" (fun _ => 1 # 2) 0)
    as (_ & _ & H).
  destruct (H (AuthenticationError "invalid api key")) as (run & Hrun & _ & _ & Hn & _).
  - left. reflexivity.
  - exists run. split; [exact Hrun | exact Hn].
Defined.

(** C4 (as amended): the Azure configuration is used if and only if the
    model name starts with azure/, or AZURE_OPENAI_API_KEY is set to a
    non-empty value and the model name does not start with ollama/;
    otherwise the call is made with the keyword arguments as they were
    passed. *)
Theorem C4_provider_selection
    (setup_azure_configuration : gmap string json -> gmap string json)
    (environ : gmap string string) (kwargs : gmap string json) (model : string) :
  model_of kwargs = Ok model ->
  exists c,
    completion_call setup_azure_configuration environ kwargs = Ok c
    /\ (call_route c = AzureConfiguration <->
        startswith model "azure/" = true
        \/ ((exists key, environ !! "AZURE_OPENAI_API_KEY" = Some key /\ key <> "")
            /\ startswith model "ollama/" = false))
    /\ (call_route c = AzureConfiguration ->
        call_kwargs c = setup_azure_configuration kwargs)
    /\ (call_route c <> AzureConfiguration -> call_kwargs c = kwargs).
Proof.
  intros Hmodel. unfold completion_call. rewrite Hmodel. simpl.
  assert (Hkey : opt_truthy (getenv environ "AZURE_OPENAI_API_KEY") = true
                 <-> exists key, environ !! "AZURE_OPENAI_API_KEY" = Some key /\ key <> "").
  { unfold getenv. destruct (environ !! "AZURE_OPENAI_API_KEY") as [[|c key]|]; simpl.
    - split; [discriminate | intros (key & [= <-] & Hne); contradiction].
    - split; [intros _; eexists; split; [reflexivity | discriminate] | reflexivity].
    - split; [discriminate | intros (key & Hk & _); discriminate]. }
  destruct (uses_azure environ model) eqn:Hazure.
  - eexists. split; [reflexivity|]. simpl. split; [|split; [reflexivity | congruence]].
    split; [intros _ | reflexivity].
    unfold uses_azure in Hazure. apply orb_true_iff in Hazure as [H|H]; [by left|].
    apply andb_true_iff in H as [H1 H2]. right. split; [by apply Hkey|].
    by apply negb_true_iff.
  - assert (Hnot : ~ (startswith model "azure/" = true
                      \/ ((exists key, environ !! "AZURE_OPENAI_API_KEY" = Some key /\ key <> "")
                          /\ startswith model "ollama/" = false))).
    { unfold uses_azure in Hazure. apply orb_false_iff in Hazure as [H1 H2].
      intros [H|[Hk Ho]]; [congruence|].
      apply Hkey in Hk. rewrite Hk, Ho in H2. discriminate. }
    destruct (startswith model "ollama/"); eexists; (split; [reflexivity|]); simpl;
      (split; [split; [discriminate | intros H; contradiction] |]);
      (split; [discriminate | reflexivity]).
Qed.

Lemma C4_provider_selection_witness :
  exists c,
    completion_call (fun kwargs => <["api_version" := JStr "2024-02-01"]> kwargs)
      {["AZURE_OPENAI_API_KEY" := "secret"]}
      {["model" := JStr "openai/gpt-4o"]} = Ok c
    /\ call_route c = AzureConfiguration.
Proof.
  destruct (C4_provider_selection
              (fun kwargs => <["api_version" := JStr "2024-02-01"]> kwargs)
              {["AZURE_OPENAI_API_KEY" := "secret"]}
              {["model" := JStr "openai/gpt-4o"]} "openai/gpt-4o")
    as (c & Hcall & Hroute & _).
  - reflexivity.
  - exists c. split; [exact Hcall|]. apply Hroute. right. split.
    + exists "secret". split; [reflexivity | discriminate].
    + reflexivity.
Defined.

(** C4 (as stated, refuted): with AZURE_OPENAI_API_KEY set to the empty
    string the variable is set and the model is not an Ollama model,
    yet the standard configuration is used. *)
Lemma C4_counterexample_empty_key :
  is_Some (getenv {["AZURE_OPENAI_API_KEY" := ""]} "AZURE_OPENAI_API_KEY")
  /\ startswith "openai/gpt-4o" "ollama/" = false
  /\ completion_call (fun kwargs => kwargs) {["AZURE_OPENAI_API_KEY" := ""]}
       {["model" := JStr "openai/gpt-4o"]}
     = Ok {| call_route := StandardConfiguration;
             call_kwargs := {["model" := JStr "openai/gpt-4o"]} |}.
Proof.
  split; [by eexists|]. split; reflexivity.
Qed.

End RetryFacts.

Section ValidationFacts.
Import Py Registry Validation.

Lemma validate_max_tokens_error (a : argument Z) :
  validate max_tokens_field a = None <-> a = Omitted \/ int_outside 1 65536 a.
Proof.
  unfold int_outside. destruct a as [|[n|]]; simpl.
  - split; [by left | reflexivity].
  - unfold int_between. split.
    + destruct (1 <=? n)%Z eqn:Hlo; destruct (n <=? 65536)%Z eqn:Hhi; simpl;
        intros H; try discriminate; right; exists n; split; try reflexivity; lia.
    + intros [H|(n' & Heq & H)]; [discriminate|].
      injection Heq as <-.
      destruct (1 <=? n)%Z eqn:Hlo; destruct (n <=? 65536)%Z eqn:Hhi; simpl;
        try reflexivity; lia.
  - split; [discriminate | intros [H|(n & H & _)]; discriminate].
Qed.

Lemma SFcompare_antisym (x y : spec_float) (c : comparison) :
  SFcompare x y = Some c -> SFcompare y x = Some (CompOpp c).
Proof.
  destruct x as [sx|sx| |sx mx ex], y as [sy|sy| |sy my ey]; simpl;
    try discriminate; try destruct sx; try destruct sy;
    intros [= <-]; try reflexivity;
    rewrite (Z.compare_antisym ex ey); destruct (ex ?= ey)%Z; simpl; try reflexivity;
    change (Pos.compare_cont Eq my mx) with (my ?= mx)%positive;
    change (Pos.compare_cont Eq mx my) with (mx ?= my)%positive;
    rewrite (Pos.compare_antisym mx my); destruct (mx ?= my)%positive; reflexivity.
Qed.

Lemma SFcompare_none (x y : spec_float) :
  SFcompare x y = None <-> x = S754_nan \/ y = S754_nan.
Proof.
  destruct x as [sx|sx| |sx mx ex], y as [sy|sy| |sy my ey]; simpl;
    split; try discriminate; try tauto; intros [H|H]; discriminate.
Qed.

Lemma is_nan_spec (x : float) : PrimFloat.is_nan x = true <-> Prim2SF x = S754_nan.
Proof.
  unfold PrimFloat.is_nan. rewrite FloatAxioms.eqb_spec. unfold SFeqb.
  destruct (Prim2SF x) as [s|s| |s m e]; simpl; try destruct s;
    try (split; [discriminate | discriminate]); try (split; reflexivity).
  - rewrite Z.compare_refl.
    change (Pos.compare_cont Eq m m) with (m ?= m)%positive.
    rewrite Pos.compare_refl. simpl. split; discriminate.
  - rewrite Z.compare_refl.
    change (Pos.compare_cont Eq m m) with (m ?= m)%positive.
    rewrite Pos.compare_refl. split; discriminate.
Qed.

(** [a <= b] fails exactly when [b < a] or one of the two is not a
    number *)
Lemma leb_false_iff (a b : float) :
  PrimFloat.leb a b = false
  <-> PrimFloat.ltb b a = true \/ PrimFloat.is_nan a = true \/ PrimFloat.is_nan b = true.
Proof.
  rewrite FloatAxioms.leb_spec, FloatAxioms.ltb_spec, !is_nan_spec. unfold SFleb, SFltb.
  destruct (SFcompare (Prim2SF a) (Prim2SF b)) as [c|] eqn:Hc.
  - pose proof (SFcompare_antisym _ _ _ Hc) as Hop. rewrite Hop.
    assert (Hnot : ~ (Prim2SF a = S754_nan \/ Prim2SF b = S754_nan)).
    { intros H. apply SFcompare_none in H. congruence. }
    destruct c; simpl; split; try discriminate; try tauto; intros [H|H];
      try discriminate; tauto.
  - pose proof (proj1 (SFcompare_none _ _) Hc) as Hnan. split; [tauto | reflexivity].
Qed.

Lemma validate_float_error (name : string) (d : option float) (a : argument float) :
  validate {| field_name := name; field_default := Default d;
              accepts := float_between 0.0 1.0 |} a = None
  <-> float_outside 0.0 1.0 a.
Proof.
  assert (Hbounds : forall x,
            float_between 0.0 1.0 x = false
            <-> PrimFloat.ltb x 0.0 = true \/ PrimFloat.ltb 1.0 x = true
                \/ PrimFloat.is_nan x = true).
  { intros x. unfold float_between. rewrite andb_false_iff, !leb_false_iff.
    assert (H0 : PrimFloat.is_nan 0.0 = false) by reflexivity.
    assert (H1 : PrimFloat.is_nan 1.0 = false) by reflexivity.
    rewrite H0, H1. split.
    - intros [[H|[H|H]]|[H|[H|H]]]; try discriminate; tauto.
    - intros [H|[H|H]]; [left; tauto | right; tauto | left; tauto]. }
  unfold float_outside. destruct a as [|[x|]]; simpl.
  - split; [discriminate | intros (x & H & _); discriminate].
  - destruct (float_between 0.0 1.0 x) eqn:Hx.
    + split; [discriminate|]. intros (x' & [= <-] & H).
      apply Hbounds in H. congruence.
    + split; [|reflexivity]. intros _. exists x. split; [reflexivity|].
      by apply Hbounds.
  - split; [discriminate | intros (x & H & _); discriminate].
Qed.

Lemma new_raises (m : option LLMModels) (mt : argument Z) (t p : argument float) :
  raises (new m mt t p)
  <-> validate max_tokens_field mt = None
      \/ validate temperature_field t = None
      \/ validate top_p_field p = None.
Proof.
  unfold raises, new.
  destruct (validate max_tokens_field mt), (validate temperature_field t),
    (validate top_p_field p); split;
    try (intros [e H]; discriminate); try (intros _; eexists; reflexivity);
    try tauto; intros [H|[H|H]]; discriminate.
Qed.

(** C6 (as amended): constructing a [ModelInfo] raises a validation
    error if and only if [max_tokens] is left out, or a value passed
    for [max_tokens] is outside [1, 65536], or a value passed for
    [temperature] or for [top_p] is below 0.0, above 1.0 or not a
    number; otherwise it succeeds, [None] being accepted for each of
    the three, with [temperature] defaulting to 0.7 and [top_p] to 1.0
    when left out. *)
Theorem C6_model_info_validation (m : option LLMModels) (mt : argument Z)
    (t p : argument float) :
  (raises (new m mt t p)
   <-> mt = Omitted \/ int_outside 1 65536 mt
       \/ float_outside 0.0 1.0 t \/ float_outside 0.0 1.0 p)
  /\ (raises (new m mt t p) \/
      new m mt t p
      = Ok {| model := match m with Some x => x | None => GPT_4O end;
              max_tokens := value_or None mt;
              temperature := value_or (Some 0.7%float) t;
              top_p := value_or (Some 1.0%float) p |}).
Proof.
  split.
  - rewrite new_raises, validate_max_tokens_error.
    unfold temperature_field, top_p_field. rewrite !validate_float_error. tauto.
  - unfold raises, new.
    destruct mt as [|[n|]], t as [|[x|]], p as [|[y|]]; simpl;
      repeat match goal with
             | |- context [if ?b then _ else _] => destruct b
             end;
      solve [right; reflexivity | left; eexists; reflexivity].
Qed.

(** C6 (as stated, refuted): with [max_tokens] left out construction
    raises, although no value is outside its bounds. *)
Lemma C6_counterexample_max_tokens_required :
  raises (new None Omitted Omitted Omitted)
  /\ ~ (int_outside 1 65536 Omitted
        \/ float_outside 0.0 1.0 Omitted \/ float_outside 0.0 1.0 Omitted).
Proof.
  split.
  - eexists. reflexivity.
  - intros [(n & H & _)|[(x & H & _)|(x & H & _)]]; discriminate.
Qed.

End ValidationFacts.

Section DocxFacts.
Import Py Docx.

Lemma add_paragraphs_characters (t : string) :
  forall xml_content,
    add_paragraphs xml_content (iter_str t)
    = xml_content +:+ concat_all (map (element "paragraph") (iter_str t)).
Proof.
  induction t as [|c t IH]; intros xml_content;
    cbn [iter_str add_paragraphs truthy map concat_all].
  - by rewrite str_app_nil_r.
  - rewrite IH. by rewrite str_app_assoc.
Qed.

Lemma add_properties_elements (items : list (string * option string)) :
  forall xml_content,
    add_properties xml_content items
    = xml_content +:+ concat_all (omap property_element items).
Proof.
  induction items as [|[key [[|c v]|]] items IH]; intros xml_content;
    cbn [add_properties opt_truthy truthy omap list_omap property_element snd fst concat_all].
  - by rewrite str_app_nil_r.
  - apply IH.
  - rewrite IH. by rewrite str_app_assoc.
  - apply IH.
Qed.

(** the document that [render] produces: the declaration and the root,
    the metadata section with an element per non-empty property, and
    the content section with an element per character of the text *)
Lemma render_structure (docx_content : DocxContent) :
  render docx_content
  = ("<?xml version='1.0' encoding='UTF-8'?>" +:+ nl +:+ "<document>" +:+ nl)
    +:+ ("<metadata>" +:+ nl)
    +:+ concat_all (omap property_element (properties docx_content))
    +:+ ("</metadata>" +:+ nl)
    +:+ ("<content>" +:+ nl)
    +:+ concat_all (map (element "paragraph") (iter_str (text docx_content)))
    +:+ ("</content>" +:+ nl)
    +:+ "</document>".
Proof.
  unfold render. rewrite add_paragraphs_characters, add_properties_elements.
  rewrite !str_app_assoc. reflexivity.
Qed.

Lemma length_iter_str (t : string) : length (iter_str t) = String.length t.
Proof. induction t as [|c t IH]; simpl; [reflexivity | by rewrite IH]. Qed.

Lemma convert_docx_to_xml_failure (e : exn) :
  convert_docx_to_xml (Raise e)
  = (["Error converting DOCX to XML: " +:+ exn_msg e], Raise e).
Proof. reflexivity. Qed.

(** C7 (fails on the code): [docx_content.text] is a string, so the
    loop over it yields characters and the content section gets one
    paragraph element per character of the text, not one per
    paragraph.  For a document with the single paragraph Hi the result
    has a paragraph element for H and one for i. *)
Theorem C7_paragraph_element_per_character :
  convert_docx_to_xml
    (Ok {| properties := [("title", Some "Notes"); ("subject", Some ""); ("creator", None)];
           text := text_of_paragraphs ["Hi"] |})
  = ([], Ok ("<?xml version='1.0' encoding='UTF-8'?>" +:+ nl
             +:+ "<document>" +:+ nl
             +:+ "<metadata>" +:+ nl
             +:+ "<title>Notes</title>" +:+ nl
             +:+ "</metadata>" +:+ nl
             +:+ "<content>" +:+ nl
             +:+ "<paragraph>H</paragraph>" +:+ nl
             +:+ "<paragraph>i</paragraph>" +:+ nl
             +:+ "</content>" +:+ nl
             +:+ "</document>"))
  /\ content_per_paragraph ["Hi"] = "<paragraph>Hi</paragraph>" +:+ nl
  /\ (forall docx_content xml_content,
        add_paragraphs xml_content (iter_str (text docx_content))
        = xml_content
          +:+ concat_all (map (element "paragraph") (iter_str (text docx_content)))
        /\ length (iter_str (text docx_content)) = String.length (text docx_content)).
Proof.
  split; [vm_compute; reflexivity|]. split; [vm_compute; reflexivity|].
  intros docx_content xml_content. split.
  - apply add_paragraphs_characters.
  - apply length_iter_str.
Qed.

End DocxFacts.

Section StartupFacts.
Import Py Startup.

Lemma rstrip_splits (chars s : string) :
  exists removed, s = rstrip chars s +:+ removed /\ all_in chars removed = true.
Proof.
  induction s as [|c r (removed & Heq & Hall)].
  - exists "". split; reflexivity.
  - cbn [rstrip]. destruct (rstrip chars r) as [|c' r'] eqn:Hr.
    + change ("" +:+ removed) with removed in Heq. subst r.
      destruct (in_chars c chars) eqn:Hc.
      * exists (String c removed). split; [reflexivity|].
        cbn [all_in]. by rewrite Hc, Hall.
      * exists removed. split; [reflexivity | exact Hall].
    + exists removed. split; [|exact Hall].
      rewrite str_app_cons. by rewrite <- Heq.
Qed.

Lemma rstrip_last (chars s : string) (c : ascii) :
  last_char (rstrip chars s) = Some c -> in_chars c chars = false.
Proof.
  induction s as [|a r IH]; [discriminate|].
  cbn [rstrip]. destruct (rstrip chars r) as [|c' r'] eqn:Hr.
  - destruct (in_chars a chars) eqn:Ha; [discriminate|].
    simpl. intros [= <-]. exact Ha.
  - intros H. apply IH. exact H.
Qed.

Lemma rstrip_app_all (chars s t : string) :
  all_in chars t = true -> rstrip chars (s +:+ t) = rstrip chars s.
Proof.
  intros Hall. induction s as [|c r IH].
  - change ("" +:+ t) with t. induction t as [|a t IHt]; [reflexivity|].
    cbn [all_in] in Hall. apply andb_true_iff in Hall as [Ha Ht].
    cbn [rstrip]. rewrite (IHt Ht). simpl. by rewrite Ha.
  - rewrite str_app_cons. cbn [rstrip]. by rewrite IH.
Qed.

Lemma rstrip_id (chars s : string) (c : ascii) :
  last_char s = Some c -> in_chars c chars = false -> rstrip chars s = s.
Proof.
  induction s as [|a r IH]; [discriminate|].
  intros Hlast Hc. cbn [rstrip]. destruct r as [|b r'].
  - simpl in Hlast. injection Hlast as ->. simpl. by rewrite Hc.
  - rewrite IH; [reflexivity | exact Hlast | exact Hc].
Qed.

Lemma last_char_app (s t : string) (c : ascii) :
  last_char (s +:+ String c t) = last_char (String c t).
Proof.
  induction s as [|a r IH]; [reflexivity|].
  rewrite str_app_cons. destruct r as [|b r']; [reflexivity|].
  rewrite str_app_cons in *. exact IH.
Qed.

Lemma endswith_app (s suffix : string) : endswith (s +:+ suffix) suffix = true.
Proof.
  induction s as [|a r IH].
  - change ("" +:+ suffix) with suffix. destruct suffix as [|a t]; [reflexivity|].
    cbn [endswith]. by rewrite String.eqb_refl.
  - rewrite str_app_cons. cbn [endswith]. rewrite IH. apply orb_true_r.
Qed.

(** X1: The cleaned base URL is what was configured with an end removed,
    and it does not end with a slash; when the suffix /openai was
    found it ends with none of the characters of that suffix. *)
Theorem clean_azure_api_base_trims (configured : option string) :
  let given := match configured with Some v => v | None => "" end in
  (exists removed, given = clean_azure_api_base configured +:+ removed)
  /\ last_char (clean_azure_api_base configured) <> Some "/"%char
  /\ (endswith (rstrip "/" given) "/openai" = true ->
      forall c, last_char (clean_azure_api_base configured) = Some c ->
                in_chars c "/openai" = false).
Proof.
  intros given. unfold clean_azure_api_base. fold given.
  destruct (rstrip_splits "/" given) as (r1 & H1 & _).
  destruct (endswith (rstrip "/" given) "/openai") eqn:Hends.
  - destruct (rstrip_splits "/openai" (rstrip "/" given)) as (r2 & H2 & _).
    split; [|split].
    + exists (r2 +:+ r1). rewrite <- str_app_assoc, <- H2. exact H1.
    + intros H. apply rstrip_last in H. discriminate.
    + intros _ c H. by apply rstrip_last in H.
  - split; [|split].
    + exists r1. exact H1.
    + intros H. apply rstrip_last in H. discriminate.
    + discriminate.
Qed.

(** X2: A host name that ends with one of the letters of "openai" loses
    that letter, and any such letters before it, together with the
    suffix: what is left is the start of the host name without its last
    character. *)
Theorem clean_azure_api_base_cuts_host (host : string) (c : ascii) :
  in_chars c "openai" = true ->
  exists removed,
    host = clean_azure_api_base (Some (host +:+ String c "/openai")) +:+ removed.
Proof.
  intros Hc. unfold clean_azure_api_base.
  assert (Hslash : rstrip "/" (host +:+ String c "/openai") = host +:+ String c "/openai").
  { apply (rstrip_id _ _ "i"); [|reflexivity]. by rewrite last_char_app. }
  rewrite Hslash.
  replace (host +:+ String c "/openai") with ((host +:+ String c "") +:+ "/openai")
    by (by rewrite str_app_assoc).
  rewrite endswith_app.
  rewrite str_app_assoc. change (String c "" +:+ "/openai") with (String c "/openai").
  rewrite rstrip_app_all.
  - destruct (rstrip_splits "/openai" host) as (removed & H & _). by exists removed.
  - cbn [all_in]. apply andb_true_iff. split; [|reflexivity].
    cbn [in_chars] in *. rewrite Hc. apply orb_true_r.
Qed.

Lemma clean_azure_api_base_cuts_host_witness :
  exists removed,
    "https://models.example.i"
    = clean_azure_api_base (Some "https://models.example.io/openai") +:+ removed.
Proof. exact (clean_azure_api_base_cuts_host "https://models.example.i" "o" eq_refl). Defined.

End StartupFacts.

Section RegistryTableFacts.
Import Py Registry Validation.

Lemma dict_literal_lookup {V} (l : list (string * V)) (k : string) (v : V) :
  dict_literal l !! k = Some v -> (k, v) ∈ l.
Proof.
  unfold dict_literal.
  assert (H : forall (m : gmap string V),
             foldl (fun m kv => <[kv.1 := kv.2]> m) m l !! k = Some v ->
             (k, v) ∈ l \/ m !! k = Some v).
  { induction l as [|[k' v'] l IH]; intros m Hm; simpl in Hm.
    - by right.
    - destruct (IH _ Hm) as [Hin|Hm'].
      + left. by apply elem_of_cons; right.
      + destruct (decide (k' = k)) as [->|Hne].
        * rewrite lookup_insert_eq in Hm'. injection Hm' as ->. left. by apply elem_of_cons; left.
        * rewrite lookup_insert_ne in Hm' by exact Hne. by right. }
  intros Hl. destruct (H ∅ Hl) as [Hin|Hempty]; [exact Hin|].
  by rewrite lookup_empty in Hempty.
Qed.

Lemma registry_entry_of (model_id : string) (info : LLMModel) :
  get_model_info model_id = Some info ->
  exists m, m <> GEMINI_2_0_FLASH_EXP /\ model_id = value m
            /\ get_model_info (value m) = Some info.
Proof.
  intros Hget. pose proof Hget as Hin. unfold get_model_info, model_registry in Hin.
  apply dict_literal_lookup in Hin. unfold registry_entries, entry in Hin.
  repeat (apply elem_of_cons in Hin as [Hin|Hin];
          [match type of Hin with
           | _ = (value ?m, _) =>
               exists m; assert (E : model_id = value m) by exact (f_equal fst Hin)
           end;
           split; [discriminate|]; split; [exact E|rewrite <- E; exact Hget]|]).
  by apply elem_of_nil in Hin.
Qed.

(** X3: [get_model_info] answers only for the values of enum members, and
    for any string it answers with a model whose id is that string and
    whose provider is named by the part of the id before the slash. *)
Theorem get_model_info_sound (model_id : string) (info : LLMModel) :
  get_model_info model_id = Some info ->
  (exists m, In m members /\ model_id = value m)
  /\ id info = model_id
  /\ provider_value (provider info) = provider_prefix model_id.
Proof.
  intros Hget. destruct (registry_entry_of _ _ Hget) as (m & Hne & -> & Hm).
  destruct (get_model_info_registered m Hne) as (info' & Hget' & Hid & Hprov).
  rewrite Hget in Hget'. injection Hget' as <-.
  split; [|split; assumption].
  exists m. split; [|reflexivity]. destruct m; vm_compute; tauto.
Qed.

Lemma get_model_info_sound_witness :
  id {| id := "openai/gpt-4o"; provider := OPENAI; name := "GPT-4O";
        model_constraints := constraints 16384 2.0 |} = "openai/gpt-4o".
Proof.
  refine (proj1 (proj2 (get_model_info_sound "openai/gpt-4o" _ _))).
  vm_compute. reflexivity.
Defined.

(** X4: JSON output is unsupported exactly for the ids that are not
    registered and for the models of Anthropic and DeepSeek. *)
Theorem supports_json_by_provider (model_name : string) :
  Generate.supports_json model_name = false
  <-> get_model_info model_name = None
      \/ provider_prefix model_name = "anthropic"
      \/ provider_prefix model_name = "deepseek".
Proof.
  unfold Generate.supports_json.
  destruct (get_model_info model_name) as [info|] eqn:Hget.
  - destruct (registry_entry_of _ _ Hget) as (m & Hne & -> & Hm).
    clear Hget. destruct m; try congruence;
      vm_compute in Hm; injection Hm as <-; vm_compute;
      (split; [intros H; try discriminate; tauto
              | intros [H|[H|H]]; try discriminate; reflexivity]).
  - split; [by left | reflexivity].
Qed.

(** X5: A [ModelInfo] built for a registered model with that model's own
    token limit is refused exactly for the two O1 models, whose limit
    of 100000 is above the bound of the [max_tokens] field. *)
Theorem model_info_refuses_registry_limit (m : LLMModels) (info : LLMModel) :
  get_model_info (value m) = Some info ->
  (raises (new (Some m) (Passed (Some (mc_max_tokens (model_constraints info))))
             Omitted Omitted)
   <-> m = O1 \/ m = O1_2024_12_17).
Proof.
  intros Hget. unfold raises.
  destruct m; vm_compute in Hget; try discriminate; injection Hget as <-; vm_compute;
    (split; [intros [e H]; try discriminate; tauto
            | intros [H|H]; try discriminate; eexists; reflexivity]).
Qed.

Lemma model_info_refuses_registry_limit_witness :
  raises (new (Some O1) (Passed (Some 100000%Z)) Omitted Omitted)
  <-> O1 = O1 \/ O1 = O1_2024_12_17.
Proof.
  refine (model_info_refuses_registry_limit O1
            {| id := "openai/o1"; provider := OPENAI; name := "O1";
               model_constraints := constraints 100000 2.0 |} _).
  vm_compute. reflexivity.
Defined.

End RegistryTableFacts.

Section ExamplesFacts.
Import Py Json Messages.

Lemma append_examples_app (good : list message) :
  forall (messages : list message) (ios : list (string * string)) (rest : list message),
    Forall2 has_io good ios ->
    append_examples messages (good ++ rest)
    = append_examples (messages ++ concat (map example_pair ios)) rest.
Proof.
  induction good as [|ex good IH]; intros messages ios rest Hio.
  - inversion Hio; subst. simpl. by rewrite app_nil_r.
  - inversion Hio as [|? io ? ios' [Hin Hout] Hrest]; subst.
    simpl. unfold getitem. rewrite Hin, Hout. simpl.
    rewrite (IH _ ios' rest Hrest). f_equal.
    rewrite <- !app_assoc. reflexivity.
Qed.

(** X6: [create_messages] stops at the first example that lacks an entry:
    it raises [KeyError] for "input" when that is missing and for
    "output" otherwise, whatever the examples after it, the history
    and the user message are. *)
Theorem create_messages_missing_key
    (system_message user_message : string)
    (good : list message) (ios : list (string * string))
    (bad : message) (rest : list message) (history : option (list message)) :
  Forall2 has_io good ios ->
  bad !! "input" = None \/ bad !! "output" = None ->
  create_messages system_message user_message (Some (good ++ bad :: rest)) history
  = Raise (KeyError (match bad !! "input" with Some _ => "output" | None => "input" end)).
Proof.
  intros Hio Hbad. unfold create_messages. simpl or_empty.
  rewrite (append_examples_app _ _ _ _ Hio). simpl. unfold getitem.
  destruct (bad !! "input") as [i|] eqn:Hin.
  - destruct Hbad as [Hbad|Hbad]; [discriminate|]. rewrite Hbad. reflexivity.
  - reflexivity.
Qed.

Lemma create_messages_missing_key_witness :
  create_messages "be brief" "hi"
    (Some ([dict_literal [("input", "2+2"); ("output", "4")]]
           ++ dict_literal [("input", "3+3")] :: []))
    None
  = Raise (KeyError "output").
Proof.
  refine (create_messages_missing_key "be brief" "hi"
            [dict_literal [("input", "2+2"); ("output", "4")]] [("2+2", "4")]
            (dict_literal [("input", "3+3")]) [] None _ _).
  - repeat constructor; vm_compute; reflexivity.
  - right. vm_compute. reflexivity.
Defined.

End ExamplesFacts.

Section ImagesFacts.
Import Py Json Images.

Lemma append_image_examples_app (good : list (list (string * json))) :
  forall (messages : list json) (es : list (json * json * json))
         (rest : list (list (string * json))),
    Forall2 has_entries good es ->
    append_image_examples messages (good ++ rest)
    = append_image_examples (messages ++ concat (map example_triple es)) rest.
Proof.
  induction good as [|ex good IH]; intros messages es rest Hes.
  - inversion Hes; subst. simpl. by rewrite app_nil_r.
  - inversion Hes as [|? e ? es' (Hin & Himg & Hout) Hrest]; subst.
    simpl. unfold item. rewrite Hin, Himg, Hout. simpl.
    rewrite (IH _ es' rest Hrest). f_equal.
    rewrite <- !app_assoc. reflexivity.
Qed.

Lemma length_concat_triples (es : list (json * json * json)) :
  length (concat (map example_triple es)) = 3 * length es.
Proof. induction es as [|e es IH]; simpl; [reflexivity | rewrite IH; lia]. Qed.

(** X7: For examples that each have an "input", an "img" and an "output"
    entry, [create_messages_with_images] returns the system message,
    three messages per example in order (text, image, answer), the
    history in order and last the user message with the image; its
    length is 1 + 3 * len(few_shot_examples) + len(history) + 1, and
    the last message carries the text after the image exactly when
    [user_message] is not empty. *)
Theorem create_messages_with_images_shape
    (system_message base64_image user_message : string)
    (few_shot_examples : option (list (list (string * json))))
    (history : option (list json))
    (es : list (json * json * json)) :
  Forall2 has_entries (or_nil few_shot_examples) es ->
  exists messages,
    create_messages_with_images system_message base64_image user_message
      few_shot_examples history = Ok messages
    /\ messages = [message_of "system" [text_part (JStr system_message)]]
                  ++ concat (map example_triple es)
                  ++ or_nil history
                  ++ [image_message base64_image user_message]
    /\ length messages
       = 1 + 3 * length (or_nil few_shot_examples) + length (or_nil history) + 1
    /\ list.last messages
       = Some (message_of "user"
                 (image_part (JStr base64_image)
                  :: match user_message with
                     | EmptyString => []
                     | String _ _ => [text_part (JStr user_message)]
                     end)).
Proof.
  intros Hes. eexists. split; [|split; [reflexivity|]].
  - unfold create_messages_with_images.
    rewrite <- (app_nil_r (or_nil few_shot_examples)).
    rewrite (append_image_examples_app _ _ _ _ Hes). simpl.
    rewrite <- !app_assoc. reflexivity.
  - split.
    + rewrite !length_app, length_concat_triples.
      pose proof Hes as Hlen. apply Forall2_length in Hlen. simpl in *. lia.
    + rewrite !app_assoc, last_snoc. unfold image_message.
      destruct user_message; reflexivity.
Qed.

Lemma create_messages_with_images_shape_witness :
  exists messages,
    create_messages_with_images "describe" "data:image/png;base64,AAAA" ""
      (Some [[("input", JStr "what is this"); ("img", JStr "data:image/png;base64,BBBB");
              ("output", JStr "a cat")]])
      None
    = Ok messages /\ length messages = 5.
Proof.
  destruct (create_messages_with_images_shape "describe" "data:image/png;base64,AAAA" ""
              (Some [[("input", JStr "what is this"); ("img", JStr "data:image/png;base64,BBBB");
                      ("output", JStr "a cat")]])
              None
              [(JStr "what is this", JStr "data:image/png;base64,BBBB", JStr "a cat")])
    as (messages & Hrun & _ & Hlen & _).
  - repeat constructor.
  - exists messages. split; [exact Hrun | exact Hlen].
Defined.

(** X8: [create_messages_with_images] returns exactly when every example
    has its three entries; otherwise it raises [KeyError]. *)
Theorem create_messages_with_images_returns_iff
    (system_message base64_image user_message : string)
    (few_shot_examples : option (list (list (string * json))))
    (history : option (list json)) :
  match create_messages_with_images system_message base64_image user_message
          few_shot_examples history with
  | Ok _ => forallb complete (or_nil few_shot_examples) = true
  | Raise e =>
      forallb complete (or_nil few_shot_examples) = false
      /\ exists key, e = KeyError key /\ In key ["input"; "img"; "output"]
  end.
Proof.
  unfold create_messages_with_images.
  generalize [message_of "system" [text_part (JStr system_message)]] as messages.
  induction (or_nil few_shot_examples) as [|ex rest IH]; intros messages.
  - reflexivity.
  - simpl. unfold complete, dict_mem, item.
    destruct (dict_get "input" ex) as [i|];
      [|simpl; split; [reflexivity|]; exists "input"; simpl; tauto].
    simpl.
    destruct (dict_get "img" ex) as [g|];
      [|simpl; split; [reflexivity|]; exists "img"; simpl; tauto].
    simpl.
    destruct (dict_get "output" ex) as [o|];
      [|simpl; split; [reflexivity|]; exists "output"; simpl; tauto].
    simpl. apply IH.
Qed.

End ImagesFacts.

Section BackoffFacts.
Import Py Json Retry.

Lemma retry_loop_stops (w : RetryCallState -> Q -> Q) (p : pyobject -> bool) (n : nat)
    (f : nat -> result string) (random : nat -> Q) :
  forall (fuel attempt : nat) (slept : list Q),
    (1 <= fuel)%nat -> (n < attempt + fuel)%nat ->
    exists run,
      retry_loop {| wait := w; stop := stop_after_attempt n; retry := p |}
        f random fuel attempt slept = Some run
      /\ (attempt <= attempts run <= Nat.max attempt n)%nat
      /\ length (sleeps run) = (length slept + (attempts run - attempt))%nat
      /\ (forall i, (attempt <= i < attempts run)%nat ->
          exists e, f i = Raise e
                    /\ (isinstance (ExceptionObject e) ["tenacity.TryAgain"]
                        || p (StateObject {| attempt_number := i; outcome := Raise e |})) = true)
      /\ match ending_of run with
         | Returns v => f (attempts run) = Ok v
         | Reraises e =>
             f (attempts run) = Raise e
             /\ (isinstance (ExceptionObject e) ["tenacity.TryAgain"]
                 || p (StateObject {| attempt_number := attempts run; outcome := Raise e |}))
                = false
         | RetryError e =>
             f (attempts run) = Raise e /\ (n <= attempts run)%nat
             /\ (isinstance (ExceptionObject e) ["tenacity.TryAgain"]
                 || p (StateObject {| attempt_number := attempts run; outcome := Raise e |}))
                = true
         end.
Proof.
  induction fuel as [|fuel IH]; intros attempt slept Hfuel Hn; [lia|].
  cbn [retry_loop].
  destruct (f attempt) as [v|e] eqn:Hf.
  { eexists. split; [reflexivity|]. cbn.
    split; [lia|]. split; [lia|]. split; [intros i Hi; lia | exact Hf]. }
  cbn [retry].
  destruct (isinstance (ExceptionObject e) ["tenacity.TryAgain"]
            || p (StateObject {| attempt_number := attempt; outcome := Raise e |})) eqn:Hp;
    cbn [negb].
  2:{ eexists. split; [reflexivity|]. cbn.
      split; [lia|]. split; [lia|]. split; [intros i Hi; lia|].
      split; [exact Hf | exact Hp]. }
  cbn [stop]. unfold stop_after_attempt at 1. cbn [attempt_number].
  destruct (Nat.leb_spec n attempt) as [Hstop|Hgo].
  { eexists. split; [reflexivity|]. cbn.
    split; [lia|]. split; [lia|]. split; [intros i Hi; lia|].
    split; [exact Hf|]. split; [exact Hstop | exact Hp]. }
  destruct (IH (S attempt) (slept ++ [wait {| wait := w; stop := stop_after_attempt n; retry := p |}
                                        {| attempt_number := attempt; outcome := Raise e |}
                                        (random attempt)]))
    as (run & Hrun & Hbounds & Hlen & Hearlier & Hend); [lia | lia |].
  exists run. split; [exact Hrun|].
  split; [lia|]. split; [rewrite Hlen, length_app; simpl; lia|]. split; [|exact Hend].
  intros i Hi. destruct (decide (i = attempt)) as [->|Hne].
  - exists e. split; [exact Hf | exact Hp].
  - apply Hearlier. lia.
Qed.

(** For a call on its own: a function wrapped by [async_retry] with
    [stop_after_attempt(n)] is called at least once and at most [max(1, n)] times, whatever the
    wait and retry strategies are; there is one sleep between
    consecutive attempts, every attempt before the last raised, and the
    call ends with the outcome of the last attempt: its value, its
    exception raised again when the retry strategy declines it, or a
    [RetryError] around it once [n] attempts were made. *)
Lemma async_retry_stops_of_loop (w : RetryCallState -> Q -> Q) (p : pyobject -> bool) (n : nat)
    (f : nat -> result string) (random : nat -> Q) (k : nat) :
  exists run,
    call_with_retry {| wait := w; stop := stop_after_attempt n; retry := p |}
      f random (Nat.max 1 n + k) = Some run
    /\ (1 <= attempts run <= Nat.max 1 n)%nat
    /\ length (sleeps run) = (attempts run - 1)%nat
    /\ (forall i, (1 <= i < attempts run)%nat -> exists e, f i = Raise e)
    /\ match ending_of run with
       | Returns v => f (attempts run) = Ok v
       | Reraises e => f (attempts run) = Raise e
       | RetryError e => f (attempts run) = Raise e /\ (n <= attempts run)%nat
       end.
Proof.
  destruct (retry_loop_stops w p n f random (Nat.max 1 n + k) 1 [])
    as (run & Hrun & Hbounds & Hlen & Hearlier & Hend); [lia | lia |].
  exists run. split; [exact Hrun|]. split; [exact Hbounds|].
  split; [exact Hlen|]. split.
  - intros i Hi. destruct (Hearlier i Hi) as (e & He & _). by exists e.
  - destruct (ending_of run); [exact Hend | apply Hend | split; apply Hend].
Qed.

(** For a call on its own: [completion_with_backoff] never ends with
    the exception of an attempt raised again: whatever the attempts do, the call returns
    the value of the first attempt that succeeds among the first three,
    or ends in a [RetryError] around the exception of the third. *)
Lemma completion_with_backoff_outcome_of_loop (f : nat -> result string) (random : nat -> Q)
    (k : nat) :
  exists run,
    call_with_retry completion_retrying f random (3 + k) = Some run
    /\ (forall i, (1 <= i < attempts run)%nat -> exists e, f i = Raise e)
    /\ match ending_of run with
       | Returns v => f (attempts run) = Ok v
       | Reraises _ => False
       | RetryError e => attempts run = 3%nat /\ f 3%nat = Raise e
       end.
Proof.
  destruct (retry_loop_stops (wait_random_exponential 30 120) completion_retry 3 f random
              (3 + k) 1 [])
    as (run & Hrun & Hbounds & Hlen & Hearlier & Hend); [lia | lia |].
  exists run. split; [exact Hrun|]. split.
  - intros i Hi. destruct (Hearlier i Hi) as (e & He & _). by exists e.
  - destruct (ending_of run) as [v|e|e].
    + exact Hend.
    + destruct Hend as [_ Hno]. rewrite completion_retry_on_state, orb_true_r in Hno.
      discriminate.
    + destruct Hend as (Hf & Hn & _).
      assert (Hthree : attempts run = 3%nat) by lia.
      split; [exact Hthree|]. by rewrite <- Hthree.
Qed.

(** For a call on its own: [ollama_with_backoff] retries the
    failures that derive from [Exception] and no others: an attempt that raises anything else (a
    cancellation, a keyboard interrupt) ends the call with that
    exception at once, and a [RetryError] comes only after three
    attempts that each raised an [Exception]. *)
Lemma ollama_with_backoff_outcome_of_loop (f : nat -> result string) (random : nat -> Q)
    (k : nat) :
  exists run,
    call_with_retry ollama_retrying f random (3 + k) = Some run
    /\ (forall i, (1 <= i < attempts run)%nat ->
        exists e, f i = Raise e
                  /\ ("Exception" ∈ exn_mro e \/ "tenacity.TryAgain" ∈ exn_mro e))
    /\ match ending_of run with
       | Returns v => f (attempts run) = Ok v
       | Reraises e =>
           f (attempts run) = Raise e
           /\ ("Exception" ∉ exn_mro e) /\ ("tenacity.TryAgain" ∉ exn_mro e)
       | RetryError e =>
           attempts run = 3%nat /\ f 3%nat = Raise e
           /\ ("Exception" ∈ exn_mro e \/ "tenacity.TryAgain" ∈ exn_mro e)
       end.
Proof.
  assert (Hretried : forall (e : exn) (i : nat),
            (isinstance (ExceptionObject e) ["tenacity.TryAgain"]
             || retry_if_exception_type
                  (StateObject {| attempt_number := i; outcome := Raise e |})) = true
            <-> "Exception" ∈ exn_mro e \/ "tenacity.TryAgain" ∈ exn_mro e).
  { intros e i. unfold retry_if_exception_type, isinstance. cbn [existsb mro].
    rewrite !orb_false_r, orb_true_iff, !bool_decide_eq_true. tauto. }
  destruct (retry_loop_stops (wait_random_exponential 30 120) retry_if_exception_type 3
              f random (3 + k) 1 [])
    as (run & Hrun & Hbounds & Hlen & Hearlier & Hend); [lia | lia |].
  exists run. split; [exact Hrun|]. split.
  - intros i Hi. destruct (Hearlier i Hi) as (e & He & Hp). exists e.
    split; [exact He|]. by apply (Hretried e i).
  - destruct (ending_of run) as [v|e|e].
    + exact Hend.
    + destruct Hend as [Hf Hno]. split; [exact Hf|].
      split; intros Hin;
        (assert (Hyes : "Exception" ∈ exn_mro e \/ "tenacity.TryAgain" ∈ exn_mro e) by tauto);
        apply (Hretried e (attempts run)) in Hyes; congruence.
    + destruct Hend as (Hf & Hn & Hp).
      assert (Hthree : attempts run = 3%nat) by lia.
      split; [exact Hthree|]. split; [by rewrite <- Hthree|].
      by apply (Hretried e (attempts run)).
Qed.

(** For a call on its own: a call of [completion_with_backoff] whose
    [model] argument is not a [str] never reaches [acompletion]: each attempt fails on
    [model.startswith], the handler raises the error again, the
    decorator retries it, and the call ends after three attempts and
    two waits in a [RetryError] around the [AttributeError]. *)
Lemma completion_with_backoff_model_not_str_of_loop
    (setup_azure_configuration : gmap string json -> gmap string json)
    (acompletion : gmap string json -> result string)
    (environ : gmap string string) (kwargs : gmap string json) (model : json)
    (random : nat -> Q) (k : nat) :
  kwargs !! "model" = Some model ->
  (forall s, model <> JStr s) ->
  exists run e,
    call_with_retry completion_retrying
      (fun _ => completion_body setup_azure_configuration acompletion environ kwargs)
      random (3 + k) = Some run
    /\ ending_of run = RetryError e
    /\ "AttributeError" ∈ exn_mro e
    /\ attempts run = 3%nat
    /\ length (sleeps run) = 2%nat
    /\ Forall within_bounds (sleeps run).
Proof.
  intros Hmodel Hnot.
  assert (Hbody : completion_body setup_azure_configuration acompletion environ kwargs
                  = Raise (AttributeError ("'" +:+ type_name model +:+ "' object has no attribute 'startswith'"))).
  { unfold completion_body, completion_call, model_of. rewrite Hmodel.
    destruct model as [| | | |s| |]; try reflexivity. by destruct (Hnot s). }
  rewrite Hbody.
  destruct (bounded_retrying completion_retry
              (fun _ => Raise (AttributeError ("'" +:+ type_name model
                                                +:+ "' object has no attribute 'startswith'")))
              random k) as (run & Hrun & _ & _ & Hwaits).
  destruct (always_failing_is_retried (AttributeError ("'" +:+ type_name model +:+ "' object has no attribute 'startswith'"))
              random k) as (run' & Hrun' & Hend & Hattempts & Hsleeps).
  assert (run' = run) as ->.
  { unfold completion_retrying in Hrun'. congruence. }
  exists run, (AttributeError ("'" +:+ type_name model +:+ "' object has no attribute 'startswith'")).
  split; [exact Hrun|]. split; [exact Hend|]. split.
  - unfold AttributeError, exception. cbn. apply elem_of_cons. by left.
  - repeat split; assumption.
Qed.

End BackoffFacts.

Section SharedFacts.
Import Py Json Retry Shared.

Context (r : retrying) (f : nat -> nat -> result string) (random : nat -> nat -> Q).

Lemma step_ended (i : nat) (o : object) (t : task) (e : finish) :
  tasks o !! i = Some t -> position_of t = Ended e -> step r f random i o = o.
Proof.
  intros Ht He. unfold step. rewrite Ht, He. destruct o as [h c ts]. cbn in *.
  by rewrite list_insert_id.
Qed.

Lemma alone_ended (i steps : nat) (o : object) (t : task) (e : finish) :
  tasks o !! i = Some t -> position_of t = Ended e -> alone r f random i steps o = o.
Proof.
  intros Ht He. unfold alone. induction steps as [|steps IH]; [reflexivity|].
  cbn [replicate run]. by rewrite (step_ended i o t e Ht He).
Qed.

Lemma alone_step (i steps : nat) (o : object) :
  alone r f random i (S steps) o = alone r f random i steps (step r f random i o).
Proof. reflexivity. Qed.

Lemma anext_pending (sample : Q) (o : object) (t : task) (address : nat) (s : retry_state) :
  current o = Some address -> heap o !! address = Some s -> fut s = Pending ->
  anext r sample o t
  = (o, {| position_of := Attempting address; begun := S (begun t); slept := slept t |}).
Proof. intros Hc Hs Hp. unfold anext. by rewrite Hc, Hs, Hp. Qed.

Lemma anext_failed (sample : Q) (o : object) (t : task) (address : nat) (s : retry_state)
    (e : exn) :
  current o = Some address -> heap o !! address = Some s -> fut s = Failed e ->
  anext r sample o t
  = if negb (isinstance (ExceptionObject e) ["tenacity.TryAgain"]
             || retry r (StateObject {| attempt_number := number s; outcome := Raise e |}))
    then (o, {| position_of := Ended (Finished (Reraises e)); begun := begun t;
                slept := slept t |})
    else if stop r {| attempt_number := number s; outcome := Raise e |}
    then (o, {| position_of := Ended (Finished (RetryError e)); begun := begun t;
                slept := slept t |})
    else ({| heap := <[address := {| number := S (number s); fut := Pending |}]> (heap o);
             current := current o; tasks := tasks o |},
          {| position_of := Sleeping; begun := begun t;
             slept := slept t
                      ++ [wait r {| attempt_number := number s; outcome := Raise e |} sample] |}).
Proof.
  intros Hc Hs Hp. unfold anext. rewrite Hc, Hs. unfold seen. rewrite Hp. reflexivity.
Qed.

Lemma step_task (i : nat) (o : object) (t : task) :
  tasks o !! i = Some t ->
  step r f random i o
  = let '(o', t') :=
      match position_of t with
      | Unstarted =>
          anext r (random i (begun t))
            {| heap := heap o ++ [{| number := 1; fut := Pending |}];
               current := Some (length (heap o)); tasks := tasks o |} t
      | Attempting manager =>
          match f i (begun t) with
          | Ok v =>
              (record manager Done o,
               {| position_of := Ended (Finished (Returns v)); begun := begun t;
                  slept := slept t |})
          | Raise e => anext r (random i (begun t)) (record manager (Failed e) o) t
          end
      | Sleeping => anext r (random i (begun t)) o t
      | Ended _ => (o, t)
      end in
    {| heap := heap o'; current := current o'; tasks := <[i := t']> (tasks o') |}.
Proof. intros Ht. unfold step. by rewrite Ht. Qed.

(** a call that is attempting on the state the object refers to, and
    runs alone from there, goes the way of [retry_loop] *)
Lemma alone_attempting (i : nat) :
  forall (fuel attempt : nat) (waits : list Q) (o : object) (address : nat) (result : Retry.run),
    tasks o !! i
    = Some {| position_of := Attempting address; begun := attempt; slept := waits |} ->
    current o = Some address ->
    heap o !! address = Some {| number := attempt; fut := Pending |} ->
    retry_loop r (f i) (random i) fuel attempt waits = Some result ->
    exists t,
      tasks (alone r f random i (2 * fuel) o) !! i = Some t
      /\ outcome_of t = Some result.
Proof.
  induction fuel as [|fuel IH]; intros attempt waits o address result Ht Hc Hs Hloop;
    [discriminate|].
  assert (Hi : (i < length (tasks o))%nat) by (apply lookup_lt_is_Some; by eexists).
  assert (Ha : (address < length (heap o))%nat) by (apply lookup_lt_is_Some; by eexists).
  replace (2 * S fuel)%nat with (S (S (2 * fuel))) by lia.
  rewrite alone_step. cbn [retry_loop] in Hloop.
  rewrite (step_task i o _ Ht). cbn [position_of begun slept].
  destruct (f i attempt) as [v|e] eqn:Hf.
  { injection Hloop as <-. cbn [record heap current tasks].
    erewrite alone_ended.
    - eexists. split; [cbn [tasks]; by apply list_lookup_insert_eq|]. reflexivity.
    - cbn [tasks]. by apply list_lookup_insert_eq.
    - reflexivity. }
  rewrite (anext_failed _ _ _ address {| number := attempt; fut := Failed e |} e);
    [|exact Hc| |reflexivity].
  2:{ cbn [record heap]. rewrite list_lookup_alter_eq, Hs. reflexivity. }
  cbn [number].
  destruct (negb (isinstance (ExceptionObject e) ["tenacity.TryAgain"]
                  || retry r (StateObject {| attempt_number := attempt; outcome := Raise e |})))
    eqn:Hretry.
  { injection Hloop as <-. cbn [record heap current tasks].
    erewrite alone_ended.
    - eexists. split; [cbn [tasks]; by apply list_lookup_insert_eq|]. reflexivity.
    - cbn [tasks]. by apply list_lookup_insert_eq.
    - reflexivity. }
  destruct (stop r {| attempt_number := attempt; outcome := Raise e |}) eqn:Hstop.
  { injection Hloop as <-. cbn [record heap current tasks].
    erewrite alone_ended.
    - eexists. split; [cbn [tasks]; by apply list_lookup_insert_eq|]. reflexivity.
    - cbn [tasks]. by apply list_lookup_insert_eq.
    - reflexivity. }
  cbn [record heap current tasks].
  rewrite alone_step.
  erewrite step_task; [|cbn [tasks]; by apply list_lookup_insert_eq].
  cbn [position_of begun slept].
  rewrite (anext_pending _ _ _ address {| number := S attempt; fut := Pending |});
    [|exact Hc| |reflexivity].
  2:{ cbn [heap]. apply list_lookup_insert_eq. by rewrite length_alter. }
  cbn [heap current tasks begun slept]. rewrite list_insert_insert_eq.
  eapply IH; [| | |exact Hloop].
  - cbn [tasks]. by apply list_lookup_insert_eq.
  - exact Hc.
  - cbn [heap]. apply list_lookup_insert_eq. by rewrite length_alter.
Qed.

(** A call that runs while no other call does goes the way of
    [call_with_retry], whatever the calls before it left in the
    object. *)
Lemma alone_is_call_with_retry (i fuel : nat) (o : object) (result : Retry.run) :
  tasks o !! i = Some unstarted ->
  call_with_retry r (f i) (random i) fuel = Some result ->
  exists t,
    tasks (alone r f random i (1 + 2 * fuel) o) !! i = Some t
    /\ outcome_of t = Some result.
Proof.
  intros Ht Hcall.
  assert (Hi : (i < length (tasks o))%nat) by (apply lookup_lt_is_Some; by eexists).
  cbn [Nat.add]. rewrite alone_step. rewrite (step_task i o _ Ht).
  cbn [position_of unstarted begun slept].
  rewrite (anext_pending _ _ _ (length (heap o)) {| number := 1; fut := Pending |});
    [|reflexivity| |reflexivity].
  2:{ cbn [heap]. rewrite lookup_app_r by lia. by rewrite Nat.sub_diag. }
  cbn [heap current tasks begun slept].
  eapply alone_attempting; [| | |exact Hcall].
  - cbn [tasks]. by apply list_lookup_insert_eq.
  - reflexivity.
  - cbn [heap]. rewrite lookup_app_r by lia. by rewrite Nat.sub_diag.
Qed.

End SharedFacts.

Section OverlapFacts.
Import Py Json Retry Shared.

Lemma outcome_of_ended (t : task) (result : Retry.run) :
  outcome_of t = Some result ->
  position_of t = Ended (Finished (ending_of result))
  /\ begun t = attempts result /\ slept t = sleeps result.
Proof.
  unfold outcome_of. destruct (position_of t) as [| | |[e| |]]; try discriminate.
  intros [= <-]. repeat split.
Qed.

(** while other calls begin, the state a failed call reads next is
    always a new one, so it attempts again at once *)
Lemma overlapped_attempts (r : retrying) (f : nat -> nat -> result string)
    (random : nat -> nat -> Q) :
  (forall n, (1 <= n <= 3)%nat -> exists e, f 0%nat n = Raise e) ->
  tasks (run r f random [0; 1; 0; 2; 0; 3; 0]%nat (fresh 4)) !! 0%nat
  = Some {| position_of := Attempting 3; begun := 4; slept := [] |}.
Proof.
  intros Hfails.
  destruct (Hfails 1%nat ltac:(lia)) as [e1 H1].
  destruct (Hfails 2%nat ltac:(lia)) as [e2 H2].
  destruct (Hfails 3%nat ltac:(lia)) as [e3 H3].
  cbn. rewrite H1. cbn. rewrite H2. cbn. rewrite H3. reflexivity.
Qed.

(** C3 (fails on the code): [async_retry] builds one [AsyncRetrying]
    object for all the calls of the decorated function, and its
    [__anext__] reads the retry state that the call begun last has put
    there.  A call that runs while no other does makes at most three
    attempts, with a wait of 30 to 120 seconds before each further
    one.  But when three other calls begin, each while an attempt of
    the first call is pending, and the attempts of the first call fail,
    the first call finds a new state every time: it begins its fourth
    attempt and has not slept at all. *)
Theorem C3_overlapping_calls_exceed_the_bound (r : retrying)
    (f : nat -> nat -> result string) (random : nat -> nat -> Q) (k : nat) :
  r = completion_retrying \/ r = ollama_retrying ->
  (forall (o : object) (i : nat),
     tasks o !! i = Some unstarted ->
     exists t result,
       tasks (alone r f random i (1 + 2 * (3 + k)) o) !! i = Some t
       /\ outcome_of t = Some result
       /\ (1 <= attempts result <= 3)%nat
       /\ length (sleeps result) = (attempts result - 1)%nat
       /\ Forall within_bounds (sleeps result))
  /\ ((forall n, (1 <= n <= 3)%nat -> exists e, f 0%nat n = Raise e) ->
      tasks (run r f random [0; 1; 0; 2; 0; 3; 0]%nat (fresh 4)) !! 0%nat
      = Some {| position_of := Attempting 3; begun := 4; slept := [] |}).
Proof.
  intros Hr. split; [|apply overlapped_attempts].
  intros o i Hi.
  assert (Hbounded : exists result,
            call_with_retry r (f i) (random i) (3 + k) = Some result
            /\ (1 <= attempts result <= 3)%nat
            /\ length (sleeps result) = (attempts result - 1)%nat
            /\ Forall within_bounds (sleeps result)).
  { destruct Hr as [->| ->]; apply bounded_retrying. }
  destruct Hbounded as (result & Hcall & Hbounds).
  destruct (alone_is_call_with_retry r f random i (3 + k) o result Hi Hcall)
    as (t & Ht & Hresult).
  exists t, result. split; [exact Ht|]. split; [exact Hresult | exact Hbounds].
Qed.

Lemma C3_overlapping_calls_exceed_the_bound_witness :
  tasks (run completion_retrying (fun _ _ => Raise (Timeout "timed out")) (fun _ _ => 1 # 2)
           [0; 1; 0; 2; 0; 3; 0]%nat (fresh 4)) !! 0%nat
  = Some {| position_of := Attempting 3; begun := 4; slept := [] |}.
Proof.
  refine (proj2 (C3_overlapping_calls_exceed_the_bound completion_retrying
                   (fun _ _ => Raise (Timeout "timed out")) (fun _ _ => 1 # 2) 0 _) _).
  - left. reflexivity.
  - intros n _. eexists. reflexivity.
Defined.

End OverlapFacts.

Section AloneFacts.
Import Py Json Retry Shared.

Lemma retry_loop_ext (r : retrying) (f g : nat -> result string) (random : nat -> Q) :
  (forall n, f n = g n) ->
  forall fuel attempt waits,
    retry_loop r f random fuel attempt waits = retry_loop r g random fuel attempt waits.
Proof.
  intros Hfg. induction fuel as [|fuel IH]; intros attempt waits; [reflexivity|].
  cbn [retry_loop]. rewrite Hfg. destruct (g attempt); [reflexivity|].
  destruct (negb _); [reflexivity|]. destruct (stop r _); [reflexivity | apply IH].
Qed.

(** X9: A call of a function wrapped by [async_retry] with
    [stop_after_attempt(n)], when it runs while no other call of that
    function does, calls the function at least once and at most
    [max(1, n)] times, whatever the wait and retry strategies are and
    whatever earlier calls left in the retrying object; there is one
    sleep between consecutive attempts, every attempt before the last
    raised, and the call ends with the outcome of the last attempt: its
    value, its exception raised again when the retry strategy declines
    it, or a [RetryError] around it once [n] attempts were made. *)
Theorem async_retry_stops (w : RetryCallState -> Q -> Q) (p : pyobject -> bool) (n : nat)
    (f : nat -> nat -> result string) (random : nat -> nat -> Q)
    (o : object) (i k : nat) :
  tasks o !! i = Some unstarted ->
  exists t,
    tasks (alone {| wait := w; stop := stop_after_attempt n; retry := p |} f random i
             (1 + 2 * (Nat.max 1 n + k)) o) !! i = Some t
    /\ (1 <= begun t <= Nat.max 1 n)%nat
    /\ length (slept t) = (begun t - 1)%nat
    /\ (forall j, (1 <= j < begun t)%nat -> exists e, f i j = Raise e)
    /\ match position_of t with
       | Ended (Finished (Returns v)) => f i (begun t) = Ok v
       | Ended (Finished (Reraises e)) => f i (begun t) = Raise e
       | Ended (Finished (RetryError e)) => f i (begun t) = Raise e /\ (n <= begun t)%nat
       | _ => False
       end.
Proof.
  intros Hi.
  destruct (async_retry_stops_of_loop w p n (f i) (random i) k)
    as (result & Hcall & Hbounds & Hlen & Hearlier & Hend).
  destruct (alone_is_call_with_retry _ f random i _ o result Hi Hcall) as (t & Ht & Hresult).
  apply outcome_of_ended in Hresult as (Hposition & Hbegun & Hslept).
  exists t. rewrite Hposition, Hbegun, Hslept.
  split; [exact Ht|]. split; [exact Hbounds|]. split; [exact Hlen|].
  split; [exact Hearlier | exact Hend].
Qed.

Lemma async_retry_stops_witness :
  exists t,
    tasks (alone {| wait := fun _ _ => 1%Q; stop := stop_after_attempt 2;
                    retry := retry_if_exception_type |}
             (fun _ _ => Raise (Timeout "timed out")) (fun _ _ => 1 # 2) 0 5 (fresh 1))
    !! 0%nat = Some t
    /\ (1 <= begun t <= 2)%nat.
Proof.
  destruct (async_retry_stops (fun _ _ => 1%Q) retry_if_exception_type 2
              (fun _ _ => Raise (Timeout "timed out")) (fun _ _ => 1 # 2) (fresh 1) 0 0 eq_refl)
    as (t & Ht & Hbounds & _).
  exists t. split; [exact Ht | exact Hbounds].
Defined.

(** X10: A call of [completion_with_backoff] that runs while no other
    call of it does never ends with the exception of an attempt raised
    again: whatever the attempts do, it returns the value of the first
    attempt that succeeds among the first three, or ends in a
    [RetryError] around the exception of the third. *)
Theorem completion_with_backoff_outcome (f : nat -> nat -> result string)
    (random : nat -> nat -> Q) (o : object) (i k : nat) :
  tasks o !! i = Some unstarted ->
  exists t,
    tasks (alone completion_retrying f random i (1 + 2 * (3 + k)) o) !! i = Some t
    /\ (forall j, (1 <= j < begun t)%nat -> exists e, f i j = Raise e)
    /\ match position_of t with
       | Ended (Finished (Returns v)) => f i (begun t) = Ok v
       | Ended (Finished (RetryError e)) => begun t = 3%nat /\ f i 3%nat = Raise e
       | _ => False
       end.
Proof.
  intros Hi.
  destruct (completion_with_backoff_outcome_of_loop (f i) (random i) k)
    as (result & Hcall & Hearlier & Hend).
  destruct (alone_is_call_with_retry _ f random i _ o result Hi Hcall) as (t & Ht & Hresult).
  apply outcome_of_ended in Hresult as (Hposition & Hbegun & Hslept).
  exists t. rewrite Hposition, Hbegun.
  split; [exact Ht|]. split; [exact Hearlier | exact Hend].
Qed.

Lemma completion_with_backoff_outcome_witness :
  exists t,
    tasks (alone completion_retrying
             (fun _ n => if (n <? 2)%nat then Raise (ValueError "bad request") else Ok "done")
             (fun _ _ => 1 # 2) 0 7 (fresh 1)) !! 0%nat = Some t
    /\ position_of t = Ended (Finished (Returns "done")).
Proof.
  destruct (completion_with_backoff_outcome
              (fun _ n => if (n <? 2)%nat then Raise (ValueError "bad request") else Ok "done")
              (fun _ _ => 1 # 2) (fresh 1) 0 0 eq_refl) as (t & Ht & _).
  exists t. split; [exact Ht|].
  vm_compute in Ht. injection Ht as <-. reflexivity.
Defined.

(** X11: A call of [ollama_with_backoff] that runs while no other call
    of it does retries the failures that derive from [Exception] and
    no others: an attempt that raises anything else (a cancellation, a
    keyboard interrupt) ends the call with that exception at once, and
    a [RetryError] comes only after three attempts that each raised an
    [Exception]. *)
Theorem ollama_with_backoff_outcome (f : nat -> nat -> result string)
    (random : nat -> nat -> Q) (o : object) (i k : nat) :
  tasks o !! i = Some unstarted ->
  exists t,
    tasks (alone ollama_retrying f random i (1 + 2 * (3 + k)) o) !! i = Some t
    /\ (forall j, (1 <= j < begun t)%nat ->
        exists e, f i j = Raise e
                  /\ ("Exception" ∈ exn_mro e \/ "tenacity.TryAgain" ∈ exn_mro e))
    /\ match position_of t with
       | Ended (Finished (Returns v)) => f i (begun t) = Ok v
       | Ended (Finished (Reraises e)) =>
           f i (begun t) = Raise e
           /\ ("Exception" ∉ exn_mro e) /\ ("tenacity.TryAgain" ∉ exn_mro e)
       | Ended (Finished (RetryError e)) =>
           begun t = 3%nat /\ f i 3%nat = Raise e
           /\ ("Exception" ∈ exn_mro e \/ "tenacity.TryAgain" ∈ exn_mro e)
       | _ => False
       end.
Proof.
  intros Hi.
  destruct (ollama_with_backoff_outcome_of_loop (f i) (random i) k)
    as (result & Hcall & Hearlier & Hend).
  destruct (alone_is_call_with_retry _ f random i _ o result Hi Hcall) as (t & Ht & Hresult).
  apply outcome_of_ended in Hresult as (Hposition & Hbegun & Hslept).
  exists t. rewrite Hposition, Hbegun.
  split; [exact Ht|]. split; [exact Hearlier | exact Hend].
Qed.

Lemma ollama_with_backoff_outcome_witness :
  exists t,
    tasks (alone ollama_retrying
             (fun _ _ => Raise {| exn_mro := ["asyncio.CancelledError"; "BaseException"];
                                  exn_msg := "" |})
             (fun _ _ => 1 # 2) 0 7 (fresh 1)) !! 0%nat = Some t
    /\ begun t = 1%nat.
Proof.
  destruct (ollama_with_backoff_outcome
              (fun _ _ => Raise {| exn_mro := ["asyncio.CancelledError"; "BaseException"];
                                   exn_msg := "" |})
              (fun _ _ => 1 # 2) (fresh 1) 0 0 eq_refl) as (t & Ht & _).
  exists t. split; [exact Ht|].
  vm_compute in Ht. injection Ht as <-. reflexivity.
Defined.

(** X12: A call of [completion_with_backoff] whose [model] argument is
    [None], a number, a list or a dict, and that runs while no other
    call of it does, never reaches [acompletion]: each attempt fails on
    [model.startswith] with an [AttributeError], the handler raises the
    error again, the decorator retries it, and the call ends after
    three attempts and two waits of 30 to 120 seconds in a
    [RetryError] around the [AttributeError]. *)
Theorem completion_with_backoff_model_not_str
    (setup_azure_configuration : gmap string json -> gmap string json)
    (acompletion : nat -> nat -> gmap string json -> result string)
    (environ : gmap string string) (kwargs : gmap string json) (model : json)
    (random : nat -> nat -> Q) (o : object) (i k : nat) :
  kwargs !! "model" = Some model ->
  (forall s, model <> JStr s) ->
  tasks o !! i = Some unstarted ->
  exists t e,
    tasks (alone completion_retrying
             (fun j n => completion_body setup_azure_configuration (acompletion j n)
                           environ kwargs)
             random i (1 + 2 * (3 + k)) o) !! i = Some t
    /\ position_of t = Ended (Finished (RetryError e))
    /\ e = AttributeError ("'" +:+ type_name model
                           +:+ "' object has no attribute 'startswith'")
    /\ begun t = 3%nat
    /\ length (slept t) = 2%nat
    /\ Forall within_bounds (slept t)
    /\ (forall j n, completion_body setup_azure_configuration (acompletion j n) environ kwargs
                    = Raise e).
Proof.
  intros Hmodel Hnot Hi.
  destruct (completion_with_backoff_model_not_str_of_loop setup_azure_configuration
              (acompletion i 0%nat) environ kwargs model (random i) k Hmodel Hnot)
    as (result & e & Hcall & Hend & _ & Hattempts & Hsleeps & Hwaits).
  assert (Hbody : forall j n,
            completion_body setup_azure_configuration (acompletion j n) environ kwargs
            = Raise (AttributeError ("'" +:+ type_name model
                                     +:+ "' object has no attribute 'startswith'"))).
  { intros j n. unfold completion_body, completion_call, model_of. rewrite Hmodel.
    destruct model as [| | | |s| |]; try reflexivity. by destruct (Hnot s). }
  destruct (alone_is_call_with_retry completion_retrying
              (fun j n => completion_body setup_azure_configuration (acompletion j n)
                            environ kwargs)
              random i (3 + k) o result Hi) as (t & Ht & Hresult).
  { rewrite <- Hcall. unfold call_with_retry. apply retry_loop_ext.
    intros n. by rewrite !Hbody. }
  apply outcome_of_ended in Hresult as (Hposition & Hbegun & Hslept).
  assert (He : e = AttributeError ("'" +:+ type_name model
                                   +:+ "' object has no attribute 'startswith'")).
  { unfold call_with_retry in Hcall. destruct k; cbn [Nat.add retry_loop] in Hcall;
      rewrite (Hbody i 0%nat) in Hcall; cbn in Hcall;
      rewrite !orb_true_r in Hcall; cbn in Hcall;
      injection Hcall as <-; cbn in Hend; congruence. }
  exists t, e. rewrite Hposition, Hbegun, Hslept, Hend.
  split; [exact Ht|]. split; [reflexivity|]. split; [exact He|].
  split; [exact Hattempts|]. split; [exact Hsleeps|]. split; [exact Hwaits|].
  intros j n. rewrite He. apply Hbody.
Qed.

Lemma completion_with_backoff_model_not_str_witness :
  exists t e,
    tasks (alone completion_retrying
             (fun _ _ => completion_body (fun kwargs => kwargs) (fun _ => Ok "never called")
                           ∅ {["model" := JNull]})
             (fun _ _ => 1 # 2) 0 7 (fresh 1)) !! 0%nat = Some t
    /\ position_of t = Ended (Finished (RetryError e))
    /\ e = AttributeError "'NoneType' object has no attribute 'startswith'".
Proof.
  destruct (completion_with_backoff_model_not_str (fun kwargs => kwargs)
              (fun _ _ _ => Ok "never called") ∅ {["model" := JNull]} JNull
              (fun _ _ => 1 # 2) (fresh 1) 0 0)
    as (t & e & Ht & Hposition & He & _).
  - vm_compute. reflexivity.
  - discriminate.
  - reflexivity.
  - exists t, e. split; [exact Ht|]. split; [exact Hposition | exact He].
Defined.

End AloneFacts.

Section ResponseFacts.
Import Py Json Schema Messages Generate.

Lemma all_safe_app (s t : string) :
  all_safe (s +:+ t) = all_safe s && all_safe t.
Proof.
  induction s as [|c s IH]; [reflexivity|].
  rewrite str_app_cons. cbn [all_safe]. rewrite IH. by rewrite andb_assoc.
Qed.

Lemma from_first_spec (c : ascii) (s t : string) :
  from_first c s = Some t
  <-> exists pre r, s = pre +:+ String c r /\ t = String c r
                    /\ Startup.in_chars c pre = false.
Proof.
  split.
  - revert t. induction s as [|a s IH]; intros t H; [discriminate|].
    cbn [from_first] in H. destruct (Ascii.eqb_spec a c) as [->|Hne].
    + injection H as <-. exists "", s. repeat split.
    + destruct (IH t H) as (pre & r & -> & -> & Hpre).
      exists (String a pre), r. split; [reflexivity|]. split; [reflexivity|].
      cbn [Startup.in_chars]. rewrite Hpre, orb_false_r.
      apply Ascii.eqb_neq. congruence.
  - intros (pre & r & -> & -> & Hpre). induction pre as [|a pre IH].
    + change ("" +:+ String c r) with (String c r). cbn [from_first].
      by rewrite Ascii.eqb_refl.
    + rewrite str_app_cons. cbn [from_first]. cbn [Startup.in_chars] in Hpre.
      apply orb_false_iff in Hpre as [Hac Hpre].
      rewrite Ascii.eqb_sym, Hac. exact (IH Hpre).
Qed.

Lemma upto_last_none (c : ascii) (s : string) :
  upto_last c s = None <-> Startup.in_chars c s = false.
Proof.
  induction s as [|a s IH]; [by split|].
  cbn [upto_last Startup.in_chars]. rewrite (Ascii.eqb_sym c a).
  destruct (upto_last c s) as [p|].
  - split; [discriminate|]. intros H. apply orb_false_iff in H as [_ H].
    apply IH in H. discriminate.
  - destruct (Ascii.eqb a c); [by split|]. split; [|reflexivity].
    intros _. by apply IH.
Qed.

Lemma upto_last_spec (c : ascii) (s p : string) :
  upto_last c s = Some p
  <-> exists mid post, s = mid +:+ String c post /\ p = mid +:+ String c ""
                       /\ Startup.in_chars c post = false.
Proof.
  split.
  - revert p. induction s as [|a s IH]; intros p H; [discriminate|].
    cbn [upto_last] in H. destruct (upto_last c s) as [q|] eqn:Hs.
    + injection H as <-. destruct (IH q eq_refl) as (mid & post & -> & -> & Hpost).
      exists (String a mid), post. repeat split. exact Hpost.
    + destruct (Ascii.eqb_spec a c) as [->|Hne]; [|discriminate].
      injection H as <-. exists "", s. repeat split. by apply upto_last_none.
  - intros (mid & post & -> & -> & Hpost). induction mid as [|a mid IH].
    + change ("" +:+ String c post) with (String c post).
      change ("" +:+ String c "") with (String c "").
      cbn [upto_last]. apply upto_last_none in Hpost. rewrite Hpost.
      by rewrite Ascii.eqb_refl.
    + rewrite !str_app_cons. cbn [upto_last]. by rewrite IH.
Qed.

(** X13: The text that the fall-back of lines 671-675 extracts runs from the
    first opening brace of the response to its last closing brace:
    there is a match exactly when a closing brace follows the first
    opening one, nothing before the match has an opening brace and
    nothing after it a closing one. *)
Theorem search_braces_spec (response found : string) :
  search_braces response = Some found
  <-> exists pre mid post,
        response = pre +:+ String "{" (mid +:+ String "}" post)
        /\ found = String "{" (mid +:+ String "}" "")
        /\ Startup.in_chars "{" pre = false
        /\ Startup.in_chars "}" post = false.
Proof.
  unfold search_braces. split.
  - destruct (from_first "{" response) as [[|b r]|] eqn:Hfirst; try discriminate.
    apply from_first_spec in Hfirst as (pre & r' & -> & [= -> ->] & Hpre).
    destruct (upto_last "}" r') as [p|] eqn:Hlast; [|discriminate].
    apply upto_last_spec in Hlast as (mid & post & -> & -> & Hpost).
    intros [= <-]. exists pre, mid, post. repeat split; assumption.
  - intros (pre & mid & post & -> & -> & Hpre & Hpost).
    assert (Hfirst : from_first "{" (pre +:+ String "{" (mid +:+ String "}" post))
                     = Some (String "{" (mid +:+ String "}" post))).
    { apply from_first_spec. exists pre, (mid +:+ String "}" post). repeat split.
      exact Hpre. }
    rewrite Hfirst.
    assert (Hlast : upto_last "}" (mid +:+ String "}" post) = Some (mid +:+ String "}" "")).
    { apply upto_last_spec. exists mid, post. repeat split. exact Hpost. }
    rewrite Hlast. reflexivity.
Qed.

Lemma search_braces_safe (response found : string) :
  search_braces response = Some found ->
  all_safe response = true -> all_safe found = true.
Proof.
  intros H Hsafe. apply search_braces_spec in H as (pre & mid & post & -> & -> & _ & _).
  rewrite all_safe_app in Hsafe. cbn [all_safe] in Hsafe. rewrite all_safe_app in Hsafe.
  cbn [all_safe] in Hsafe.
  apply andb_true_iff in Hsafe as [_ Hsafe]. apply andb_true_iff in Hsafe as [Hb Hsafe].
  apply andb_true_iff in Hsafe as [Hmid Hsafe]. apply andb_true_iff in Hsafe as [Hc _].
  cbn [all_safe]. rewrite all_safe_app. cbn [all_safe].
  by rewrite Hb, Hmid, Hc.
Qed.

Lemma loads_wrap_output (r : string) :
  all_safe r = true -> loads (wrap_output r) = Ok (JObj [("output", JStr r)]).
Proof.
  intros Hsafe. unfold loads.
  remember (2 * String.length (wrap_output r) + 2)%nat as fuel eqn:Hfuel.
  assert (Hge : (3 <= fuel)%nat).
  { rewrite Hfuel, wrap_output_unfold. simpl String.length. lia. }
  destruct fuel as [|[|[|fuel]]]; try lia. clear Hfuel Hge.
  rewrite wrap_output_unfold. unfold loads_fuel.
  rewrite skip_ws_brace, scan_once_object, (object_members_output _ _ r); [reflexivity|].
  apply scanstring_sanitized; [exact Hsafe|].
  rewrite str_length_app. pose proof (length_sanitize r). lia.
Qed.

Lemma finish_response_cases (supports : bool) (response : string) :
  all_safe response = true ->
  exists v,
    loads (finish_response supports response) = Ok v
    /\ ((supports = true /\ finish_response supports response = response)
        \/ (supports = true /\ search_braces response
                               = Some (finish_response supports response))
        \/ v = JObj [("output", JStr response)]
        \/ (supports = true
            /\ exists found, search_braces response = Some found
                             /\ v = JObj [("output", JStr found)])).
Proof.
  intros Hsafe. unfold finish_response. destruct supports; cbn [negb].
  2:{ eexists. split; [exact (loads_wrap_output _ Hsafe)|]. right. right. by left. }
  destruct (loads response) as [v|e] eqn:Hloads; cbn [is_ok].
  { exists v. split; [exact Hloads|]. by left. }
  destruct (negb (startswith response "{")).
  2:{ eexists. split; [exact (loads_wrap_output _ Hsafe)|]. right. right. by left. }
  destruct (search_braces response) as [found|] eqn:Hfound.
  2:{ eexists. split; [exact (loads_wrap_output _ Hsafe)|]. right. right. by left. }
  pose proof (search_braces_safe _ _ Hfound Hsafe) as Hfsafe.
  destruct (loads found) as [v|e'] eqn:Hlf; cbn [is_ok].
  - exists v. split; [exact Hlf|]. right. left. by split.
  - eexists. split; [exact (loads_wrap_output _ Hfsafe)|]. right. right. right.
    split; [reflexivity|]. by exists found.
Qed.

(** X14: For a model without JSON output and a response made of
    newlines and of characters from the space on, without a backslash,
    the text returned is the wrapping of the response, and
    [json.loads] reads it back as the object whose only entry is the
    response under "output". *)
Theorem wrapped_response_round_trips (response : string) :
  all_safe response = true ->
  finish_response false response = wrap_output response
  /\ loads (finish_response false response) = Ok (JObj [("output", JStr response)]).
Proof.
  intros Hsafe. split; [reflexivity|]. exact (loads_wrap_output response Hsafe).
Qed.

Lemma wrapped_response_round_trips_witness :
  loads (finish_response false ("She said " +:+ quoted "hi" +:+ nl +:+ "and left"))
  = Ok (JObj [("output", JStr ("She said " +:+ quoted "hi" +:+ nl +:+ "and left"))]).
Proof.
  exact (proj2 (wrapped_response_round_trips
                  ("She said " +:+ quoted "hi" +:+ nl +:+ "and left") eq_refl)).
Defined.

End ResponseFacts.

Section RequestFacts.
Import Py Json Schema Messages Generate.

(** what the schema handling may change of a message: its content *)
Lemma extend_system_message_keeps (text : string) (messages : list message) :
  forall messages',
    extend_system_message text messages = Ok messages' ->
    Forall2 (fun m m' : message => forall key, key <> "content" -> m' !! key = m !! key)
      messages messages'.
Proof.
  induction messages as [|m rest IH]; intros messages' H; [discriminate|].
  cbn [extend_system_message] in H. unfold getitem in H.
  destruct (m !! "role") as [role|]; [|discriminate]. cbn in H.
  destruct (String.eqb role "system").
  - destruct (m !! "content") as [content|]; [|discriminate]. cbn in H.
    injection H as <-. constructor.
    + intros key Hkey. by rewrite lookup_insert_ne.
    + clear. induction rest; constructor; auto.
  - destruct (extend_system_message text rest) as [rest'|] eqn:Hrest; [|discriminate].
    cbn in H. injection H as <-. constructor; [auto | by apply IH].
Qed.

(** X15: Whatever the schema handling does, the request [generate_text]
    builds names the model and the token limit it was given, carries
    the temperature unless the model is deepseek/deepseek-reasoner, and
    has the messages it was given, in order, with nothing but the
    content of a message changed; for a model without JSON output
    there is no response format and the messages are untouched. *)
Theorem prepare_request_keeps (lib : library) (messages : list message)
    (model_name : string) (temperature : float) (max_tokens : Z)
    (output_json_schema : option string)
    (output_schema : option (list (string * json))) (req : request) :
  prepare_request lib messages model_name temperature max_tokens
    output_json_schema output_schema = Ok req ->
  kw_model req = model_name
  /\ kw_max_tokens req = max_tokens
  /\ kw_temperature req
     = (if String.eqb model_name "deepseek/deepseek-reasoner" then None else Some temperature)
  /\ Forall2 (fun m m' : message => forall key, key <> "content" -> m' !! key = m !! key)
       messages (kw_messages req)
  /\ (supports_json model_name = false ->
      kw_response_format req = None /\ kw_messages req = messages).
Proof.
  assert (Hsame : Forall2 (fun m m' : message =>
                             forall key, key <> "content" -> m' !! key = m !! key)
                    messages messages).
  { induction messages; constructor; auto. }
  unfold prepare_request. destruct (supports_json model_name).
  2:{ intros [= <-]. cbn. repeat split; try reflexivity. exact Hsame. }
  destruct (resolve_schema output_json_schema output_schema) as [[schema fields]|];
    [|discriminate]. cbn.
  destruct (contains "response_format" (get_supported_openai_params lib model_name))
    as [[|]|]; [| |discriminate]; cbn.
  2:{ intros [= <-]. cbn. repeat split; try reflexivity; try discriminate. exact Hsame. }
  destruct (supports_response_schema lib model_name).
  { intros [= <-]. cbn. repeat split; try reflexivity; try discriminate. exact Hsame. }
  destruct (extend_system_message _ messages) as [messages'|] eqn:Hext; [|discriminate].
  cbn. intros [= <-]. cbn. repeat split; try reflexivity; try discriminate.
  by apply extend_system_message_keeps in Hext.
Qed.

Lemma prepare_request_keeps_witness :
  kw_model {| kw_model := "deepseek/deepseek-reasoner"; kw_max_tokens := 100;
              kw_messages := [mk_message "user" "hi"]; kw_temperature := None;
              kw_response_format := None |} = "deepseek/deepseek-reasoner".
Proof.
  refine (proj1 (prepare_request_keeps (sample_library true) [mk_message "user" "hi"]
                   "deepseek/deepseek-reasoner" 0.5 100 None None _ _)).
  vm_compute. reflexivity.
Defined.

Lemma extend_system_message_missing (text : string) (messages : list message) :
  Forall (fun m : message => exists role, m !! "role" = Some role /\ role <> "system")
    messages ->
  extend_system_message text messages
  = Raise (exception "RuntimeError" "coroutine raised StopIteration").
Proof.
  induction 1 as [|m rest (role & Hrole & Hne) _ IH]; [reflexivity|].
  cbn [extend_system_message]. unfold getitem. rewrite Hrole. cbn.
  destruct (String.eqb_spec role "system") as [->|_]; [contradiction|].
  rewrite IH. reflexivity.
Qed.

(** X16: When the provider takes a response format but no response schema,
    the instruction goes into the system message; with no system
    message among the messages the search for it runs out, and
    [generate_text] fails with a [RuntimeError] before any call is
    made. *)
Theorem prepare_request_no_system_message (lib : library) (messages : list message)
    (model_name : string) (temperature : float) (max_tokens : Z)
    (output_json_schema : option string)
    (output_schema fields : option (list (string * json)))
    (schema : list (string * json)) :
  supports_json model_name = true ->
  resolve_schema output_json_schema output_schema = Ok (schema, fields) ->
  contains "response_format" (get_supported_openai_params lib model_name) = Ok true ->
  supports_response_schema lib model_name = false ->
  Forall (fun m : message => exists role, m !! "role" = Some role /\ role <> "system")
    messages ->
  prepare_request lib messages model_name temperature max_tokens
    output_json_schema output_schema
  = Raise (exception "RuntimeError" "coroutine raised StopIteration").
Proof.
  intros Hjson Hschema Hformat Hrs Hnone.
  unfold prepare_request. rewrite Hjson, Hschema. cbn.
  rewrite Hformat. cbn. rewrite Hrs.
  rewrite (extend_system_message_missing _ _ Hnone). reflexivity.
Qed.

Lemma prepare_request_no_system_message_witness :
  prepare_request (sample_library false) [mk_message "user" "hi"]
    "openai/gpt-4o" 0.5 100000 None None
  = Raise (exception "RuntimeError" "coroutine raised StopIteration").
Proof.
  refine (prepare_request_no_system_message (sample_library false) [mk_message "user" "hi"]
            "openai/gpt-4o" 0.5 100000 None None
            (Some [("output", JStr "string")])
            [ ("type", JStr "object");
              ("properties", JObj [("output", type_object "string")]);
              ("required", JArr [JStr "output"]);
              ("additionalProperties", JBool false) ] _ _ _ _ _).
  - vm_compute. reflexivity.
  - reflexivity.
  - reflexivity.
  - reflexivity.
  - repeat constructor. exists "user". split; [vm_compute; reflexivity | discriminate].
Defined.

(** X17: A schema text that cannot be used stops [generate_text] for a
    model with JSON output before any call: a text of white space only
    is kept as the [str] it is and the assignment of
    additionalProperties fails on it with a [TypeError]; a text that
    [json.loads] rejects fails with that error; a text that is JSON
    but no object fails with a [TypeError] on the same assignment.
    The last two are stated for a text within the limits of the
    interpreter (at most 100 opening brackets and braces, no run of
    more than 4300 digits).  The plain [output_schema] is not
    consulted in any of these cases. *)
Theorem prepare_request_schema_text_errors (lib : library) (messages : list message)
    (model_name : string) (temperature : float) (max_tokens : Z)
    (text : string) (output_schema : option (list (string * json))) :
  supports_json model_name = true ->
  (has_non_space text = false ->
   prepare_request lib messages model_name temperature max_tokens (Some text) output_schema
   = Raise (TypeError "'str' object does not support item assignment"))
  /\ (forall e, has_non_space text = true -> within_limits text = true ->
      loads text = Raise e ->
      prepare_request lib messages model_name temperature max_tokens (Some text) output_schema
      = Raise e)
  /\ (forall v, has_non_space text = true -> within_limits text = true ->
      loads text = Ok v ->
      (forall members, v <> JObj members) ->
      exists msg,
        prepare_request lib messages model_name temperature max_tokens (Some text)
          output_schema = Raise (TypeError msg)).
Proof.
  intros Hjson. unfold prepare_request. rewrite Hjson. unfold resolve_schema.
  split; [|split].
  - intros ->. reflexivity.
  - intros e -> _ ->. reflexivity.
  - intros v -> _ -> Hv. destruct v; try (eexists; reflexivity).
    by destruct (Hv members).
Qed.

Lemma prepare_request_schema_text_errors_witness :
  prepare_request (sample_library true) [mk_message "system" "Be brief."]
    "openai/gpt-4o" 0.5 100000 (Some (String (ascii_of_nat 194) (String (ascii_of_nat 160) " ")))
    None
  = Raise (TypeError "'str' object does not support item assignment")
  /\ exists msg,
       prepare_request (sample_library true) [mk_message "system" "Be brief."]
         "openai/gpt-4o" 0.5 100000 (Some "[1, 2]") None
       = Raise (TypeError msg).
Proof.
  destruct (prepare_request_schema_text_errors (sample_library true)
              [mk_message "system" "Be brief."] "openai/gpt-4o" 0.5 100000
              (String (ascii_of_nat 194) (String (ascii_of_nat 160) " ")) None)
    as (Hblank & _ & _); [vm_compute; reflexivity|].
  destruct (prepare_request_schema_text_errors (sample_library true)
              [mk_message "system" "Be brief."] "openai/gpt-4o" 0.5 100000
              "[1, 2]" None)
    as (_ & _ & Hlist); [vm_compute; reflexivity|].
  split; [exact (Hblank eq_refl)|].
  apply (Hlist (JArr [JInt 1; JInt 2])); try reflexivity. discriminate.
Defined.

End RequestFacts.

Section OllamaFacts.
Import Py Registry Messages Ollama.

Lemma replace_from_absent (old new s : string) :
  occurs old s = false -> replace_from old new 0 s = s.
Proof.
  induction s as [|c r IH]; [reflexivity|].
  cbn [occurs]. intros H. apply orb_false_iff in H as [Hprefix Hrest].
  cbn [replace_from]. rewrite Hprefix, (IH Hrest). reflexivity.
Qed.

Lemma replace_ollama_prefix (rest : string) :
  replace "ollama/" "" ("ollama/" +:+ rest) = replace "ollama/" "" rest.
Proof. destruct rest; reflexivity. Qed.

(** X19: The client is given the model name without its ollama/ prefix: for
    a name that is the prefix followed by a text in which ollama/ does
    not occur, the model sent is that text; a name in which ollama/
    does not occur at all is sent as it is. *)
Theorem ollama_chat_model {O D : Type} (default_options : O) (to_dict : O -> D)
    (rest : string) (messages : list message) (format : option string)
    (options : option O) (api_base : option string) :
  occurs "ollama/" rest = false ->
  chat_model (ollama_chat default_options to_dict ("ollama/" +:+ rest) messages format
                options api_base) = rest
  /\ chat_model (ollama_chat default_options to_dict rest messages format options api_base)
     = rest.
Proof.
  intros Hrest. cbn [ollama_chat chat_model]. rewrite replace_ollama_prefix.
  split; exact (replace_from_absent _ _ _ Hrest).
Qed.

Lemma ollama_chat_model_witness :
  chat_model (ollama_chat tt (fun o => o) ("ollama/" +:+ "llama3.3:70b") [] (Some "json")
                None None) = "llama3.3:70b"
  /\ chat_model (ollama_chat tt (fun o => o) "llama3.3:70b" [] (Some "json") None None)
     = "llama3.3:70b".
Proof. exact (ollama_chat_model tt (fun o => o) "llama3.3:70b" [] (Some "json") None None eq_refl). Defined.

(** X20: For every registered model of the Ollama provider, the name sent
    to the client is the id without its ollama/ prefix. *)
Theorem ollama_chat_registered_model {O D : Type} (default_options : O) (to_dict : O -> D)
    (model_id : string) (info : LLMModel) (messages : list message)
    (format : option string) (options : option O) (api_base : option string) :
  get_model_info model_id = Some info ->
  provider info = OLLAMA ->
  "ollama/" +:+ chat_model (ollama_chat default_options to_dict model_id messages format
                              options api_base) = model_id.
Proof.
  intros Hget Hprovider.
  destruct (registry_entry_of _ _ Hget) as (m & Hne & -> & Hm). clear Hget.
  cbn [ollama_chat chat_model].
  destruct m; vm_compute in Hm; try discriminate; injection Hm as <-;
    try discriminate Hprovider; vm_compute; reflexivity.
Qed.

Lemma ollama_chat_registered_model_witness :
  "ollama/" +:+ chat_model (ollama_chat tt (fun o => o) "ollama/phi4" [] None None None)
  = "ollama/phi4".
Proof.
  refine (ollama_chat_registered_model tt (fun o => o) "ollama/phi4"
            {| id := "ollama/phi4"; provider := OLLAMA; name := "Phi 4";
               model_constraints := constraints 4096 2.0 |} [] None None None _ _).
  - vm_compute. reflexivity.
  - reflexivity.
Defined.

End OllamaFacts.

Section DispatchFacts.
Import Py Json Messages Generate Docx Images Dispatch.

(** X21: For a model without JSON output (one that is not registered, or
    one of Anthropic or DeepSeek) [generate_text] makes the plain
    completion call with the messages as they were given and no
    response format, and returns the response wrapped as the "output"
    of an object: [json_mode], the URL variables, the schemas and
    [api_base] change nothing. *)
Theorem generate_text_without_json_support (lib : library) (fs : files)
    (respond : backend_call -> result string) (messages : list message)
    (model_name : string) (temperature : float) (json_mode : bool) (max_tokens : Z)
    (api_base : option string) (url_variables : option (list (string * string)))
    (output_json_schema : option string)
    (output_schema : option (list (string * json))) :
  supports_json model_name = false ->
  let kwargs :=
    {| kw_model := model_name; kw_max_tokens := max_tokens; kw_messages := messages;
       kw_temperature :=
         if String.eqb model_name "deepseek/deepseek-reasoner" then None
         else Some temperature;
       kw_response_format := None |} in
  dispatch lib fs messages model_name temperature json_mode max_tokens api_base
    url_variables output_json_schema output_schema = Ok (Completion kwargs)
  /\ generate_text lib fs respond messages model_name temperature json_mode max_tokens
       api_base url_variables output_json_schema output_schema
     = match respond (Completion kwargs) with
       | Ok response => Ok (wrap_output response)
       | Raise e => Raise e
       end.
Proof.
  intros Hjson kwargs.
  assert (Hdispatch : dispatch lib fs messages model_name temperature json_mode max_tokens
                        api_base url_variables output_json_schema output_schema
                      = Ok (Completion kwargs)).
  { unfold dispatch, prepare_request. rewrite Hjson. cbn. by rewrite andb_false_r. }
  split; [exact Hdispatch|].
  unfold generate_text. rewrite Hdispatch, Hjson. cbn.
  destruct (respond (Completion kwargs)); reflexivity.
Qed.

Lemma generate_text_without_json_support_witness :
  generate_text (sample_library true)
    {| is_external_url := fun _ => false;
       resolve_file_path := fun path => Ok path;
       encode_file_to_base64_data_url := fun _ => Ok "data:";
       open_docx := fun _ => Raise (ValueError "not a document");
       b64encode := fun s => s |}
    (fun _ => Ok "Hello") [mk_message "user" "hi"]
    "anthropic/claude-3-5-sonnet-latest" 0.5 true 1000 None
    (Some [("photo", "https://example.org/a.png")]) None None
  = Ok (wrap_output "Hello").
Proof.
  refine (proj2 (generate_text_without_json_support (sample_library true)
                   {| is_external_url := fun _ => false;
                      resolve_file_path := fun path => Ok path;
                      encode_file_to_base64_data_url := fun _ => Ok "data:";
                      open_docx := fun _ => Raise (ValueError "not a document");
                      b64encode := fun s => s |}
                   (fun _ => Ok "Hello") [mk_message "user" "hi"]
                   "anthropic/claude-3-5-sonnet-latest" 0.5 true 1000 None
                   (Some [("photo", "https://example.org/a.png")]) None None _)).
  vm_compute. reflexivity.
Defined.

(** X22: Which call [generate_text] makes for a request that could be
    prepared.  The Ollama client is used exactly in JSON mode for a
    model with JSON output whose name starts with ollama; the messages
    are rewritten with the URL variables exactly in JSON mode for a
    model with JSON output whose name starts with gemini, when there
    are URL variables; in every other case the completion call gets the
    prepared request, with the instruction to answer in JSON put in
    front of the messages when JSON mode applies.  The response format
    of a completion call is the prepared one in either mode. *)
Theorem dispatch_backend (lib : library) (fs : files) (messages : list message)
    (model_name : string) (temperature : float) (json_mode : bool) (max_tokens : Z)
    (api_base : option string) (url_variables : option (list (string * string)))
    (output_json_schema : option string)
    (output_schema : option (list (string * json))) (kwargs : request) :
  prepare_request lib messages model_name temperature max_tokens
    output_json_schema output_schema = Ok kwargs ->
  let structured := json_mode && supports_json model_name in
  let ollama := startswith model_name "ollama" in
  let with_files := startswith model_name "gemini" && has_urls url_variables in
  match dispatch lib fs messages model_name temperature json_mode max_tokens api_base
          url_variables output_json_schema output_schema with
  | Ok (OllamaChat model t n sent base) =>
      structured = true /\ ollama = true
      /\ model = model_name /\ t = temperature /\ n = max_tokens
      /\ sent = kw_messages kwargs /\ base = api_base
  | Ok (CompletionWithFiles kw sent) =>
      structured = true /\ ollama = false /\ with_files = true /\ kw = kwargs
      /\ transform_messages fs (or_nil url_variables) (kw_messages kwargs) = Ok sent
  | Ok (Completion kw) =>
      kw_model kw = kw_model kwargs /\ kw_max_tokens kw = kw_max_tokens kwargs
      /\ kw_temperature kw = kw_temperature kwargs
      /\ kw_response_format kw = kw_response_format kwargs
      /\ ((structured = false /\ kw_messages kw = kw_messages kwargs)
          \/ (structured = true /\ ollama = false /\ with_files = false
              /\ kw_messages kw = json_only_message :: kw_messages kwargs))
  | Raise e =>
      structured = true /\ ollama = false /\ with_files = true
      /\ transform_messages fs (or_nil url_variables) (kw_messages kwargs) = Raise e
  end.
Proof.
  intros Hprepare structured ollama with_files. unfold dispatch. rewrite Hprepare. cbn.
  fold structured ollama with_files.
  destruct structured.
  2:{ repeat split; try reflexivity. by left. }
  destruct ollama.
  { repeat split; reflexivity. }
  destruct with_files.
  2:{ cbn. repeat split; try reflexivity. right. repeat split; reflexivity. }
  destruct (transform_messages fs (or_nil url_variables) (kw_messages kwargs)) as [sent|e];
    cbn; repeat split; reflexivity.
Qed.

Lemma dispatch_backend_witness :
  match dispatch (sample_library true)
          {| is_external_url := fun _ => false;
             resolve_file_path := fun path => Ok path;
             encode_file_to_base64_data_url := fun _ => Ok "data:";
             open_docx := fun _ => Raise (ValueError "not a document");
             b64encode := fun s => s |}
          [mk_message "system" "Be brief."; mk_message "user" "hi"]
          "ollama/phi4" 0.5 true 1000 (Some "http://localhost:11434") None None None with
  | Ok (OllamaChat model _ _ _ base) =>
      model = "ollama/phi4" /\ base = Some "http://localhost:11434"
  | _ => False
  end.
Proof.
  pose proof (dispatch_backend (sample_library true)
                {| is_external_url := fun _ => false;
                   resolve_file_path := fun path => Ok path;
                   encode_file_to_base64_data_url := fun _ => Ok "data:";
                   open_docx := fun _ => Raise (ValueError "not a document");
                   b64encode := fun s => s |}
                [mk_message "system" "Be brief."; mk_message "user" "hi"]
                "ollama/phi4" 0.5 true 1000 (Some "http://localhost:11434") None None None
                _ eq_refl) as H.
  cbv zeta in H.
  destruct (dispatch _ _ _ _ _ _ _ _ _ _ _) as [[model t n sent base|kw|kw sent]|e].
  - destruct H as (_ & _ & Hmodel & _ & _ & _ & Hbase). by split.
  - destruct H as (_ & _ & _ & _ & [[H _]|(_ & H & _)]); vm_compute in H; discriminate.
  - destruct H as (_ & H & _). vm_compute in H. discriminate.
  - destruct H as (_ & H & _). vm_compute in H. discriminate.
Defined.

Lemma add_url_parts_direct (fs : files) (url_variables : list (string * string)) :
  Forall (fun kv : string * string =>
            truthy kv.2 = true ->
            is_external_url fs kv.2 || startswith kv.2 "data:" = true) url_variables ->
  forall content,
    add_url_parts fs content url_variables
    = Ok (content ++ direct_parts (map snd url_variables)).
Proof.
  induction 1 as [|[key url] rest Hurl _ IH]; intros content.
  - cbn. by rewrite app_nil_r.
  - cbn [add_url_parts]. unfold url_part. cbn [snd] in Hurl.
    unfold direct_parts. cbn [map snd].
    destruct (truthy url) eqn:Htruthy.
    + rewrite filter_cons_True by exact Htruthy.
      rewrite (Hurl eq_refl). cbn [mbind result_bind bind map].
      rewrite IH. unfold direct_parts. by rewrite <- app_assoc.
    + rewrite filter_cons_False by congruence.
      cbn [mbind result_bind bind]. rewrite IH. unfold direct_parts.
      by rewrite app_nil_r.
Qed.

(** X23: When every URL variable is empty, an external URL or a data URL,
    the rewriting of the messages reads no file and cannot fail on
    one: each user message gets for content its text followed by one
    image part per URL that is not empty, in the order of the
    variables, and every other message is passed as it is. *)
Theorem transform_messages_direct (fs : files) (url_variables : list (string * string))
    (messages : list message) :
  Forall (fun kv : string * string =>
            truthy kv.2 = true ->
            is_external_url fs kv.2 || startswith kv.2 "data:" = true) url_variables ->
  Forall (fun m : message =>
            exists role, m !! "role" = Some role
                         /\ (role = "user" -> is_Some (m !! "content"))) messages ->
  exists transformed,
    transform_messages fs url_variables messages = Ok transformed
    /\ Forall2 (fun (m : message) (m' : gmap string json) =>
                  (m !! "role" = Some "user" ->
                   exists text,
                     m !! "content" = Some text
                     /\ m' = <["content" := JArr (text_part (JStr text)
                                                  :: direct_parts (map snd url_variables))]>
                               (plain m))
                  /\ (m !! "role" <> Some "user" -> m' = plain m))
         messages transformed.
Proof.
  intros Hurls Hmessages.
  induction Hmessages as [|m rest (role & Hrole & Hcontent) _ (rest' & Hrest & Hshape)].
  - exists []. split; [reflexivity | constructor].
  - cbn [transform_messages]. unfold getitem. rewrite Hrole. cbn.
    destruct (String.eqb_spec role "user") as [->|Hne].
    + destruct (Hcontent eq_refl) as [text Htext]. rewrite Htext. cbn.
      rewrite (add_url_parts_direct fs url_variables Hurls). cbn.
      rewrite Hrest. cbn. eexists. split; [reflexivity|].
      constructor; [|exact Hshape]. split.
      * intros _. exists text. split; [exact Htext | reflexivity].
      * intros Hno. by destruct Hno.
    + cbn. rewrite Hrest. cbn. eexists. split; [reflexivity|].
      constructor; [|exact Hshape]. split.
      * intros Huser. rewrite Hrole in Huser. injection Huser as ->. by destruct Hne.
      * intros _. reflexivity.
Qed.

Lemma transform_messages_direct_witness :
  exists transformed,
    transform_messages
      {| is_external_url := fun url => startswith url "https://";
         resolve_file_path := fun path => Raise (ValueError path);
         encode_file_to_base64_data_url := fun path => Raise (ValueError path);
         open_docx := fun path => Raise (ValueError path);
         b64encode := fun s => s |}
      [("photo", "https://example.org/a.png"); ("scan", "")]
      [mk_message "system" "Be brief."; mk_message "user" "what is this"]
    = Ok transformed
    /\ length transformed = 2%nat.
Proof.
  destruct (transform_messages_direct
              {| is_external_url := fun url => startswith url "https://";
                 resolve_file_path := fun path => Raise (ValueError path);
                 encode_file_to_base64_data_url := fun path => Raise (ValueError path);
                 open_docx := fun path => Raise (ValueError path);
                 b64encode := fun s => s |}
              [("photo", "https://example.org/a.png"); ("scan", "")]
              [mk_message "system" "Be brief."; mk_message "user" "what is this"])
    as (transformed & Hrun & Hshape).
  - repeat constructor; cbn; intros H; try discriminate; reflexivity.
  - repeat constructor.
    + exists "system". split; [vm_compute; reflexivity | discriminate].
    + exists "user". split; [vm_compute; reflexivity|]. intros _. vm_compute. by eexists.
  - exists transformed. split; [exact Hrun|].
    apply Forall2_length in Hshape. by rewrite <- Hshape.
Defined.

(** X24: Whatever call is made and whatever the arguments are, when the
    response is made of newlines and of characters from the space on,
    without a backslash, the text [generate_text] returns parses as
    JSON. *)
Theorem generate_text_returns_json (lib : library) (fs : files)
    (respond : backend_call -> result string) (messages : list message)
    (model_name : string) (temperature : float) (json_mode : bool) (max_tokens : Z)
    (api_base : option string) (url_variables : option (list (string * string)))
    (output_json_schema : option string)
    (output_schema : option (list (string * json))) (returned : string) :
  (forall call response, respond call = Ok response -> all_safe response = true) ->
  generate_text lib fs respond messages model_name temperature json_mode max_tokens
    api_base url_variables output_json_schema output_schema = Ok returned ->
  exists v, loads returned = Ok v.
Proof.
  intros Hsafe. unfold generate_text.
  destruct (dispatch _ _ _ _ _ _ _ _ _ _ _) as [call|e]; [|discriminate]. cbn.
  destruct (respond call) as [response|e] eqn:Hrespond; [|discriminate]. cbn.
  intros [= <-].
  destruct (finish_response_cases (supports_json model_name) response
              (Hsafe _ _ Hrespond)) as (v & Hv & _).
  by exists v.
Qed.

Lemma generate_text_returns_json_witness :
  exists v, loads (wrap_output "Hello") = Ok v.
Proof.
  refine (generate_text_returns_json (sample_library true)
            {| is_external_url := fun _ => false;
               resolve_file_path := fun path => Ok path;
               encode_file_to_base64_data_url := fun _ => Ok "data:";
               open_docx := fun _ => Raise (ValueError "not a document");
               b64encode := fun s => s |}
            (fun _ => Ok "Hello") [mk_message "user" "hi"]
            "anthropic/claude-3-5-sonnet-latest" 0.5 true 1000 None None None None
            (wrap_output "Hello") _ _).
  - intros call response [= <-]. reflexivity.
  - vm_compute. reflexivity.
Defined.

End DispatchFacts.

Section DocxOutcomeFacts.
Import Py Docx.

(** X18: [convert_docx_to_xml] logs nothing and returns a document for
    every file that docx2python opens and whose text is in ASCII: the
    declaration and the root, a metadata section with one element per
    property whose value is not empty, in the order of the properties,
    and a content section with one paragraph element per character of
    the text.  When the file cannot be opened it logs one line with
    the message of the error and raises the same error. *)
Theorem convert_docx_to_xml_outcome :
  (forall docx_content : DocxContent,
     is_ascii (text docx_content) = true ->
     convert_docx_to_xml (Ok docx_content)
     = ([], Ok (("<?xml version='1.0' encoding='UTF-8'?>" +:+ nl +:+ "<document>" +:+ nl)
                +:+ ("<metadata>" +:+ nl)
                +:+ concat_all (omap property_element (properties docx_content))
                +:+ ("</metadata>" +:+ nl)
                +:+ ("<content>" +:+ nl)
                +:+ concat_all (map (element "paragraph") (iter_str (text docx_content)))
                +:+ ("</content>" +:+ nl)
                +:+ "</document>"))
     /\ length (iter_str (text docx_content)) = String.length (text docx_content)
     /\ Forall (fun character => String.length character = 1%nat)
          (iter_str (text docx_content)))
  /\ (forall e : exn,
        convert_docx_to_xml (Raise e)
        = (["Error converting DOCX to XML: " +:+ exn_msg e], Raise e)).
Proof.
  split; [|reflexivity].
  intros docx_content _. split; [|split].
  - cbn [convert_docx_to_xml]. by rewrite render_structure.
  - apply length_iter_str.
  - induction (text docx_content) as [|c t IH]; constructor; [reflexivity | exact IH].
Qed.

Lemma convert_docx_to_xml_outcome_witness :
  convert_docx_to_xml (Ok {| properties := [("title", Some "Notes"); ("subject", Some "")];
                             text := "ab" |})
  = ([], Ok ("<?xml version='1.0' encoding='UTF-8'?>" +:+ nl
             +:+ "<document>" +:+ nl
             +:+ "<metadata>" +:+ nl
             +:+ "<title>Notes</title>" +:+ nl
             +:+ "</metadata>" +:+ nl
             +:+ "<content>" +:+ nl
             +:+ "<paragraph>a</paragraph>" +:+ nl
             +:+ "<paragraph>b</paragraph>" +:+ nl
             +:+ "</content>" +:+ nl
             +:+ "</document>")).
Proof.
  exact (proj1 (proj1 convert_docx_to_xml_outcome
                  {| properties := [("title", Some "Notes"); ("subject", Some "")];
                     text := "ab" |} eq_refl)).
Defined.

End DocxOutcomeFacts.
